(** * Cursor-RAG: the retrieval pipeline (server.js) and the task agent (agent.js)

    A shallow embedding of the JavaScript sources.  The functions of
    [server.js] and the methods of [TaskAgent] in [agent.js] are [async]:
    each is embedded as a program of the [Prog] monad below, whose nodes are
    the calls the code makes to its collaborators (the embedding service, the
    vector store, the language model and, for the agent, the three injected
    pipeline functions).  A [World] answers those calls, by a value or by
    throwing, and [run] executes a program in a world and records the calls
    that were made.

    Conventions of the model
    - a JavaScript value is data ([JsVal]): [undefined], [null], booleans,
      numbers, strings, arrays and plain objects.  Function-valued
      properties, getters, proxies and symbols are not modelled;
    - a number is an exact rational ([Q]); the two conversions between
      numbers and strings that ECMAScript defines on doubles are taken from
      a [Host] instance and nothing is assumed about them;
    - a string is a sequence of code units, here the 8-bit [ascii];
    - a thrown value is an [Error] object carrying its [message];
    - [console.log] and [console.error] are not modelled.

    The indexing steps, the counter, the log and the routes of [server.js]
    come after the pipeline, as programs of a second monad, [Task]. *)

From Stdlib Require Uint63.
From Stdlib Require DecimalPos.
From Corelib Require Import PrimFloat.
From Stdlib Require Import List String Ascii Bool Arith ZArith QArith Lia Lqa.
From Stdlib Require Import DecimalString.
From Equations Require Import Equations.
Import ListNotations.

Set Warnings "-register-all".
Local Close Scope Q_scope.
Local Open Scope nat_scope.
Local Open Scope list_scope.
Local Open Scope string_scope.

(** ** Values *)

Inductive JsVal : Type :=
| JUndefined
| JNull
| JBool (b : bool)
| JNum (x : Q)
| JStr (s : string)
| JArr (items : list JsVal)
| JObj (fields : list (string * JsVal)).

(** A thrown exception: an [Error] made by the program or a collaborator,
    or a [TypeError] raised by the runtime. *)
Inductive JsError : Type :=
| Error (msg : string)
| TypeError (msg : string).

Definition message (e : JsError) : string :=
  match e with Error m => m | TypeError m => m end.

Inductive Result (A : Type) : Type :=
| Ok (a : A)
| Thrown (e : JsError).
Arguments Ok {A} a.
Arguments Thrown {A} e.

(** The conversions ECMAScript defines on doubles: [Number::toString] and
    [StringToNumber] ([None] is NaN). *)
Class Host : Type := {
  number_to_string : Q -> string;
  string_to_number : string -> option Q
}.

(** ** Programs

    The calls a program makes to its collaborators.  A constructor call
    ([new Pinecone], ...) is a call as well: it may throw. *)
Inductive Call : Type :=
| NewGoogleGenerativeAIEmbeddings (model : string)
| EmbedQuery (question : JsVal)           (* embeddings.embedQuery *)
| NewPinecone
| PineconeIndex (name : string)           (* pinecone.index *)
| IndexQuery (vector : JsVal) (topK : nat) (includeMetadata : bool)
| IndexUpsert (batch : list JsVal)        (* index.upsert *)
| NewGoogleGenAI
| GenerateContent (model contents : string)  (* models.generateContent *)
| SearchKnowledgeBase (query : JsVal)     (* this.searchKnowledgeBase *)
| GenerateAnswer (query context : JsVal)  (* this.generateAnswer *)
| QueryCounter.                           (* this.queryCounter *)

(** What a program reads from its environment without failing. *)
Inductive Clock : Type :=
| DateNow              (* Date.now() *)
| RandomBase36         (* Math.random().toString(36).substr(2, 9) *)
| DateToISOString.     (* new Date().toISOString() *)

Inductive Prog (A : Type) : Type :=
| Ret (a : A)
| Throw (e : JsError)
| Invoke (c : Call) (k : Result JsVal -> Prog A)
| Read (r : Clock) (k : JsVal -> Prog A).
Arguments Ret {A} a.
Arguments Throw {A} e.
Arguments Invoke {A} c k.
Arguments Read {A} r k.

Fixpoint bind {A B} (m : Prog A) (f : A -> Prog B) : Prog B :=
  match m with
  | Ret a => f a
  | Throw e => Throw e
  | Invoke c k => Invoke c (fun r => bind (k r) f)
  | Read r k => Read r (fun v => bind (k v) f)
  end.

(** [try { m } catch (error) { h error }] *)
Fixpoint try_catch {A} (m : Prog A) (h : JsError -> Prog A) : Prog A :=
  match m with
  | Ret a => Ret a
  | Throw e => h e
  | Invoke c k => Invoke c (fun r => try_catch (k r) h)
  | Read r k => Read r (fun v => try_catch (k v) h)
  end.

(** A call, awaited: the collaborator's exception is thrown at the call. *)
Definition call (c : Call) : Prog JsVal :=
  Invoke c (fun r => match r with Ok v => Ret v | Thrown e => Throw e end).

Definition read (r : Clock) : Prog JsVal := Read r Ret.

Notation "x <- m ;; k" := (bind m (fun x => k))
  (at level 61, m at next level, right associativity).
Notation "m ;; k" := (bind m (fun _ => k))
  (at level 61, right associativity).

(** A world answers every call, by a value or by throwing, and every read. *)
Record World : Type := {
  state : Type;
  respond : Call -> state -> Result JsVal * state;
  clock : Clock -> state -> JsVal * state
}.

Record Outcome (W : World) (A : Type) : Type := {
  result : Result A;
  trace : list (Call * Result JsVal);
  final : state W
}.
Arguments result {W A} o.
Arguments trace {W A} o.
Arguments final {W A} o.

Fixpoint run {A} (W : World) (p : Prog A) (s : state W) : Outcome W A :=
  match p with
  | Ret a => {| result := Ok a; trace := []; final := s |}
  | Throw e => {| result := Thrown e; trace := []; final := s |}
  | Invoke c k =>
      let o := run W (k (fst (respond W c s))) (snd (respond W c s)) in
      {| result := result o;
         trace := (c, fst (respond W c s)) :: trace o;
         final := final o |}
  | Read r k => run W (k (fst (clock W r s))) (snd (clock W r s))
  end.

(** The calls of a trace, without their answers. *)
Definition calls (t : list (Call * Result JsVal)) : list Call := map fst t.

(** ** Strings *)

Definition dq : string := String (ascii_of_nat 34) EmptyString.
Definition nl : string := String (ascii_of_nat 10) EmptyString.

Definition decimal (n : nat) : string := NilZero.string_of_uint (Nat.to_uint n).

Definition num (n : nat) : Q := inject_Z (Z.of_nat n).

(** WhiteSpace and LineTerminator code units below 256: TAB, LF, VT, FF, CR,
    SP and NBSP. *)
Definition is_whitespace (c : ascii) : bool :=
  let n := nat_of_ascii c in
  (Nat.leb 9 n && Nat.leb n 13) || Nat.eqb n 32 || Nat.eqb n 160.

Fixpoint trim_start (s : string) : string :=
  match s with
  | EmptyString => EmptyString
  | String c s' => if is_whitespace c then trim_start s' else s
  end.

Fixpoint rev_string (s acc : string) : string :=
  match s with
  | EmptyString => acc
  | String c s' => rev_string s' (String c acc)
  end.

(** [String.prototype.trim] *)
Definition trim (s : string) : string :=
  rev_string (trim_start (rev_string (trim_start s) EmptyString)) EmptyString.

(** [String.prototype.substring (start, end)] *)
Definition substring (start end_ : nat) (s : string) : string :=
  let a := Nat.min start (String.length s) in
  let b := Nat.min end_ (String.length s) in
  String.substring (Nat.min a b) (Nat.max a b - Nat.min a b) s.

(** [Array.prototype.join] on strings *)
Fixpoint join (sep : string) (l : list string) : string :=
  match l with
  | [] => EmptyString
  | [x] => x
  | x :: rest => x ++ sep ++ join sep rest
  end.

(** [Array.prototype.includes] on an array of strings *)
Definition includes (l : list string) (s : string) : bool :=
  existsb (String.eqb s) l.

(** ** Dynamic operations on values *)

Definition nullish (v : JsVal) : bool :=
  match v with JUndefined | JNull => true | _ => false end.

(** ToBoolean *)
Definition truthy (v : JsVal) : bool :=
  match v with
  | JUndefined | JNull => false
  | JBool b => b
  | JNum x => negb (Qeq_bool x 0%Q)
  | JStr s => negb (String.eqb s "")
  | JArr _ | JObj _ => true
  end.

(** ToString, as a template literal applies it to an interpolated value *)
Fixpoint to_string {H : Host} (v : JsVal) : string :=
  match v with
  | JUndefined => "undefined"
  | JNull => "null"
  | JBool true => "true"
  | JBool false => "false"
  | JNum x => number_to_string x
  | JStr s => s
  | JArr items =>
      join "," (map (fun x => if nullish x then "" else to_string x) items)
  | JObj _ => "[object Object]"
  end.

(** ToNumber; [None] is NaN *)
Definition to_number {H : Host} (v : JsVal) : option Q :=
  match v with
  | JUndefined => None
  | JNull => Some 0%Q
  | JBool b => Some (if b then 1%Q else 0%Q)
  | JNum x => Some x
  | JStr s => string_to_number s
  | JArr _ | JObj _ => string_to_number (to_string v)
  end.

(** [v > k] for a number literal [k] *)
Definition gt_num {H : Host} (v : JsVal) (k : Q) : bool :=
  match to_number v with
  | Some x => negb (Qle_bool x k)
  | None => false
  end.

(** [v === k] for a number literal [k] *)
Definition is_num (v : JsVal) (k : Q) : bool :=
  match v with JNum x => Qeq_bool x k | _ => false end.

(** [v === s] for a string literal [s] *)
Definition is_str (v : JsVal) (s : string) : bool :=
  match v with JStr t => String.eqb t s | _ => false end.

(** [typeof v === 'string'] *)
Definition typeof_string (v : JsVal) : bool :=
  match v with JStr _ => true | _ => false end.

(** [Array.isArray] *)
Definition isArray (v : JsVal) : bool :=
  match v with JArr _ => true | _ => false end.

Fixpoint lookup (name : string) (fields : list (string * JsVal)) : JsVal :=
  match fields with
  | [] => JUndefined
  | (k, v) :: rest => if String.eqb k name then v else lookup name rest
  end.

Fixpoint has_field (name : string) (fields : list (string * JsVal)) : bool :=
  match fields with
  | [] => false
  | (k, _) :: rest => String.eqb k name || has_field name rest
  end.

(** Defining a property of an object literal: a key already present keeps
    its place and takes the new value.  An object is kept as the list of
    its properties in the order of their definition; a property is only
    ever read by its name. *)
Fixpoint set_field (name : string) (v : JsVal) (fields : list (string * JsVal))
  : list (string * JsVal) :=
  match fields with
  | [] => [(name, v)]
  | (k, w) :: rest =>
      if String.eqb k name then (k, v) :: rest
      else (k, w) :: set_field name v rest
  end.

Fixpoint indexed (i : nat) (l : list JsVal) : list (string * JsVal) :=
  match l with
  | [] => []
  | x :: rest => (decimal i, x) :: indexed (S i) rest
  end.

Fixpoint chars (s : string) : list JsVal :=
  match s with
  | EmptyString => []
  | String c s' => JStr (String c EmptyString) :: chars s'
  end.

(** The own enumerable properties of a value, as [{...v}] copies them. *)
Definition own_props (v : JsVal) : list (string * JsVal) :=
  match v with
  | JObj fields => fields
  | JArr items => indexed 0 items
  | JStr s => indexed 0 (chars s)
  | _ => []
  end.

(** [{...fields, ...v}] *)
Definition spread (fields : list (string * JsVal)) (v : JsVal)
  : list (string * JsVal) :=
  fold_left (fun acc kv => set_field (fst kv) (snd kv) acc) (own_props v) fields.

Definition cannot_read (v : JsVal) (name : string) : JsError :=
  TypeError ("Cannot read properties of "
             ++ match v with JNull => "null" | _ => "undefined" end
             ++ " (reading '" ++ name ++ "')").

Definition not_a_function (name : string) : JsError :=
  TypeError (name ++ " is not a function").

(** [v.name]: a property read; it throws on [undefined] and [null]. *)
Definition get (v : JsVal) (name : string) : Prog JsVal :=
  match v with
  | JUndefined | JNull => Throw (cannot_read v name)
  | JObj fields => Ret (lookup name fields)
  | JArr items =>
      if String.eqb name "length" then Ret (JNum (num (List.length items)))
      else Ret (lookup name (indexed 0 items))
  | JStr s =>
      if String.eqb name "length" then Ret (JNum (num (String.length s)))
      else Ret (lookup name (indexed 0 (chars s)))
  | JBool _ | JNum _ => Ret JUndefined
  end.

(** [v[i]] for a number literal [i] *)
Definition get_index (v : JsVal) (i : nat) : Prog JsVal :=
  match v with
  | JArr items => Ret (nth i items JUndefined)
  | _ => get v (decimal i)
  end.

(** [v?.name] *)
Definition get_optional (v : JsVal) (name : string) : Prog JsVal :=
  if nullish v then Ret JUndefined else get v name.

(** [receiver.name(...)] for a method of [String.prototype]: it throws
    unless the receiver's value [v] is a string. *)
Definition string_method {A} (receiver name : string) (v : JsVal)
    (f : string -> A) : Prog A :=
  match v with
  | JStr s => Ret (f s)
  | JUndefined | JNull => Throw (cannot_read v name)
  | _ => Throw (not_a_function (receiver ++ "." ++ name))
  end.

(** [receiver.name(...)] for a method of [Array.prototype]: it throws
    unless the receiver's value [v] is an array. *)
Definition array_method {A} (receiver name : string) (v : JsVal)
    (f : list JsVal -> Prog A) : Prog A :=
  match v with
  | JArr items => f items
  | JUndefined | JNull => Throw (cannot_read v name)
  | _ => Throw (not_a_function (receiver ++ "." ++ name))
  end.

(** [items.map((x, i) => f x i)] from index [i] on *)
Fixpoint mapi_from (f : JsVal -> nat -> Prog JsVal) (i : nat) (l : list JsVal)
  : Prog (list JsVal) :=
  match l with
  | [] => Ret []
  | x :: rest =>
      y <- f x i ;; ys <- mapi_from f (S i) rest ;; Ret (y :: ys)
  end.

(** [items.filter(x => f x)] *)
Fixpoint filter_from (f : JsVal -> Prog bool) (l : list JsVal)
  : Prog (list JsVal) :=
  match l with
  | [] => Ret []
  | x :: rest =>
      keep <- f x ;; ys <- filter_from f rest ;;
      Ret (if keep then x :: ys else ys)
  end.

(** [receiver.map(f)] *)
Definition array_map (receiver : string) (v : JsVal)
    (f : JsVal -> nat -> Prog JsVal) : Prog JsVal :=
  array_method receiver "map" v
    (fun items => ys <- mapi_from f 0 items ;; Ret (JArr ys)).

(** [receiver.filter(f)] *)
Definition array_filter (receiver : string) (v : JsVal)
    (f : JsVal -> Prog bool) : Prog JsVal :=
  array_method receiver "filter" v
    (fun items => ys <- filter_from f items ;; Ret (JArr ys)).

(** [a && b]: the value of [a] when it is falsy, else the value of [b]. *)
Definition and_then (a b : Prog JsVal) : Prog JsVal :=
  x <- a ;; if truthy x then b else Ret x.

(** ** agent.js: the class [TaskAgent] *)

Module TaskAgent.

Definition knownIntents : list string :=
  ["answer_question"; "search_knowledge_base"; "get_query_count"].

Definition indent : string := "            ".

(** The prompt of [analyzeIntent], for the interpolated [query]. *)
Definition intentPrompt {H : Host} (query : JsVal) : string :=
  "Classify the following user query into one of these categories:" ++ nl
  ++ indent ++ "- " ++ dq ++ "answer_question" ++ dq
  ++ ": The user is asking a question that requires a direct answer from the knowledge base." ++ nl
  ++ indent ++ "- " ++ dq ++ "search_knowledge_base" ++ dq
  ++ ": The user wants to search the knowledge base for relevant documents or chunks." ++ nl
  ++ indent ++ "- " ++ dq ++ "get_query_count" ++ dq
  ++ ": The user wants to know the current total number of queries." ++ nl
  ++ indent ++ "- " ++ dq ++ "unknown" ++ dq
  ++ ": The query does not fit into any of the above categories." ++ nl
  ++ nl
  ++ indent ++ "Respond with only the category name." ++ nl
  ++ nl
  ++ indent ++ "Query: " ++ dq ++ to_string query ++ dq ++ nl
  ++ indent ++ "Category:".

(** [result.text.trim()] *)
Definition responseText (result : JsVal) : Prog string :=
  text <- get result "text" ;; string_method "result.text" "trim" text trim.

Definition classify (responseText : string) : string :=
  if includes knownIntents responseText then responseText else "unknown".

Definition analyzeIntent {H : Host} (query : JsVal) : Prog JsVal :=
  try_catch
    (let prompt := intentPrompt query in
     result <- call (GenerateContent "gemini-2.5-flash" prompt) ;;
     responseText <- responseText result ;;
     let classifiedIntent := classify responseText in
     Ret (JObj [("intent", JStr classifiedIntent)]))
    (fun error =>
       Ret (JObj [("intent", JStr "unknown"); ("error", JStr (message error))])).

Definition noInformation : string :=
  "I couldn't find any relevant information in the document store to answer that question.".

(** The [switch] statement of [executeTools]. *)
Definition dispatch {H : Host} (intent query : JsVal) : Prog JsVal :=
  if is_str intent "answer_question" then
    searchResults <- call (SearchKnowledgeBase query) ;;
    found <- and_then (get searchResults "success")
                      (results <- get searchResults "results" ;;
                       len <- get results "length" ;;
                       Ret (JBool (gt_num len 0%Q))) ;;
    if truthy found then
      results <- get searchResults "results" ;;
      context <- array_map "searchResults.results" results
                   (fun r _ => get r "content") ;;
      answer <- call (GenerateAnswer query context) ;;
      chunksRetrieved <- get context "length" ;;
      Ret (JObj [("type", JStr "answer"); ("answer", answer);
                 ("chunksRetrieved", chunksRetrieved);
                 ("searchResults", results)])
    else
      Ret (JObj [("type", JStr "answer"); ("answer", JStr noInformation);
                 ("chunksRetrieved", JNum 0%Q)])
  else if is_str intent "search_knowledge_base" then
    kbSearchResults <- call (SearchKnowledgeBase query) ;;
    Ret (JObj (spread [("type", JStr "search")] kbSearchResults))
  else if is_str intent "get_query_count" then
    count <- call QueryCounter ;;
    Ret (JObj [("type", JStr "query_count"); ("count", count)])
  else
    Ret (JObj [("type", JStr "error");
               ("message", JStr "I don't understand that request.")]).

Definition executeTools {H : Host} (intent query : JsVal) : Prog JsVal :=
  try_catch
    (dispatch intent query)
    (fun error =>
       Ret (JObj [("type", JStr "error");
                  ("message", JStr ("An error occurred while processing your request: "
                                    ++ message error))])).

Definition noResults : string :=
  "No relevant documents found for your search query in the knowledge base.".

(** [toolOutput.results && toolOutput.results[0]
     && toolOutput.results[0].content] *)
Definition topContent (toolOutput : JsVal) : Prog JsVal :=
  and_then (get toolOutput "results")
    (and_then (results <- get toolOutput "results" ;; get_index results 0)
              (results <- get toolOutput "results" ;;
               first <- get_index results 0 ;;
               get first "content")).

Definition generateResponse {H : Host} (intent toolOutput : JsVal) : Prog JsVal :=
  type <- get toolOutput "type" ;;
  if is_str type "answer" then
    get toolOutput "answer"
  else if is_str type "search" then
    positive <- and_then (get toolOutput "success")
                         (resultCount <- get toolOutput "resultCount" ;;
                          Ret (JBool (gt_num resultCount 0%Q))) ;;
    if truthy positive then
      present <- topContent toolOutput ;;
      if truthy present then
        results <- get toolOutput "results" ;;
        first <- get_index results 0 ;;
        content <- get first "content" ;;
        head <- string_method "toolOutput.results[0].content" "substring"
                content (substring 0 150) ;;
        let firstResultContent := head ++ "..." in
        resultCount <- get toolOutput "resultCount" ;;
        Ret (JStr ("Found " ++ to_string resultCount
                   ++ " relevant results. Here's a snippet from the top result: "
                   ++ dq ++ firstResultContent ++ dq))
      else
        resultCount <- get toolOutput "resultCount" ;;
        Ret (JStr ("Found " ++ to_string resultCount
                   ++ " relevant results in the knowledge base."))
    else
      zero <- and_then (get toolOutput "success")
                       (resultCount <- get toolOutput "resultCount" ;;
                        Ret (JBool (is_num resultCount 0%Q))) ;;
      if truthy zero then
        Ret (JStr noResults)
      else
        message <- get toolOutput "message" ;;
        Ret (JStr ("I encountered an issue while searching the knowledge base: "
                   ++ to_string message))
  else if is_str type "query_count" then
    count <- get toolOutput "count" ;;
    Ret (JStr ("The total number of queries processed so far is: "
               ++ to_string count ++ "."))
  else if is_str type "error" then
    get toolOutput "message"
  else
    Ret (JStr "I'm sorry, I couldn't process that request fully. Please try again.").

End TaskAgent.

(** ** server.js: the retrieval pipeline *)

Module Server.

Definition PINECONE_INDEX_NAME : string := "rag-exercise-768".

(** [records.slice(i, j)] for [i <= j] *)
Definition slice (i j : nat) (l : list JsVal) : list JsVal :=
  firstn (j - i) (skipn i l).

(** One element of [records]: the callback of [chunks.map] at index [i]. *)
Definition buildRecord {H : Host} (vectors : list JsVal) (chunk : JsVal) (i : nat)
  : Prog JsVal :=
  now <- read DateNow ;;
  suffix <- read RandomBase36 ;;
  timestamp <- read DateToISOString ;;
  Ret (JObj [("id", JStr ("chunk_" ++ decimal i ++ "_" ++ to_string now
                          ++ "_" ++ to_string suffix));
             ("values", nth i vectors JUndefined);
             ("metadata", JObj [("text", chunk); ("timestamp", timestamp)])]).

Definition batchSize : nat := 100.

(** [for (let i = ...; i < records.length; i += batchSize)
       await index.upsert(records.slice(i, i + batchSize))] *)
Equations? upsertFrom (records : list JsVal) (i : nat) : Prog unit
  by wf (List.length records - i) lt :=
  upsertFrom records i with lt_dec i (List.length records) := {
    | left _ =>
        call (IndexUpsert (slice i (i + batchSize) records)) ;;
        upsertFrom records (i + batchSize)
    | right _ => Ret tt }.
Proof. unfold batchSize. lia. Qed.

Definition storeInPinecone {H : Host} (chunks vectors : list JsVal) : Prog JsVal :=
  if negb (Nat.eqb (List.length chunks) (List.length vectors)) then
    Throw (Error "Mismatch between chunks and vectors length")
  else
    call NewPinecone ;;
    call (PineconeIndex PINECONE_INDEX_NAME) ;;
    records <- mapi_from (buildRecord vectors) 0 chunks ;;
    upsertFrom records 0 ;;
    Ret (JNum (num (List.length records))).

(** [match.metadata?.text && typeof match.metadata.text === 'string'] *)
Definition hasText (match_ : JsVal) : Prog bool :=
  kept <- and_then (metadata <- get match_ "metadata" ;; get_optional metadata "text")
                   (metadata <- get match_ "metadata" ;;
                    text <- get metadata "text" ;;
                    Ret (JBool (typeof_string text))) ;;
  Ret (truthy kept).

Definition queryDocument (question : JsVal) : Prog JsVal :=
  if negb (truthy question) || negb (typeof_string question) then
    Throw (Error "Invalid question provided")
  else
    call (NewGoogleGenerativeAIEmbeddings "text-embedding-004") ;;
    queryVector <- call (EmbedQuery question) ;;
    call NewPinecone ;;
    call (PineconeIndex PINECONE_INDEX_NAME) ;;
    searchResults <- call (IndexQuery queryVector 3 true) ;;
    matches <- get searchResults "matches" ;;
    withText <- array_filter "searchResults.matches" matches hasText ;;
    array_map "searchResults.matches.filter(...)" withText (fun match_ _ =>
      metadata <- get match_ "metadata" ;; get metadata "text").

(** [!query || typeof query !== 'string' || query.trim() === ''] *)
Definition invalidQuery (query : JsVal) : Prog bool :=
  if negb (truthy query) || negb (typeof_string query) then Ret true
  else
    trimmed <- string_method "query" "trim" query trim ;;
    Ret (String.eqb trimmed "").

(** [1 - (index * 0.1)], in exact arithmetic *)
Definition relevanceScore (index : nat) : Q := (1 - num index * (1 # 10))%Q.

(** The callback of [rawSearchResults.map] in [searchKnowledgeBase]. *)
Definition formatResult (chunk : JsVal) (index : nat) : Prog JsVal :=
  Ret (JObj [("chunkId", JStr ("chunk_" ++ decimal index));
             ("content", chunk);
             ("relevanceScore", JNum (relevanceScore index))]).

(** The [try] block of [searchKnowledgeBase]. *)
Definition search {H : Host} (query : JsVal) : Prog JsVal :=
  invalid <- invalidQuery query ;;
  if (invalid : bool) then
    Throw (Error "Query cannot be empty or invalid.")
  else
    rawSearchResults <- queryDocument query ;;
    formattedResults <- array_map "rawSearchResults" rawSearchResults formatResult ;;
    resultCount <- get formattedResults "length" ;;
    Ret (JObj [("success", JBool true);
               ("query", query);
               ("results", formattedResults);
               ("resultCount", resultCount);
               ("message",
                JStr (if gt_num resultCount 0%Q
                      then "Search completed successfully."
                      else "No relevant results found."))]).

Definition searchKnowledgeBase {H : Host} (query : JsVal) : Prog JsVal :=
  try_catch
    (search query)
    (fun error =>
       Ret (JObj [("success", JBool false);
                  ("query", query);
                  ("results", JArr []);
                  ("resultCount", JNum 0%Q);
                  ("message", JStr ("Failed to perform knowledge base search: "
                                    ++ message error));
                  ("errorDetails", JStr (message error))])).

(** The callback of [context.map] in [generateAnswer]: [`[${i + 1}] ${c}`]. *)
Definition labelled {H : Host} (c : JsVal) (i : nat) : string :=
  "[" ++ decimal (i + 1) ++ "] " ++ to_string c.

Fixpoint labelled_from {H : Host} (i : nat) (context : list JsVal) : list string :=
  match context with
  | [] => []
  | c :: rest => labelled c i :: labelled_from (S i) rest
  end.

Definition promptHeader {H : Host} (question : JsVal) : string :=
  "You are a helpful assistant. Answer the question using ONLY the provided context." ++ nl
  ++ "If the answer is not found in the context, state that clearly and do not make up information." ++ nl
  ++ nl
  ++ "Question: " ++ to_string question ++ nl
  ++ nl
  ++ "Context:" ++ nl.

Definition promptFooter : string :=
  nl ++ nl ++ "Answer with citations (e.g., [1], [2]):".

(** The prompt of [generateAnswer]: the passages, labelled and joined by
    an empty line, between the two fixed parts of the template. *)
Definition answerPrompt {H : Host} (question : JsVal) (context : list JsVal)
  : string :=
  promptHeader question
  ++ join (nl ++ nl) (labelled_from 0 context)
  ++ promptFooter.

Definition generateAnswer {H : Host} (question context : JsVal) : Prog JsVal :=
  match context with
  | JArr items =>
      if Nat.eqb (List.length items) 0 then
        Throw (Error "No context available for answer generation")
      else
        call NewGoogleGenAI ;;
        let prompt := answerPrompt question items in
        response <- call (GenerateContent "gemini-2.5-flash" prompt) ;;
        get response "text"
  | _ => Throw (Error "No context available for answer generation")
  end.

End Server.

(** * server.js: the indexing steps, the counter, the log and the routes

    The rest of [server.js] also splits documents, embeds them, keeps two
    files under [logs/] and answers HTTP requests.  Its functions are
    embedded as programs of the [Task] monad, whose effects extend the
    calls of the pipeline.

    Conventions of this part
    - an effect is typed as its library declares it: [splitText] and
      [embedDocuments] answer with an array, [fs.readFile] with the
      ['utf8'] encoding answers with a string, [Date.now()] is a number;
    - what a handler can catch carries, besides the error, its [code]
      property, which Node's file system sets; the pipeline never reads a
      code, and an exception that crosses it is seen by its error only;
    - a path is the expression [path.join] builds it from;
    - the response of a route is the result of its handler: every path of
      a handler sends one response, by [res.status(...).json(...)], and
      does nothing after it;
    - a count is an exact integer; a JavaScript number is exact up to
      [2^53]. *)

Inductive Path : Type :=
| Cwd                                   (* process.cwd() *)
| Join (dir : Path) (name : string).    (* path.join(dir, name) *)

(** What a handler can catch: an error and its [code]. *)
Record Exception : Type := { reason : JsError; code : JsVal }.

(** An error without a [code]: what [new Error(...)] and the runtime's
    [TypeError]s are. *)
Definition plain (e : JsError) : Exception := {| reason := e; code := JUndefined |}.

Inductive Reply (A : Type) : Type :=
| Returns (a : A)
| Fails (x : Exception).
Arguments Returns {A} a.
Arguments Fails {A} x.

Inductive Effect : Type -> Type :=
| Service (c : Call) : Effect JsVal
| NewRecursiveCharacterTextSplitter (chunkSize chunkOverlap : nat) : Effect JsVal
| SplitText (text : JsVal) : Effect (list JsVal)         (* splitter.splitText *)
| EmbedDocuments (documents : JsVal) : Effect (list JsVal)  (* embeddings.embedDocuments *)
| Mkdir (dir : Path) : Effect JsVal          (* fs.mkdir(dir, { recursive: true }) *)
| ReadFile (file : Path) : Effect string     (* fs.readFile(file, 'utf8') *)
| WriteFile (file : Path) (data : string) : Effect JsVal   (* fs.writeFile(file, data, 'utf8') *)
| AppendFile (file : Path) (data : string) : Effect JsVal. (* fs.appendFile(file, data) *)

Inductive Task (A : Type) : Type :=
| Done (a : A)
| Raise (x : Exception)
| Perform {X : Type} (e : Effect X) (k : Reply X -> Task A)
| Look (r : Clock) (k : JsVal -> Task A)
| Now (k : Q -> Task A).                 (* Date.now() *)
Arguments Done {A} a.
Arguments Raise {A} x.
Arguments Perform {A X} e k.
Arguments Look {A} r k.
Arguments Now {A} k.

Fixpoint chain {A B} (t : Task A) (f : A -> Task B) : Task B :=
  match t with
  | Done a => f a
  | Raise x => Raise x
  | Perform e k => Perform e (fun r => chain (k r) f)
  | Look r k => Look r (fun v => chain (k v) f)
  | Now k => Now (fun t => chain (k t) f)
  end.

(** [try { t } catch (error) { h error }] *)
Fixpoint attempt {A} (t : Task A) (h : Exception -> Task A) : Task A :=
  match t with
  | Done a => Done a
  | Raise x => h x
  | Perform e k => Perform e (fun r => attempt (k r) h)
  | Look r k => Look r (fun v => attempt (k v) h)
  | Now k => Now (fun t => attempt (k t) h)
  end.

(** An effect, awaited: its exception is thrown where it is performed. *)
Definition perform {X} (e : Effect X) : Task X :=
  Perform e (fun r => match r with Returns a => Done a | Fails x => Raise x end).

Definition now : Task Q := Now Done.

Definition look (r : Clock) : Task JsVal := Look r Done.

Declare Scope task_scope.
Delimit Scope task_scope with task.
Notation "x <- m ;; k" := (chain m (fun x => k))
  (at level 61, m at next level, right associativity) : task_scope.
Notation "m ;; k" := (chain m (fun _ => k))
  (at level 61, right associativity) : task_scope.

(** What the pipeline sees of a reply. *)
Definition seen {A} (r : Reply A) : Result A :=
  match r with Returns a => Ok a | Fails x => Thrown (reason x) end.

(** A program of the pipeline, run by the server. *)
Fixpoint lift {A} (p : Prog A) : Task A :=
  match p with
  | Ret a => Done a
  | Throw e => Raise (plain e)
  | Invoke c k => Perform (Service c) (fun r => lift (k (seen r)))
  | Read DateNow k => Now (fun t => lift (k (JNum t)))
  | Read r k => Look r (fun v => lift (k v))
  end.

Coercion lift : Prog >-> Task.

(** A task whose outcome is awaited as a value: it never throws. *)
Definition settle {A} (t : Task A) : Task (Result A) :=
  attempt (chain t (fun a => Done (Ok a))) (fun x => Done (Thrown (reason x))).

(** A system answers every effect, by a value or by failing, and tells the
    time. *)
Record System : Type := {
  memory : Type;
  answer : forall X, Effect X -> memory -> Reply X * memory;
  wall : Clock -> memory -> JsVal * memory;
  millis : memory -> Q * memory
}.

Inductive Event : Type :=
| Did {X : Type} (e : Effect X) (r : Reply X).

Record Execution (S : System) (A : Type) : Type := {
  outcome : Reply A;
  log : list Event;
  after : memory S
}.
Arguments outcome {S A} e.
Arguments log {S A} e.
Arguments after {S A} e.

Fixpoint exec {A} (S : System) (t : Task A) (s : memory S) : Execution S A :=
  match t with
  | Done a => {| outcome := Returns a; log := []; after := s |}
  | Raise x => {| outcome := Fails x; log := []; after := s |}
  | Perform e k =>
      let r := exec S (k (fst (answer S _ e s))) (snd (answer S _ e s)) in
      {| outcome := outcome r;
         log := Did e (fst (answer S _ e s)) :: log r;
         after := after r |}
  | Look c k => exec S (k (fst (wall S c s))) (snd (wall S c s))
  | Now k => exec S (k (fst (millis S s))) (snd (millis S s))
  end.

(** ** More of the language *)

Definition cannot_destructure (v : JsVal) (name source : string) : JsError :=
  TypeError ("Cannot destructure property '" ++ name ++ "' of '" ++ source
             ++ "' as it is "
             ++ match v with JNull => "null" | _ => "undefined" end ++ ".").

(** [const { name } = source] *)
Definition destructure (v : JsVal) (name source : string) : Prog JsVal :=
  if nullish v then Throw (cannot_destructure v name source) else get v name.

(** [a || b] *)
Definition or_else (a b : JsVal) : JsVal := if truthy a then a else b.

(** [s.repeat(n)] *)
Fixpoint repeat_string (s : string) (n : nat) : string :=
  match n with
  | O => EmptyString
  | S n' => s ++ repeat_string s n'
  end.

(** The decimal digits a string starts with. *)
Fixpoint digits (s : string) : Decimal.uint :=
  match s with
  | EmptyString => Decimal.Nil
  | String c s' =>
      match c with
      | "0"%char => Decimal.D0 (digits s')
      | "1"%char => Decimal.D1 (digits s')
      | "2"%char => Decimal.D2 (digits s')
      | "3"%char => Decimal.D3 (digits s')
      | "4"%char => Decimal.D4 (digits s')
      | "5"%char => Decimal.D5 (digits s')
      | "6"%char => Decimal.D6 (digits s')
      | "7"%char => Decimal.D7 (digits s')
      | "8"%char => Decimal.D8 (digits s')
      | "9"%char => Decimal.D9 (digits s')
      | _ => Decimal.Nil
      end
  end.

(** [parseInt(s, 10)]; [None] is NaN.  Leading whitespace is skipped, one
    sign is read, and the digits that follow are the number, whatever comes
    after them. *)
Definition parseInt (s : string) : option Z :=
  let trimmed := trim_start s in
  let negative := match trimmed with String "-"%char _ => true | _ => false end in
  let unsigned :=
    match trimmed with
    | String "-"%char rest => rest
    | String "+"%char rest => rest
    | _ => trimmed
    end in
  match digits unsigned with
  | Decimal.Nil => None
  | d => Some (if negative then (- Z.of_uint d)%Z else Z.of_uint d)
  end.

(** [n.toString()] for an integer [n] *)
Definition integer (n : Z) : string := NilZero.string_of_int (Z.to_int n).

(** ** The functions and routes *)

Module App.
Import TaskAgent Server.
Local Open Scope task_scope.

Record Response : Type := { status : nat; json : JsVal }.

Section Handlers.
Context {H : Host}.

(** [process.env.NODE_ENV || 'development'], read when the server starts *)
Variable NODE_ENV : string.

Definition processDocument (documentText : JsVal) : Task (list JsVal) :=
  if negb (truthy documentText) || negb (typeof_string documentText) then
    Raise (plain (Error "Invalid document text provided"))
  else
    perform (NewRecursiveCharacterTextSplitter 500 100) ;;
    chunks <- perform (SplitText documentText) ;;
    if Nat.eqb (List.length chunks) 0 then
      Raise (plain (Error "Document chunking resulted in zero chunks"))
    else
      Done chunks.

(** [!vectors || vectors.length === 0 || vectors[0].length === 0] *)
Definition emptyVectors (vectors : list JsVal) : Task bool :=
  if negb (truthy (JArr vectors)) then Done true
  else if Nat.eqb (List.length vectors) 0 then Done true
  else
    first <- get_index (JArr vectors) 0 ;;
    len <- get first "length" ;;
    Done (is_num len 0%Q).

Definition generateEmbeddings (chunks : JsVal) : Task (list JsVal) :=
  match chunks with
  | JArr items =>
      if Nat.eqb (List.length items) 0 then
        Raise (plain (Error "Invalid chunks array provided"))
      else
        perform (Service (NewGoogleGenerativeAIEmbeddings "text-embedding-004")) ;;
        vectors <- perform (EmbedDocuments chunks) ;;
        empty <- emptyVectors vectors ;;
        if (empty : bool) then
          Raise (plain (Error "Failed to generate valid embeddings - empty vectors returned"))
        else
          Done vectors
  | _ => Raise (plain (Error "Invalid chunks array provided"))
  end.

Definition logsDir : Path := Join Cwd "logs".

(** The entry [logQuery] appends for a query. *)
Definition logEntry (timestamp query answer chunksRetrieved duration : JsVal)
  : string :=
  "[" ++ to_string timestamp ++ "] Query: " ++ dq ++ to_string query ++ dq ++ nl
  ++ "Answer: " ++ dq ++ to_string answer ++ dq ++ nl
  ++ "Chunks Retrieved: " ++ to_string chunksRetrieved ++ nl
  ++ "Duration: " ++ to_string duration ++ "ms" ++ nl
  ++ repeat_string "-" 80 ++ nl ++ nl.

Definition logQuery (query answer chunksRetrieved duration : JsVal)
  : Task JsVal :=
  let logFilePath := Join logsDir "query-log.txt" in
  attempt
    (perform (Mkdir logsDir) ;;
     timestamp <- look DateToISOString ;;
     perform (AppendFile logFilePath
                (logEntry timestamp query answer chunksRetrieved duration)) ;;
     Done JUndefined)
    (fun error => Done JUndefined).

Definition queryCounter : Task JsVal :=
  let countFilePath := Join logsDir "query-count.txt" in
  attempt
    (perform (Mkdir logsDir) ;;
     currentCount <-
       attempt
         (data <- perform (ReadFile countFilePath) ;;
          match parseInt data with
          | Some n => Done n
          | None => Done 0%Z
          end)
         (fun readError =>
            if is_str (code readError) "ENOENT" then Done 0%Z
            else Raise readError) ;;
     let currentCount := (currentCount + 1)%Z in
     perform (WriteFile countFilePath (integer currentCount)) ;;
     Done (JNum (inject_Z currentCount)))
    (fun error => Raise (plain (Error "Failed to update query count."))).

(** [new TaskAgent({ genAI: ai, ragFunctions })]: a method of the agent
    with its three collaborators bound to the server's own functions. *)
Fixpoint wire {A} (p : Prog A) : Task A :=
  match p with
  | Ret a => Done a
  | Throw e => Raise (plain e)
  | Invoke (SearchKnowledgeBase query) k =>
      r <- settle (lift (searchKnowledgeBase query)) ;; wire (k r)
  | Invoke (GenerateAnswer question context) k =>
      r <- settle (lift (generateAnswer question context)) ;; wire (k r)
  | Invoke QueryCounter k =>
      r <- settle queryCounter ;; wire (k r)
  | Invoke c k => Perform (Service c) (fun r => wire (k (seen r)))
  | Read DateNow k => Now (fun t => wire (k (JNum t)))
  | Read r k => Look r (fun v => wire (k v))
  end.

(** [res.status(status).json({ ...fields })] *)
Definition send (status : nat) (fields : list (string * JsVal)) : Task Response :=
  Done {| status := status; json := JObj fields |}.

(** [NODE_ENV === 'development' ? message : undefined] *)
Definition details (message : JsVal) : JsVal :=
  if String.eqb NODE_ENV "development" then message else JUndefined.

(** [app.post('/api/index-document', ...)] *)
Definition indexDocument (req : JsVal) : Task Response :=
  startTime <- now ;;
  attempt
    (body <- get req "body" ;;
     documentText <- destructure body "documentText" "req.body" ;;
     if negb (truthy documentText) then
       send 400 [("error", JStr "Document text is required.");
                 ("success", JBool false)]
     else if negb (typeof_string documentText) then
       send 400 [("error", JStr "Document text must be a string.");
                 ("success", JBool false)]
     else
       len <- get documentText "length" ;;
       if gt_num len 500000%Q then
         send 400 [("error", JStr "Document text exceeds maximum length of 500,000 characters.");
                   ("success", JBool false)]
       else
         chunks <- processDocument documentText ;;
         vectors <- generateEmbeddings (JArr chunks) ;;
         recordCount <- storeInPinecone chunks vectors ;;
         finish <- now ;;
         let duration := (finish - startTime)%Q in
         send 200 [("message", JStr ("Document successfully indexed with "
                                     ++ decimal (List.length chunks) ++ " chunks."));
                   ("success", JBool true);
                   ("chunkCount", JNum (num (List.length chunks)));
                   ("recordCount", recordCount);
                   ("duration", JNum duration)])
    (fun error =>
       finish <- now ;;
       let duration := (finish - startTime)%Q in
       send 500 [("error", JStr "Failed to index document. Please try again.");
                 ("success", JBool false);
                 ("details", details (JStr (message (reason error))));
                 ("duration", JNum duration)]).

(** [!question || typeof question !== 'string' || question.trim() === ''] *)
Definition emptyQuestion (question : JsVal) : Task bool :=
  if negb (truthy question) || negb (typeof_string question) then Done true
  else
    trimmed <- string_method "question" "trim" question trim ;;
    Done (String.eqb trimmed "").

(** The response of [/api/answer-question] for a tool output and the
    answer composed from it. *)
Definition apiResponse (toolOutput finalAnswer duration : JsVal)
  : Task (list (string * JsVal)) :=
  type <- get toolOutput "type" ;;
  let apiResponse := [("answer", finalAnswer);
                      ("success", JBool (negb (is_str type "error")));
                      ("duration", duration)] in
  type <- get toolOutput "type" ;;
  if is_str type "answer" then
    chunksRetrieved <- get toolOutput "chunksRetrieved" ;;
    Done (set_field "chunksRetrieved" chunksRetrieved apiResponse)
  else
    type <- get toolOutput "type" ;;
    if is_str type "search" then
      results <- get toolOutput "results" ;;
      let apiResponse := set_field "searchResults" results apiResponse in
      resultCount <- get toolOutput "resultCount" ;;
      Done (set_field "resultCount" resultCount apiResponse)
    else
      type <- get toolOutput "type" ;;
      if is_str type "query_count" then
        count <- get toolOutput "count" ;;
        Done (set_field "queryCount" count apiResponse)
      else
        let apiResponse := set_field "error" finalAnswer apiResponse in
        Done (set_field "success" (JBool false) apiResponse).

(** [app.post('/api/answer-question', ...)] *)
Definition answerQuestion (req : JsVal) : Task Response :=
  startTime <- now ;;
  attempt
    (body <- get req "body" ;;
     question <- destructure body "question" "req.body" ;;
     empty <- emptyQuestion question ;;
     if (empty : bool) then
       send 400 [("error", JStr "Question is required and cannot be empty.");
                 ("success", JBool false)]
     else
       len <- get question "length" ;;
       if gt_num len 1000%Q then
         send 400 [("error", JStr "Question exceeds maximum length of 1,000 characters.");
                   ("success", JBool false)]
       else
         analysis <- wire (analyzeIntent question) ;;
         intent <- destructure analysis "intent" "(intermediate value)" ;;
         intentError <- destructure analysis "error" "(intermediate value)" ;;
         if truthy intentError then
           finish <- now ;;
           let duration := (finish - startTime)%Q in
           send 500 [("error", JStr "Failed to understand your request.");
                     ("success", JBool false);
                     ("details", details intentError);
                     ("duration", JNum duration)]
         else
           toolOutput <- wire (executeTools intent question) ;;
           get toolOutput "type" ;;        (* read for the console *)
           finalAnswer <- wire (generateResponse intent toolOutput) ;;
           finish <- now ;;
           let duration := (finish - startTime)%Q in
           type <- get toolOutput "type" ;;
           (if negb (is_str type "error") then
              chunksRetrieved <- get toolOutput "chunksRetrieved" ;;
              logQuery question finalAnswer (or_else chunksRetrieved (JNum 0%Q))
                       (JNum duration)
            else
              logQuery question (JStr ("Error: " ++ to_string finalAnswer))
                       (JNum 0%Q) (JNum duration)) ;;
           apiResponse <- apiResponse toolOutput finalAnswer (JNum duration) ;;
           Done {| status := if truthy (lookup "success" apiResponse)
                             then 200 else 500;
                   json := JObj apiResponse |})
    (fun error =>
       finish <- now ;;
       let duration := (finish - startTime)%Q in
       body <- get req "body" ;;
       question <- get body "question" ;;
       logQuery question (JStr ("Error: " ++ message (reason error)))
                (JNum 0%Q) (JNum duration) ;;
       send 500 [("error", JStr "An unexpected internal server error occurred.");
                 ("success", JBool false);
                 ("details", details (JStr (message (reason error))));
                 ("duration", JNum duration)]).

(** [app.post('/api/search-knowledge-base', ...)] *)
Definition searchRoute (req : JsVal) : Task Response :=
  startTime <- now ;;
  attempt
    (body <- get req "body" ;;
     question <- destructure body "question" "req.body" ;;
     if negb (truthy question) then
       send 400 [("error", JStr "Question is required.");
                 ("success", JBool false)]
     else if negb (typeof_string question) then
       send 400 [("error", JStr "Question must be a string.");
                 ("success", JBool false)]
     else
       len <- get question "length" ;;
       if gt_num len 1000%Q then
         send 400 [("error", JStr "Question exceeds maximum length of 1,000 characters.");
                   ("success", JBool false)]
       else
         queryCounter ;;
         searchResponse <- searchKnowledgeBase question ;;
         success <- get searchResponse "success" ;;
         if negb (truthy success) then
           finish <- now ;;
           let duration := (finish - startTime)%Q in
           errorDetails <- get searchResponse "errorDetails" ;;
           send 500 [("error", JStr "Failed to search knowledge base. Please try again.");
                     ("success", JBool false);
                     ("details", details errorDetails);
                     ("duration", JNum duration)]
         else
           results <- get searchResponse "results" ;;
           relevantChunks <- array_map "searchResponse.results" results
                               (fun result _ => get result "content") ;;
           chunksRetrieved <- get relevantChunks "length" ;;
           if is_num chunksRetrieved 0%Q then
             finish <- now ;;
             let duration := (finish - startTime)%Q in
             logQuery question (JStr noInformation) (JNum 0%Q) (JNum duration) ;;
             send 200 [("answer", JStr noInformation);
                       ("success", JBool true);
                       ("chunksRetrieved", JNum 0%Q);
                       ("duration", JNum duration)]
           else
             answer <- generateAnswer question relevantChunks ;;
             finish <- now ;;
             let duration := (finish - startTime)%Q in
             chunksRetrieved <- get relevantChunks "length" ;;
             logQuery question answer chunksRetrieved (JNum duration) ;;
             chunksRetrieved <- get relevantChunks "length" ;;
             send 200 [("answer", answer);
                       ("success", JBool true);
                       ("chunksRetrieved", chunksRetrieved);
                       ("duration", JNum duration)])
    (fun error =>
       finish <- now ;;
       let duration := (finish - startTime)%Q in
       body <- get req "body" ;;
       question <- get body "question" ;;
       logQuery question (JStr ("Error: " ++ message (reason error)))
                (JNum 0%Q) (JNum duration) ;;
       send 500 [("error", JStr "Failed to answer the question. Please try again.");
                 ("success", JBool false);
                 ("details", details (JStr (message (reason error))));
                 ("duration", JNum duration)]).

End Handlers.
End App.

(** * The vocabulary of the statements *)

Import TaskAgent Server.

Section Vocabulary.
Context {H : Host}.

(** The closed enumeration of intents. *)
Definition closedIntents : list string :=
  ["answer_question"; "search_knowledge_base"; "get_query_count"; "unknown"].

(** The tags of the four output variants. *)
Definition outputTags : list string := ["answer"; "search"; "query_count"; "error"].

(** The object the [catch] block of [executeTools] returns. *)
Definition errorOutput (e : JsError) : JsVal :=
  JObj [("type", JStr "error");
        ("message", JStr ("An error occurred while processing your request: "
                          ++ message e))].

Definition emptyAnswer : JsVal :=
  JObj [("type", JStr "answer"); ("answer", JStr noInformation);
        ("chunksRetrieved", JNum 0%Q)].

Definition withSnippet (resultCount : JsVal) (content : string) : string :=
  "Found " ++ to_string resultCount
  ++ " relevant results. Here's a snippet from the top result: "
  ++ dq ++ (substring 0 150 content ++ "...") ++ dq.

Definition countOnly (resultCount : JsVal) : string :=
  "Found " ++ to_string resultCount ++ " relevant results in the knowledge base.".

(** [toolOutput.results[0].content] *)
Definition topResultContent (toolOutput : JsVal) : Prog JsVal :=
  results <- get toolOutput "results" ;;
  first <- get_index results 0 ;;
  get first "content".

(** The tool output has no top content to show: its [results] are missing
    or falsy, or the first of them is, or the [content] of the first is
    missing or empty. *)
Definition topMissing (toolOutput : JsVal) : Prop :=
  exists results,
    get toolOutput "results" = Ret results /\
    (truthy results = false \/
     exists first,
       get_index results 0 = Ret first /\
       (truthy first = false \/
        exists content,
          get first "content" = Ret content /\ truthy content = false)).

Definition noContext : JsError :=
  Error "No context available for answer generation".

(** A string of whitespace only; the empty string is one. *)
Fixpoint blank (s : string) : bool :=
  match s with
  | EmptyString => true
  | String c s' => is_whitespace c && blank s'
  end.

(** A query that is not a string, or is empty, or is whitespace only. *)
Definition unusable (query : JsVal) : bool :=
  match query with
  | JStr s => blank s
  | _ => true
  end.

(** A query that is not a string, or is the empty string. *)
Definition missing (query : JsVal) : bool :=
  match query with
  | JStr EmptyString => true
  | JStr (String _ _) => false
  | _ => true
  end.

(** The object the [catch] block of [searchKnowledgeBase] returns. *)
Definition failureResponse (query : JsVal) (e : JsError) : JsVal :=
  JObj [("success", JBool false);
        ("query", query);
        ("results", JArr []);
        ("resultCount", JNum 0%Q);
        ("message", JStr ("Failed to perform knowledge base search: " ++ message e));
        ("errorDetails", JStr (message e))].

(** The array [rawSearchResults.map(...)] builds from the chunks, from
    index [i] on. *)
Fixpoint formatted (i : nat) (chunks : list JsVal) : list JsVal :=
  match chunks with
  | [] => []
  | chunk :: rest =>
      JObj [("chunkId", JStr ("chunk_" ++ decimal i));
            ("content", chunk);
            ("relevanceScore", JNum (relevanceScore i))]
      :: formatted (S i) rest
  end.

(** The object the [try] block of [searchKnowledgeBase] returns. *)
Definition successResponse (query : JsVal) (results : list JsVal) : JsVal :=
  JObj [("success", JBool true);
        ("query", query);
        ("results", JArr results);
        ("resultCount", JNum (num (List.length results)));
        ("message",
         JStr (if gt_num (JNum (num (List.length results))) 0%Q
               then "Search completed successfully."
               else "No relevant results found."))].

(** [1 - (index * 0.1)] in binary64, as a JavaScript engine computes it *)
Definition relevanceScore64 (index : nat) : PrimFloat.float :=
  PrimFloat.sub 1%float
    (PrimFloat.mul (PrimFloat.of_uint63 (Uint63.of_Z (Z.of_nat index)))
                   0x1.999999999999ap-4%float).

(** The records a trace upserted, in order. *)
Definition upserted (t : list (Call * Result JsVal)) : list JsVal :=
  flat_map (fun ev => match fst ev with IndexUpsert batch => batch | _ => [] end) t.

End Vocabulary.

(** ** Properties of programs *)

Inductive Pure {A : Type} : Prog A -> Prop :=
| pure_ret (a : A) : Pure (Ret a)
| pure_throw (e : JsError) : Pure (Throw e).

(** A program that rethrows what its collaborators throw. *)
Inductive Rethrows {A : Type} : Prog A -> Prop :=
| rethrows_ret (a : A) : Rethrows (Ret a)
| rethrows_throw (e : JsError) : Rethrows (Throw e)
| rethrows_invoke (c : Call) (k : Result JsVal -> Prog A) :
    (forall e, k (Thrown e) = Throw e) ->
    (forall v, Rethrows (k (Ok v))) ->
    Rethrows (Invoke c k)
| rethrows_read (r : Clock) (k : JsVal -> Prog A) :
    (forall v, Rethrows (k v)) -> Rethrows (Read r k).

(** Every value the program can return satisfies [P]. *)
Definition Yields {A} (P : A -> Prop) (p : Prog A) : Prop :=
  forall W (s : state W) a, result (run W p s) = Ok a -> P a.

(** ** The vocabulary of the statements about the server *)

Import App.

Section Systems.
Context {H : Host}.

(** What the server sees of a result of the pipeline. *)
Definition unseen {A} (r : Result A) : Reply A :=
  match r with Ok a => Returns a | Thrown e => Fails (plain e) end.

(** The world the pipeline runs in, on a system. *)
Definition services (S : System) : World := {|
  state := memory S;
  respond c s :=
    (seen (fst (answer S _ (Service c) s)), snd (answer S _ (Service c) s));
  clock r s :=
    match r with
    | DateNow => (JNum (fst (millis S s)), snd (millis S s))
    | _ => wall S r s
    end
|}.

(** The world the agent runs in, on a system: its three collaborators are
    the server's functions. *)
Definition wired (S : System) : World := {|
  state := memory S;
  respond c s :=
    match c with
    | SearchKnowledgeBase query =>
        let r := exec S (lift (searchKnowledgeBase query)) s in
        (seen (outcome r), after r)
    | GenerateAnswer question context =>
        let r := exec S (lift (generateAnswer question context)) s in
        (seen (outcome r), after r)
    | QueryCounter =>
        let r := exec S queryCounter s in (seen (outcome r), after r)
    | _ => respond (services S) c s
    end;
  clock := clock (services S)
|}.

(** The calls of the pipeline in a log, as the pipeline sees them. *)
Definition pipeline_event (ev : Event) : list (Call * Result JsVal) :=
  match ev with
  | Did e r =>
      match e in Effect X return Reply X -> list (Call * Result JsVal) with
      | Service c => fun r => [(c, seen r)]
      | _ => fun _ => []
      end r
  end.

Definition pipeline (l : list Event) : list (Call * Result JsVal) :=
  flat_map pipeline_event l.

(** [match.metadata.text] *)
Definition textOf (match_ : JsVal) : Prog JsVal :=
  metadata <- get match_ "metadata" ;; get metadata "text".

(** A chunk of text: a string that is not empty. *)
Definition isText (v : JsVal) : Prop := exists text, v = JStr text /\ text <> "".

(** A response of the server's own [searchKnowledgeBase]: the success
    response for chunks of text, or a failure response. *)
Definition serverResponse (query response : JsVal) : Prop :=
  (exists chunks,
     response = successResponse query (formatted 0 chunks) /\
     Forall isText chunks) \/
  (exists e, response = failureResponse query e).

(** The outputs of [executeTools], by variant. *)
Definition toolOutputShape (out : JsVal) : Prop :=
  (exists fields, out = JObj fields /\ lookup "type" fields = JStr "answer") \/
  (exists query response,
     serverResponse query response /\
     out = JObj (spread [("type", JStr "search")] response)) \/
  (exists count, out = JObj [("type", JStr "query_count"); ("count", count)]) \/
  (exists message,
     out = JObj [("type", JStr "error"); ("message", JStr message)]).

(** On the system [S] the task returns, whatever the state, and what it
    returns satisfies [P]. *)
Definition Gives (S : System) {A} (P : A -> Prop) (t : Task A) : Prop :=
  forall s : memory S, exists a, outcome (exec S t s) = Returns a /\ P a.

(** On the system [S] every value the task can return satisfies [P]. *)
Definition Ensures (S : System) {A} (P : A -> Prop) (t : Task A) : Prop :=
  forall (s : memory S) a, outcome (exec S t s) = Returns a -> P a.

(** The statuses the routes answer with. *)
Definition statuses : list nat := [200; 400; 500].

(** The response that refuses a request. *)
Definition refusal (message : string) : Response :=
  {| status := 400;
     json := JObj [("error", JStr message); ("success", JBool false)] |}.

(** The two files the server keeps. *)
Definition logFile : Path := Join logsDir "query-log.txt".

Definition countFile : Path := Join logsDir "query-count.txt".

(** The one error [queryCounter] lets out. *)
Definition countFailure : Exception :=
  plain (Error "Failed to update query count.").

(** A file system that keeps what is written: files by their paths, the
    last written first. *)
Fixpoint same_path (p q : Path) : bool :=
  match p, q with
  | Cwd, Cwd => true
  | Join d n, Join d' n' => same_path d d' && String.eqb n n'
  | _, _ => false
  end.

Fixpoint contents (file : Path) (files : list (Path * string)) : option string :=
  match files with
  | [] => None
  | (f, data) :: rest => if same_path f file then Some data else contents file rest
  end.

Definition enoent : Exception :=
  {| reason := Error "ENOENT: no such file or directory";
     code := JStr "ENOENT" |}.

(** The system of such a file system; [others] answers what is not a file
    operation. *)
Definition disk (others : forall X, Effect X -> Reply X) : System := {|
  memory := list (Path * string);
  answer X e files :=
    match e in Effect X return Reply X * list (Path * string) with
    | Mkdir _ => (Returns JUndefined, files)
    | ReadFile file =>
        (match contents file files with
         | Some data => Returns data
         | None => Fails enoent
         end, files)
    | WriteFile file data => (Returns JUndefined, (file, data) :: files)
    | AppendFile file data =>
        (Returns JUndefined,
         (file, match contents file files with
                | Some old => old ++ data
                | None => data
                end) :: files)
    | e' => (others _ e', files)
    end;
  wall _ files := (JStr "2025-11-09T00:00:00.000Z", files);
  millis files := (0%Q, files)
|}.

(** The count such a file system holds. *)
Definition heldCount (files : list (Path * string)) : Z :=
  match contents countFile files with
  | Some data => match parseInt data with Some n => n | None => 0%Z end
  | None => 0%Z
  end.

End Systems.

(** ** Worlds and data of the examples *)

(** A host for the examples: it prints the integer part of a number in
    decimal and reads no string as a number.  The examples print integers
    only and compare no strings with numbers. *)
Definition exampleHost : Host := {|
  number_to_string x := NilZero.string_of_int (Z.to_int (Qnum x / Zpos (Qden x)));
  string_to_number _ := None
|}.

(** A world without state that answers every call with [undefined]. *)
Definition quietWorld : World := {|
  state := unit;
  respond _ s := (Ok JUndefined, s);
  clock _ s := (JStr "0", s)
|}.

(** A world without state whose answers are a function of the call. *)
Definition scripted (answer : Call -> Result JsVal) : World := {|
  state := unit;
  respond c s := (answer c, s);
  clock _ s := (JStr "0", s)
|}.

Definition paris : JsVal := JStr "Paris is the capital of France.".

Definition parisResult : JsVal :=
  JObj [("chunkId", JStr "chunk_0"); ("content", paris);
        ("relevanceScore", JNum 1%Q)].

Definition parisResponse : JsVal :=
  JObj [("success", JBool true); ("query", JStr "capital of France?");
        ("results", JArr [parisResult]); ("resultCount", JNum 1%Q);
        ("message", JStr "Search completed successfully.")].

(** The model answers with a known label and a line feed; retrieval finds
    one chunk; the generator answers. *)
Definition parisWorld : World :=
  scripted (fun c =>
    match c with
    | GenerateContent _ _ => Ok (JObj [("text", JStr ("answer_question" ++ nl))])
    | SearchKnowledgeBase _ => Ok parisResponse
    | GenerateAnswer _ _ => Ok (JStr "Paris [1]")
    | IndexQuery _ _ _ =>
        Ok (JObj [("matches",
                   JArr [JObj [("metadata", JObj [("text", paris)])];
                         JObj [("metadata", JObj [("text", JNum 7%Q)])];
                         JObj [("metadata", JObj [("text", JStr "Lyon is a major city.")])]])])
    | _ => Ok JUndefined
    end).

(** Every collaborator throws. *)
Definition brokenWorld : World :=
  scripted (fun _ => Thrown (Error "503 Service Unavailable")).

(** The search collaborator reports a failure. *)
Definition failingSearch : World :=
  scripted (fun c =>
    match c with
    | SearchKnowledgeBase q => Ok (failureResponse q (Error "upstream timeout"))
    | _ => Ok JUndefined
    end).

(** The search collaborator answers with an object that has a [type]. *)
Definition taggedSearch : World :=
  scripted (fun c =>
    match c with
    | SearchKnowledgeBase _ =>
        Ok (JObj [("type", JStr "bogus"); ("success", JBool true)])
    | _ => Ok JUndefined
    end).

(** The vector store holds nothing. *)
Definition emptyIndex : World :=
  scripted (fun c =>
    match c with
    | IndexQuery _ _ _ => Ok (JObj [("matches", JArr [])])
    | _ => Ok JUndefined
    end).

Definition twoChunks : list JsVal := [paris; JStr "Lyon is a major city."].

Definition twoVectors : list JsVal :=
  [JArr [JNum (1 # 2); JNum (1 # 4)]; JArr [JNum (3 # 4); JNum (1 # 8)]].

(** Tool outputs of the [search] variant. *)
Definition searchOutput (resultCount : Q) (results : JsVal) : JsVal :=
  JObj [("type", JStr "search"); ("success", JBool true);
        ("query", JStr "notes"); ("results", results);
        ("resultCount", JNum resultCount)].

(** ** Systems and requests of the examples *)

(** An office: a file system that keeps what is written, a splitter that
    cuts every document in the same two chunks, an embedding service that
    answers with [vectors], and [service] for the calls of the pipeline. *)
Definition officeAnswers (service : Call -> Reply JsVal) (vectors : list JsVal)
    (X : Type) (e : Effect X) : Reply X :=
  match e in Effect X return Reply X with
  | Service c => service c
  | NewRecursiveCharacterTextSplitter _ _ => Returns JUndefined
  | SplitText _ => Returns twoChunks
  | EmbedDocuments _ => Returns vectors
  | Mkdir _ => Returns JUndefined
  | ReadFile _ => Fails enoent
  | WriteFile _ _ => Returns JUndefined
  | AppendFile _ _ => Returns JUndefined
  end.

Definition office (service : Call -> Reply JsVal) (vectors : list JsVal) : System :=
  disk (officeAnswers service vectors).

(** The model answers with [label]; the vector store holds one chunk. *)
Definition parisServices (label : string) (c : Call) : Reply JsVal :=
  match c with
  | GenerateContent _ _ => Returns (JObj [("text", JStr label)])
  | IndexQuery _ _ _ =>
      Returns (JObj [("matches", JArr [JObj [("metadata", JObj [("text", paris)])]])])
  | _ => Returns JUndefined
  end.

(** The vector store holds nothing. *)
Definition emptyServices (c : Call) : Reply JsVal :=
  match c with
  | IndexQuery _ _ _ => Returns (JObj [("matches", JArr [])])
  | _ => Returns JUndefined
  end.

(** Every service is down. *)
Definition downServices (c : Call) : Reply JsVal :=
  Fails (plain (Error "503 Service Unavailable")).

(** A system where everything fails, the file system included. *)
Definition eacces : Exception :=
  {| reason := Error "EACCES: permission denied"; code := JStr "EACCES" |}.

Definition readOnly : System := {|
  memory := unit;
  answer X e s := (Fails eacces, s);
  wall _ s := (JStr "2025-11-09T00:00:00.000Z", s);
  millis s := (0%Q, s)
|}.

(** A request with a body of one field. *)
Definition request (name : string) (value : JsVal) : JsVal :=
  JObj [("body", JObj [(name, value)])].

Definition parisQuestion : JsVal := JStr "capital of France?".

(** The response to the indexing of a document of two chunks. *)
Definition twoIndexed : Response :=
  {| status := 200;
     json := JObj [("message", JStr "Document successfully indexed with 2 chunks.");
                   ("success", JBool true);
                   ("chunkCount", JNum 2%Q);
                   ("recordCount", JNum 2%Q);
                   ("duration", JNum 0%Q)] |}.

(** The status of the response a handler sent, if it sent one. *)
Definition status_of {S : System} (r : Execution S Response) : option nat :=
  match outcome r with
  | Returns sent => Some (status sent)
  | Fails _ => None
  end.

(** * Reasoning about programs *)

Section Run.
Context {A B : Type} (W : World).

Lemma run_bind (m : Prog A) (f : A -> Prog B) (s : state W) :
  run W (bind m f) s =
  match result (run W m s) with
  | Ok a =>
      let o := run W (f a) (final (run W m s)) in
      {| result := result o;
         trace := trace (run W m s) ++ trace o;
         final := final o |}
  | Thrown e =>
      {| result := Thrown e;
         trace := trace (run W m s);
         final := final (run W m s) |}
  end.
Proof.
  revert s. induction m as [a | e | c k IH | r k IH]; intros s; simpl.
  - destruct (run W (f a) s); reflexivity.
  - reflexivity.
  - rewrite IH. destruct (result (run W (k _) _)); reflexivity.
  - apply IH.
Qed.

Lemma run_try_catch (m : Prog A) (h : JsError -> Prog A) (s : state W) :
  run W (try_catch m h) s =
  match result (run W m s) with
  | Ok a =>
      {| result := Ok a;
         trace := trace (run W m s);
         final := final (run W m s) |}
  | Thrown e =>
      let o := run W (h e) (final (run W m s)) in
      {| result := result o;
         trace := trace (run W m s) ++ trace o;
         final := final o |}
  end.
Proof.
  revert s. induction m as [a | e | c k IH | r k IH]; intros s; simpl.
  - reflexivity.
  - destruct (run W (h e) s); reflexivity.
  - rewrite IH. destruct (result (run W (k _) _)); reflexivity.
  - apply IH.
Qed.
End Run.

(** ** Programs that call nobody *)

Create HintDb prog.
#[local] Hint Constructors Pure : prog.

Lemma pure_bind {A B} (m : Prog A) (f : A -> Prog B) :
  Pure m -> (forall a, Pure (f a)) -> Pure (bind m f).
Proof. intros [a | e] Hf; simpl; auto with prog. Qed.

Lemma pure_get v name : Pure (get v name).
Proof.
  destruct v; simpl; auto with prog;
    destruct (String.eqb name "length"); auto with prog.
Qed.

Lemma pure_get_index v i : Pure (get_index v i).
Proof. destruct v; try apply pure_get. simpl. auto with prog. Qed.

Lemma pure_get_optional v name : Pure (get_optional v name).
Proof. unfold get_optional. destruct (nullish v); auto using pure_get with prog. Qed.

Lemma pure_string_method {A} receiver name v (f : string -> A) :
  Pure (string_method receiver name v f).
Proof. destruct v; simpl; auto with prog. Qed.

Lemma pure_and_then a b : Pure a -> Pure b -> Pure (and_then a b).
Proof.
  intros Ha Hb. apply pure_bind; [assumption |].
  intros x. destruct (truthy x); auto with prog.
Qed.

Lemma pure_mapi_from f i l :
  (forall x j, Pure (f x j)) -> Pure (mapi_from f i l).
Proof.
  intros Hf. revert i. induction l as [| x rest IH]; intros i; simpl.
  - auto with prog.
  - apply pure_bind; [apply Hf |]. intros y.
    apply pure_bind; [apply IH |]. auto with prog.
Qed.

Lemma pure_filter_from f l :
  (forall x, Pure (f x)) -> Pure (filter_from f l).
Proof.
  intros Hf. induction l as [| x rest IH]; simpl.
  - auto with prog.
  - apply pure_bind; [apply Hf |]. intros keep.
    apply pure_bind; [apply IH |]. auto with prog.
Qed.

Lemma pure_array_method {A} receiver name v (f : list JsVal -> Prog A) :
  (forall items, Pure (f items)) -> Pure (array_method receiver name v f).
Proof. intros Hf. destruct v; simpl; auto with prog. Qed.

Lemma pure_array_map receiver v f :
  (forall x j, Pure (f x j)) -> Pure (array_map receiver v f).
Proof.
  intros Hf. apply pure_array_method. intros items.
  apply pure_bind; [apply pure_mapi_from, Hf | auto with prog].
Qed.

Lemma pure_array_filter receiver v f :
  (forall x, Pure (f x)) -> Pure (array_filter receiver v f).
Proof.
  intros Hf. apply pure_array_method. intros items.
  apply pure_bind; [apply pure_filter_from, Hf | auto with prog].
Qed.

#[local] Hint Resolve pure_bind pure_get pure_get_index pure_get_optional
  pure_string_method pure_and_then pure_mapi_from pure_filter_from
  pure_array_map pure_array_filter : prog.

Lemma pure_cases {A} (p : Prog A) :
  Pure p -> (exists a, p = Ret a) \/ (exists e, p = Throw e).
Proof. intros [a | e]; eauto. Qed.

Lemma run_pure {A} W (p : Prog A) (s : state W) :
  Pure p -> trace (run W p s) = [] /\ final (run W p s) = s.
Proof. intros [a | e]; simpl; auto. Qed.

(** ** Programs that rethrow what their collaborators throw *)

#[local] Hint Constructors Rethrows : prog.

Lemma rethrows_pure {A} (p : Prog A) : Pure p -> Rethrows p.
Proof. intros [a | e]; auto with prog. Qed.

Lemma rethrows_bind {A B} (m : Prog A) (f : A -> Prog B) :
  Rethrows m -> (forall a, Rethrows (f a)) -> Rethrows (bind m f).
Proof.
  intros Hm Hf. induction Hm as [a | e | c k Hk _ IH | r k _ IH]; simpl;
    auto with prog.
  constructor; [| assumption]. intros e. rewrite Hk. reflexivity.
Qed.

Lemma rethrows_call c : Rethrows (call c).
Proof. apply rethrows_invoke; auto with prog. Qed.

Lemma rethrows_read_clock r : Rethrows (read r).
Proof. apply rethrows_read; auto with prog. Qed.

#[local] Hint Resolve rethrows_pure rethrows_bind rethrows_call
  rethrows_read_clock : prog.

(** In such a program the call that throws is the last one, and the program
    throws what the call threw. *)
Lemma rethrows_thrown {A} W (p : Prog A) (s : state W) c e :
  Rethrows p -> In (c, Thrown e) (trace (run W p s)) ->
  result (run W p s) = Thrown e.
Proof.
  intros Hp. revert s.
  induction Hp as [a | e' | c' k Hk _ IH | r k _ IH]; intros s; simpl.
  - intros [].
  - intros [].
  - destruct (respond W c' s) as [[v | e'] s1]; simpl.
    + intros [Heq | Hin]; [discriminate | apply IH, Hin].
    + rewrite Hk. simpl. intros [Heq | []]. congruence.
  - apply IH.
Qed.

(** ** The error boundary: a [try] whose handler returns *)

Lemma try_catch_returns {A} W (m : Prog A) (h : JsError -> A) (s : state W) :
  result (run W (try_catch m (fun e => Ret (h e))) s)
  = match result (run W m s) with
    | Ok a => Ok a
    | Thrown e => Ok (h e)
    end
  /\ trace (run W (try_catch m (fun e => Ret (h e))) s) = trace (run W m s).
Proof.
  rewrite run_try_catch.
  destruct (result (run W m s)); simpl; [| rewrite app_nil_r]; auto.
Qed.

Lemma result_bind {A B} W (m : Prog A) (f : A -> Prog B) (s : state W) :
  result (run W (bind m f) s)
  = match result (run W m s) with
    | Ok a => result (run W (f a) (final (run W m s)))
    | Thrown e => Thrown e
    end.
Proof. rewrite run_bind. destruct (result (run W m s)); reflexivity. Qed.

Lemma run_call W c (s : state W) :
  run W (call c) s
  = {| result := fst (respond W c s);
       trace := [(c, fst (respond W c s))];
       final := snd (respond W c s) |}.
Proof. simpl. destruct (fst (respond W c s)); reflexivity. Qed.

(** * The intent classifier *)

Section Classifier.
Context {H : Host}.

Lemma includes_In l t : includes l t = true <-> In t l.
Proof.
  unfold includes. rewrite existsb_exists. split.
  - intros [x [Hin Heq]]. apply String.eqb_eq in Heq. subst. assumption.
  - intros Hin. exists t. split; [assumption | apply String.eqb_refl].
Qed.

Lemma classify_known t : In t knownIntents -> classify t = t.
Proof. intros Hin. unfold classify. apply includes_In in Hin. rewrite Hin. reflexivity. Qed.

Lemma classify_unknown t : ~ In t knownIntents -> classify t = "unknown".
Proof.
  intros Hin. unfold classify.
  destruct (includes knownIntents t) eqn:E; [| reflexivity].
  apply includes_In in E. contradiction.
Qed.

Lemma classify_closed t : In (classify t) closedIntents.
Proof.
  unfold classify. destruct (includes knownIntents t) eqn:E.
  - apply includes_In in E. simpl in *. intuition.
  - simpl. intuition.
Qed.

Lemma pure_responseText response : Pure (responseText response).
Proof. unfold responseText. auto with prog. Qed.

End Classifier.

(** ** What a program can return *)

Lemma yields_ret {A} (P : A -> Prop) a : P a -> Yields P (Ret a).
Proof. intros HP W s b Hb. simpl in Hb. congruence. Qed.

Lemma yields_throw {A} (P : A -> Prop) e : Yields P (Throw e).
Proof. intros W s b Hb. simpl in Hb. discriminate. Qed.

Lemma yields_bind {A B} (P : B -> Prop) (m : Prog A) (f : A -> Prog B) :
  (forall a, Yields P (f a)) -> Yields P (bind m f).
Proof.
  intros Hf W s b Hb. rewrite result_bind in Hb.
  destruct (result (run W m s)) as [a | e]; [| discriminate].
  eapply Hf, Hb.
Qed.

Lemma yields_if {A} (P : A -> Prop) (b : bool) (p q : Prog A) :
  Yields P p -> Yields P q -> Yields P (if b then p else q).
Proof. destruct b; auto. Qed.

Ltac rethrows :=
  repeat match goal with
    | |- Rethrows (if ?b then _ else _) => destruct b
    | |- Rethrows (bind _ _) => apply rethrows_bind; [| intros ?]
    | |- Rethrows (call _) => apply rethrows_call
    | |- Rethrows (read _) => apply rethrows_read_clock
    | |- Rethrows (Ret _) => constructor
    | |- Rethrows (Throw _) => constructor
    | |- Rethrows _ => apply rethrows_pure; solve [auto 8 with prog]
    end.

Ltac yields :=
  repeat match goal with
    | |- Yields _ (if _ then _ else _) => apply yields_if
    | |- Yields _ (bind _ _) => apply yields_bind; intros ?
    | |- Yields _ (Throw _) => apply yields_throw
    | |- Yields _ (Ret _) => apply yields_ret
    end.

(** * The tool dispatcher *)

Section Dispatcher.
Context {H : Host}.

Lemma lookup_set_field_other k k' v fields :
  String.eqb k' k = false ->
  lookup k (set_field k' v fields) = lookup k fields.
Proof.
  intros Hk. induction fields as [| [k0 w] rest IH]; simpl.
  - rewrite Hk. reflexivity.
  - destruct (String.eqb k0 k') eqn:E0; simpl.
    + apply String.eqb_eq in E0. subst k0. rewrite Hk. reflexivity.
    + destruct (String.eqb k0 k); [reflexivity | apply IH].
Qed.

(** [{type: ..., ...v}] keeps its [type] when [v] has none of its own. *)
Lemma lookup_spread_absent k v fields :
  has_field k (own_props v) = false ->
  lookup k (spread fields v) = lookup k fields.
Proof.
  unfold spread. generalize (own_props v) as props. intros props.
  revert fields. induction props as [| [k' w] rest IH]; intros fields Hk; simpl.
  - reflexivity.
  - simpl in Hk. apply orb_false_elim in Hk as [Hk' Hrest].
    rewrite IH by assumption. apply lookup_set_field_other, Hk'.
Qed.

Lemma rethrows_dispatch intent query : Rethrows (dispatch intent query).
Proof. unfold dispatch. rethrows. Qed.

Lemma yields_answer query :
  Yields (fun out => get out "type" = Ret (JStr "answer"))
    (searchResults <- call (SearchKnowledgeBase query) ;;
     found <- and_then (get searchResults "success")
                       (results <- get searchResults "results" ;;
                        len <- get results "length" ;;
                        Ret (JBool (gt_num len 0%Q))) ;;
     if truthy found then
       results <- get searchResults "results" ;;
       context <- array_map "searchResults.results" results
                    (fun r _ => get r "content") ;;
       answer <- call (GenerateAnswer query context) ;;
       chunksRetrieved <- get context "length" ;;
       Ret (JObj [("type", JStr "answer"); ("answer", answer);
                  ("chunksRetrieved", chunksRetrieved);
                  ("searchResults", results)])
     else
       Ret (JObj [("type", JStr "answer"); ("answer", JStr noInformation);
                  ("chunksRetrieved", JNum 0%Q)])).
Proof. yields; reflexivity. Qed.


Lemma get_defined v a b x : get v a = Ret x -> exists y, get v b = Ret y.
Proof.
  destruct v; simpl; try discriminate; intros _; eauto;
    destruct (String.eqb b "length"); eauto.
Qed.

Lemma gt_num_length n : gt_num (JNum (num n)) 0%Q = negb (Nat.eqb n 0).
Proof.
  unfold gt_num, to_number, num, Qle_bool. simpl.
  rewrite Z.mul_1_r. destruct n; simpl; reflexivity.
Qed.

Lemma mapi_content results contents i :
  Forall2 (fun r c => get r "content" = Ret c) results contents ->
  mapi_from (fun r _ => get r "content") i results = Ret contents.
Proof.
  intros Hall. revert i.
  induction Hall as [| r c rest cs Hc _ IH]; intros i; simpl.
  - reflexivity.
  - rewrite Hc. simpl. rewrite IH. reflexivity.
Qed.

Lemma answer_when_empty (W : World) (s : state W) (query response : JsVal) :
  fst (respond W (SearchKnowledgeBase query) s) = Ok response ->
  get response "results" = Ret (JArr []) ->
  let o := run W (executeTools (JStr "answer_question") query) s in
  result o = Ok emptyAnswer /\ calls (trace o) = [SearchKnowledgeBase query].
Proof.
  intros Hresp Hresults o. subst o. unfold executeTools, dispatch.
  cbn [is_str String.eqb Ascii.eqb Bool.eqb].
  unfold and_then. cbn [try_catch bind call run]. rewrite Hresp.
  cbn [bind try_catch].
  destruct (get_defined _ _ "success" _ Hresults) as [success Hsuccess].
  rewrite Hsuccess. cbn [bind try_catch].
  destruct (truthy success) eqn:Htruthy.
  - rewrite Hresults. cbn. split; reflexivity.
  - cbn [bind try_catch]. rewrite Htruthy. cbn. split; reflexivity.
Qed.

Lemma answer_when_failed (W : World) (s : state W)
    (query response success : JsVal) :
  fst (respond W (SearchKnowledgeBase query) s) = Ok response ->
  get response "success" = Ret success -> truthy success = false ->
  let o := run W (executeTools (JStr "answer_question") query) s in
  result o = Ok emptyAnswer /\ calls (trace o) = [SearchKnowledgeBase query].
Proof.
  intros Hresp Hsuccess Hfalsy o. subst o. unfold executeTools, dispatch.
  cbn [is_str String.eqb Ascii.eqb Bool.eqb].
  unfold and_then. cbn [try_catch bind call run]. rewrite Hresp.
  cbn [bind try_catch]. rewrite Hsuccess. cbn [bind try_catch].
  rewrite Hfalsy. cbn [bind try_catch]. rewrite Hfalsy.
  cbn. split; reflexivity.
Qed.


(** C10.  Dispatch of [answer_question] when the search collaborator
    returns a failure result, one whose [success] is falsy: the dispatcher
    calls nobody else and returns the [answer] output with the fixed text
    and [chunksRetrieved = 0], not the [error] output; it is the very
    output of a retrieval that found nothing. *)
Theorem retrieval_failure_reads_as_empty (W : World) (s : state W)
    (query response success : JsVal) :
  fst (respond W (SearchKnowledgeBase query) s) = Ok response ->
  get response "success" = Ret success -> truthy success = false ->
  let o := run W (executeTools (JStr "answer_question") query) s in
  result o
  = Ok (JObj [("type", JStr "answer"); ("answer", JStr noInformation);
              ("chunksRetrieved", JNum 0%Q)]) /\
  calls (trace o) = [SearchKnowledgeBase query] /\
  forall (W' : World) (s' : state W') (empty : JsVal),
    fst (respond W' (SearchKnowledgeBase query) s') = Ok empty ->
    get empty "results" = Ret (JArr []) ->
    result (run W' (executeTools (JStr "answer_question") query) s') = result o.
Proof.
  intros Hresp Hsuccess Hfalsy o.
  destruct (answer_when_failed W s query response success Hresp Hsuccess Hfalsy)
    as [Hres Hcalls].
  fold o in Hres, Hcalls. split; [exact Hres |]. split; [exact Hcalls |].
  intros W' s' empty Hresp' Hempty. rewrite Hres.
  apply (answer_when_empty W' s' query empty Hresp' Hempty).
Qed.
End Dispatcher.

(** * The response composer *)

Section Composer.
Context {H : Host}.

Lemma get_nonnullish v name : nullish v = false -> exists y, get v name = Ret y.
Proof.
  destruct v; simpl; try discriminate; intros _; eauto;
    destruct (String.eqb name "length"); eauto.
Qed.

Lemma get_index_nonnullish v i :
  nullish v = false -> exists y, get_index v i = Ret y.
Proof.
  destruct v; try apply get_nonnullish. simpl. eauto.
Qed.

Lemma truthy_nonnullish v : truthy v = true -> nullish v = false.
Proof. destruct v; simpl; congruence. Qed.

Lemma topContent_defined toolOutput :
  nullish toolOutput = false -> exists v, topContent toolOutput = Ret v.
Proof.
  intros Hnn. unfold topContent, and_then.
  destruct (get_nonnullish toolOutput "results" Hnn) as [results Hresults].
  rewrite Hresults. cbn [bind].
  destruct (truthy results) eqn:Tresults; [| eauto].
  destruct (get_index_nonnullish results 0 (truthy_nonnullish _ Tresults))
    as [first Hfirst].
  rewrite Hfirst. cbn [bind].
  destruct (truthy first) eqn:Tfirst; [| eauto].
  apply get_nonnullish, truthy_nonnullish, Tfirst.
Qed.

(** When the guard is truthy, [toolOutput.results[0].content] reads the
    guard's value. *)
Lemma topContent_read {A} toolOutput v (k : JsVal -> Prog A) :
  topContent toolOutput = Ret v -> truthy v = true ->
  (results <- get toolOutput "results" ;;
   first <- get_index results 0 ;;
   content <- get first "content" ;;
   k content) = k v.
Proof.
  unfold topContent, and_then. intros Htop Htruthy.
  destruct (pure_cases _ (pure_get toolOutput "results")) as [[r Hr] | [e He]].
  - rewrite Hr in *. cbn [bind] in *.
    destruct (truthy r) eqn:Tr; [| congruence].
    destruct (pure_cases _ (pure_get_index r 0)) as [[f Hf] | [e He]].
    + rewrite Hf in *. cbn [bind] in *.
      destruct (truthy f) eqn:Tf; [| congruence].
      rewrite Htop. reflexivity.
    + rewrite He in Htop. discriminate.
  - rewrite He in Htop. discriminate.
Qed.

Lemma topContent_result toolOutput v :
  topContent toolOutput = Ret v -> truthy v = true ->
  topResultContent toolOutput = Ret v.
Proof.
  unfold topContent, topResultContent, and_then. intros Htop Htruthy.
  destruct (pure_cases _ (pure_get toolOutput "results")) as [[r Hr] | [e He]].
  - rewrite Hr in *. cbn [bind] in *.
    destruct (truthy r) eqn:Tr; [| congruence].
    destruct (pure_cases _ (pure_get_index r 0)) as [[f Hf] | [e He]].
    + rewrite Hf in *. cbn [bind] in *.
      destruct (truthy f) eqn:Tf; [| congruence].
      exact Htop.
    + rewrite He in Htop. discriminate.
  - rewrite He in Htop. discriminate.
Qed.

Lemma is_num_zero_not_gt v : is_num v 0%Q = true -> gt_num v 0%Q = false.
Proof.
  destruct v; simpl; try discriminate. intros Heq.
  unfold gt_num, to_number. apply Qeq_bool_iff in Heq.
  assert (Hle : Qle_bool x 0 = true).
  { apply Qle_bool_iff. rewrite Heq. apply Qle_refl. }
  rewrite Hle. reflexivity.
Qed.

Lemma substring_head_length n s : String.length (substring 0 n s) <= n.
Proof.
  unfold substring. rewrite Nat.min_0_l. cbn [Nat.min Nat.max].
  rewrite Nat.sub_0_r.
  generalize (Nat.min n (String.length s)) (Nat.le_min_l n (String.length s)).
  intros m Hm. apply Nat.le_trans with m; [| assumption]. clear Hm.
  revert s. induction m as [| m IH]; intros s.
  - destruct s; simpl; lia.
  - destruct s as [| c s']; simpl; [lia |]. specialize (IH s'). lia.
Qed.

Lemma get_content_truthy first v :
  get first "content" = Ret v -> truthy v = true -> truthy first = true.
Proof.
  destruct first as [| | b | x | s | items | fields]; simpl; try discriminate;
    try reflexivity.
  - intros Hv. inversion Hv; subst v. discriminate.
  - intros Hv. inversion Hv; subst v. discriminate.
  - destruct s; [| reflexivity]. simpl.
    intros Hv. inversion Hv; subst v. discriminate.
Qed.

Lemma get_index_truthy results first :
  get_index results 0 = Ret first -> truthy first = true ->
  truthy results = true.
Proof.
  destruct results as [| | b | x | s | items | fields]; simpl; try discriminate;
    try reflexivity.
  - intros Hf. inversion Hf; subst first. discriminate.
  - intros Hf. inversion Hf; subst first. discriminate.
  - destruct s; [| reflexivity]. simpl.
    intros Hf. inversion Hf; subst first. discriminate.
Qed.

(** The guard yields the top result's content when that content is truthy. *)
Lemma topContent_present toolOutput v :
  topResultContent toolOutput = Ret v -> truthy v = true ->
  topContent toolOutput = Ret v.
Proof.
  unfold topResultContent, topContent, and_then. intros Hv Htruthy.
  destruct (pure_cases _ (pure_get toolOutput "results")) as [[r Hr] | [e He]];
    [| rewrite He in Hv; discriminate].
  rewrite Hr in *. cbn [bind] in *.
  destruct (pure_cases _ (pure_get_index r 0)) as [[f Hf] | [e He]];
    [| rewrite He in Hv; discriminate].
  rewrite Hf in *. cbn [bind] in *.
  pose proof (get_content_truthy f v Hv Htruthy) as Tf.
  rewrite (get_index_truthy r f Hf Tf), Tf. exact Hv.
Qed.

(** The guard yields a falsy value when there is no top content. *)
Lemma topContent_missing toolOutput :
  topMissing toolOutput ->
  exists v, topContent toolOutput = Ret v /\ truthy v = false.
Proof.
  intros [results [Hresults Hcases]]. unfold topContent, and_then.
  rewrite Hresults. cbn [bind].
  destruct (truthy results) eqn:Tresults; [| eauto].
  destruct Hcases as [Hfalsy | [first [Hfirst Hcases]]]; [congruence |].
  rewrite Hfirst. cbn [bind].
  destruct (truthy first) eqn:Tfirst; [| eauto].
  destruct Hcases as [Hfalsy | [content [Hcontent Hfalsy]]]; [congruence |].
  eauto.
Qed.

(** C7, as the code has it.  For a [search] output with a truthy
    [success]: when [resultCount > 0] and the top result's content is a
    non-empty string, the response is the count followed by the first 150
    code units at most of that content and an ellipsis; when
    [resultCount > 0] and the results, the first of them or its content are
    missing or empty, the response is the count alone; when
    [resultCount === 0] it is the fixed no-results message.  The composer
    returns for every tool output that is not [undefined] or [null],
    provided the top result's content, when truthy, is a string. *)
Theorem generateResponse_search (intent toolOutput : JsVal) :
  (forall success resultCount,
     get toolOutput "type" = Ret (JStr "search") ->
     get toolOutput "success" = Ret success -> truthy success = true ->
     get toolOutput "resultCount" = Ret resultCount ->
     (gt_num resultCount 0%Q = true ->
        (forall content,
           topResultContent toolOutput = Ret (JStr content) -> content <> "" ->
           generateResponse intent toolOutput
           = Ret (JStr (withSnippet resultCount content)) /\
           String.length (substring 0 150 content) <= 150) /\
        (topMissing toolOutput ->
         generateResponse intent toolOutput
         = Ret (JStr (countOnly resultCount)))) /\
     (is_num resultCount 0%Q = true ->
        generateResponse intent toolOutput = Ret (JStr noResults))) /\
  (nullish toolOutput = false ->
   (forall v, topResultContent toolOutput = Ret v -> truthy v = true ->
              typeof_string v = true) ->
   exists reply, generateResponse intent toolOutput = Ret reply).
Proof.
  split.
  - intros success resultCount Htype Hsuccess Htruthy Hcount.
    unfold generateResponse. rewrite Htype.
    cbn [bind is_str String.eqb Ascii.eqb Bool.eqb]. unfold and_then.
    rewrite Hsuccess. cbn [bind]. rewrite Htruthy, Hcount. cbn [bind truthy].
    split.
    + intros Hgt. rewrite Hgt. split.
      * intros content Hcontent Hne.
        assert (Hnonempty : truthy (JStr content) = true).
        { simpl. destruct (String.eqb content "") eqn:E; [| reflexivity].
          apply String.eqb_eq in E. contradiction. }
        pose proof (topContent_present toolOutput _ Hcontent Hnonempty) as Htop.
        rewrite Htop. cbn [bind]. rewrite Hnonempty.
        rewrite (topContent_read toolOutput (JStr content)) by assumption.
        cbn [string_method bind].
        split; [reflexivity | apply substring_head_length].
      * intros Hmissing.
        destruct (topContent_missing toolOutput Hmissing) as [v [Htop Hfalsy]].
        rewrite Htop. cbn [bind]. rewrite Hfalsy. reflexivity.
    + intros Hzero. rewrite (is_num_zero_not_gt _ Hzero).
      cbn [bind truthy]. rewrite Hzero. reflexivity.
  - intros Hnn Hstring. unfold generateResponse.
    destruct (get_nonnullish toolOutput "type" Hnn) as [type Htype].
    destruct (get_nonnullish toolOutput "answer" Hnn) as [answer Hanswer].
    destruct (get_nonnullish toolOutput "success" Hnn) as [success Hsuccess].
    destruct (get_nonnullish toolOutput "resultCount" Hnn) as [count Hcount].
    destruct (get_nonnullish toolOutput "message" Hnn) as [msg Hmsg].
    destruct (get_nonnullish toolOutput "count" Hnn) as [n Hn].
    destruct (topContent_defined toolOutput Hnn) as [top Htop].
    rewrite Htype. cbn [bind].
    destruct (is_str type "answer"); [eauto |].
    destruct (is_str type "search").
    + unfold and_then. rewrite Hsuccess. cbn [bind]. rewrite Hcount.
      assert (Hrest :
        exists reply,
          (zero <- (if truthy success
                    then resultCount <- Ret count ;;
                         Ret (JBool (is_num resultCount 0%Q))
                    else Ret success) ;;
           if truthy zero then Ret (JStr noResults)
           else message <- get toolOutput "message" ;;
                Ret (JStr ("I encountered an issue while searching the knowledge base: "
                           ++ to_string message))) = Ret reply).
      { rewrite Hmsg. destruct (truthy success) eqn:Ts; cbn [bind truthy].
        - destruct (is_num count 0%Q); eauto.
        - rewrite Ts. eauto. }
      destruct (truthy success) eqn:Ts; cbn [bind truthy].
      * destruct (gt_num count 0%Q); [| exact Hrest].
        rewrite Htop. cbn [bind].
        destruct (truthy top) eqn:Ttop.
        -- rewrite (topContent_read toolOutput top) by assumption.
           pose proof (topContent_result toolOutput top Htop Ttop) as Hread.
           specialize (Hstring top Hread Ttop).
           destruct top; try discriminate. cbn [string_method bind].
           eauto.
        -- cbn [bind]. eauto.
      * rewrite Ts, Hmsg. cbn [bind]. eauto.
    + destruct (is_str type "query_count"); [rewrite Hn; cbn [bind]; eauto |].
      destruct (is_str type "error"); eauto.
Qed.
End Composer.

(** * The generator *)

Section Generator.
Context {H : Host}.

Lemma labelled_from_length i context :
  List.length (labelled_from i context) = List.length context.
Proof.
  revert i. induction context as [| c rest IH]; intros i; simpl;
    [reflexivity | rewrite IH; reflexivity].
Qed.

Lemma labelled_from_nth i context j c :
  nth_error context j = Some c ->
  nth_error (labelled_from i context) j
  = Some ("[" ++ decimal (i + j + 1) ++ "] " ++ to_string c).
Proof.
  revert i j. induction context as [| c0 rest IH]; intros i j.
  - destruct j; discriminate.
  - destruct j as [| j]; simpl.
    + intros Hc. inversion Hc; subst c0. unfold labelled.
      rewrite Nat.add_0_r. reflexivity.
    + intros Hc. rewrite (IH (S i) j Hc).
      replace (S i + j + 1) with (i + S j + 1) by lia. reflexivity.
Qed.

End Generator.

(** * The retriever *)

Lemma yields_bind_strong {A B} (Q : A -> Prop) (P : B -> Prop)
    (m : Prog A) (f : A -> Prog B) :
  Yields Q m -> (forall a, Q a -> Yields P (f a)) -> Yields P (bind m f).
Proof.
  intros Hm Hf W s b Hb. rewrite result_bind in Hb.
  destruct (result (run W m s)) as [a | e] eqn:Hres; [| discriminate].
  eapply Hf; [eapply Hm, Hres | exact Hb].
Qed.

Lemma yields_array_map receiver v f :
  Yields (fun out => isArray out = true) (array_map receiver v f).
Proof.
  unfold array_map, array_method. destruct v; yields; reflexivity.
Qed.

Section Retriever.
Context {H : Host}.

Lemma trim_start_blank s : blank s = true -> trim_start s = EmptyString.
Proof.
  induction s as [| c s' IH]; simpl; [reflexivity |].
  intros Hb. apply andb_prop in Hb as [Hc Hs]. rewrite Hc. apply IH, Hs.
Qed.

Lemma trim_blank s : blank s = true -> trim s = EmptyString.
Proof. intros Hb. unfold trim. rewrite (trim_start_blank s Hb). reflexivity. Qed.

Lemma missing_unusable query : missing query = true -> unusable query = true.
Proof. destruct query as [| | | | [| c s] | |]; simpl; congruence. Qed.

Lemma missing_guard query :
  missing query = negb (truthy query) || negb (typeof_string query).
Proof. destruct query as [| | b | x | [| c s] | |]; simpl; try reflexivity;
         try (destruct b; reflexivity); rewrite orb_true_r; reflexivity. Qed.

Lemma blank_rev_string s acc :
  blank (rev_string s acc) = blank s && blank acc.
Proof.
  revert acc. induction s as [| c s' IH]; intros acc; simpl.
  - reflexivity.
  - rewrite IH. simpl. destruct (is_whitespace c), (blank s'); reflexivity.
Qed.

Lemma blank_trim_start s : blank (trim_start s) = blank s.
Proof.
  induction s as [| c s' IH]; simpl; [reflexivity |].
  destruct (is_whitespace c) eqn:Hc; simpl; [exact IH | rewrite Hc; reflexivity].
Qed.

Lemma blank_trim s : blank (trim s) = blank s.
Proof.
  unfold trim.
  rewrite blank_rev_string, blank_trim_start, blank_rev_string, blank_trim_start.
  simpl. rewrite !andb_true_r. reflexivity.
Qed.

Lemma trim_empty s : String.eqb (trim s) "" = blank s.
Proof.
  destruct (blank s) eqn:Hb.
  - rewrite (trim_blank s Hb). reflexivity.
  - rewrite <- blank_trim in Hb. destruct (trim s); [discriminate | reflexivity].
Qed.

(** The validation of [searchKnowledgeBase] refuses exactly the unusable
    queries. *)
Lemma invalidQuery_spec query : invalidQuery query = Ret (unusable query).
Proof.
  unfold invalidQuery. rewrite <- missing_guard.
  destruct query as [| | b | x | [| c s] | |]; simpl; try reflexivity.
  rewrite (trim_empty (String c s)). reflexivity.
Qed.

Lemma invalidQuery_unusable query :
  unusable query = true -> invalidQuery query = Ret true.
Proof. intros Hu. rewrite invalidQuery_spec, Hu. reflexivity. Qed.

(** C8, as the code has it.  [searchKnowledgeBase] rejects every query
    that is not a string, is empty or is whitespace only: it calls nobody
    and returns the failure response of the validation error.
    [queryDocument] throws its validation error, calling nobody, on every
    query that is not a string or is empty. *)
Theorem unusable_query_rejected (W : World) (s : state W) (query : JsVal) :
  (unusable query = true ->
   run W (searchKnowledgeBase query) s
   = {| result := Ok (failureResponse query
                        (Error "Query cannot be empty or invalid."));
        trace := [];
        final := s |}) /\
  (missing query = true ->
   run W (queryDocument query) s
   = {| result := Thrown (Error "Invalid question provided");
        trace := [];
        final := s |}).
Proof.
  split.
  - intros Hu. unfold searchKnowledgeBase, search.
    rewrite (invalidQuery_unusable query Hu). reflexivity.
  - intros Hm. unfold queryDocument. rewrite <- missing_guard, Hm. reflexivity.
Qed.

Lemma mapi_formatResult i chunks :
  mapi_from formatResult i chunks = Ret (formatted i chunks).
Proof.
  revert i. induction chunks as [| c rest IH]; intros i; simpl;
    [reflexivity | rewrite IH; reflexivity].
Qed.

Lemma formatted_length i chunks :
  List.length (formatted i chunks) = List.length chunks.
Proof.
  revert i. induction chunks as [| c rest IH]; intros i; simpl;
    [reflexivity | rewrite IH; reflexivity].
Qed.

Lemma formatted_nth i chunks j r :
  nth_error (formatted i chunks) j = Some r ->
  exists chunk,
    nth_error chunks j = Some chunk /\
    r = JObj [("chunkId", JStr ("chunk_" ++ decimal (i + j)));
              ("content", chunk);
              ("relevanceScore", JNum (relevanceScore (i + j)))].
Proof.
  revert i j. induction chunks as [| c rest IH]; intros i j.
  - destruct j; discriminate.
  - destruct j as [| j]; simpl.
    + intros Hr. inversion Hr. exists c. rewrite Nat.add_0_r. auto.
    + intros Hr. destruct (IH (S i) j Hr) as [chunk [Hc Heq]].
      exists chunk. replace (i + S j) with (S i + j) by lia. auto.
Qed.

Lemma pure_hasText m : Pure (hasText m).
Proof. unfold hasText. auto 10 with prog. Qed.

Lemma rethrows_queryDocument question : Rethrows (queryDocument question).
Proof.
  unfold queryDocument. rethrows.
  - apply rethrows_pure, pure_array_filter, pure_hasText.
Qed.

Lemma rethrows_search query : Rethrows (search query).
Proof.
  unfold search. apply rethrows_bind.
  - apply rethrows_pure. unfold invalidQuery.
    destruct (negb (truthy query) || negb (typeof_string query));
      auto with prog.
  - intros invalid. destruct invalid; [constructor |].
    apply rethrows_bind; [apply rethrows_queryDocument |].
    intros raw. apply rethrows_pure. unfold formatResult. auto 8 with prog.
Qed.

Lemma yields_queryDocument question :
  Yields (fun out => isArray out = true) (queryDocument question).
Proof.
  unfold queryDocument. yields. apply yields_array_map.
Qed.

Lemma yields_search query :
  Yields (fun out => exists chunks, out = successResponse query (formatted 0 chunks))
    (search query).
Proof.
  unfold search. apply yields_bind. intros invalid.
  apply yields_if; [apply yields_throw |].
  apply (yields_bind_strong (fun out => isArray out = true));
    [apply yields_queryDocument |].
  intros raw Harray. destruct raw as [| | | | | chunks |]; try discriminate.
  cbn [array_map array_method]. rewrite mapi_formatResult.
  cbn [bind get String.eqb Ascii.eqb Bool.eqb].
  apply yields_ret. exists chunks. reflexivity.
Qed.

(** What [searchKnowledgeBase] returns: the response of its [try] block,
    or the failure response of what that block threw. *)
Lemma searchKnowledgeBase_returns (W : World) (s : state W) (query : JsVal) :
  let o := run W (searchKnowledgeBase query) s in
  trace o = trace (run W (search query) s) /\
  ((exists chunks,
      result (run W (search query) s)
      = Ok (successResponse query (formatted 0 chunks)) /\
      result o = Ok (successResponse query (formatted 0 chunks))) \/
   (exists e,
      result (run W (search query) s) = Thrown e /\
      result o = Ok (failureResponse query e))).
Proof.
  intros o. subst o.
  change (searchKnowledgeBase query)
    with (try_catch (search query) (fun e => Ret (failureResponse query e))).
  destruct (try_catch_returns W (search query) (failureResponse query) s)
    as [Hres Htr].
  split; [exact Htr |]. rewrite Hres.
  destruct (result (run W (search query) s)) as [out | e] eqn:Hbody.
  - left. destruct (yields_search query W s out Hbody) as [chunks Hout].
    exists chunks. subst out. auto.
  - right. exists e. auto.
Qed.

Lemma relevanceScore_next i : (relevanceScore (S i) < relevanceScore i)%Q.
Proof.
  unfold relevanceScore, num. rewrite Nat2Z.inj_succ. unfold Z.succ.
  rewrite inject_Z_plus. change (inject_Z 1) with 1%Q.
  generalize (inject_Z (Z.of_nat i)). intros x. lra.
Qed.

Lemma relevanceScore_decreasing i j :
  i < j -> (relevanceScore j < relevanceScore i)%Q.
Proof.
  induction 1 as [| j _ IH].
  - apply relevanceScore_next.
  - apply Qlt_trans with (relevanceScore j);
      [apply relevanceScore_next | exact IH].
Qed.


(** X2.  The rounding of binary64 does not disturb the order: over the
    first thousand positions the doubles [1 - (i * 0.1)] decrease
    strictly. *)
Theorem relevanceScore64_decreasing i :
  i < 1000 ->
  PrimFloat.ltb (relevanceScore64 (S i)) (relevanceScore64 i) = true.
Proof.
  intros Hi.
  assert (Hall : forallb (fun j => PrimFloat.ltb (relevanceScore64 (S j))
                                                 (relevanceScore64 j))
                         (seq 0 1000) = true) by (vm_compute; reflexivity).
  rewrite forallb_forall in Hall. apply Hall, in_seq. lia.
Qed.
End Retriever.

(** * Indexing *)

Section Indexing.
Context {H : Host}.

Lemma upsertFrom_unfold records i :
  upsertFrom records i
  = if Nat.ltb i (List.length records)
    then call (IndexUpsert (slice i (i + batchSize) records)) ;;
         upsertFrom records (i + batchSize)
    else Ret tt.
Proof.
  rewrite upsertFrom_equation_1. unfold upsertFrom_unfold_clause_1.
  destruct (lt_dec i (List.length records)) as [Hlt | Hge].
  - apply Nat.ltb_lt in Hlt. rewrite Hlt. reflexivity.
  - apply Nat.ltb_nlt in Hge. rewrite Hge. reflexivity.
Qed.

Lemma slice_length i records :
  i < List.length records ->
  0 < List.length (slice i (i + batchSize) records) <= batchSize.
Proof.
  intros Hlt. unfold slice. rewrite length_firstn, length_skipn.
  unfold batchSize. lia.
Qed.

Lemma slice_skipn i records :
  (slice i (i + batchSize) records ++ skipn (i + batchSize) records)%list
  = skipn i records.
Proof.
  unfold slice. replace (i + batchSize - i) with batchSize by lia.
  rewrite (Nat.add_comm i batchSize), <- skipn_skipn.
  apply firstn_skipn.
Qed.

(** The loop of [storeInPinecone], from index [i]: every call is an upsert
    of a batch of 1 to 100 records; when the loop returns it has upserted
    the records from [i] on, in order; it returns unless a call throws. *)
Lemma run_upsertFrom (W : World) records n :
  forall i (s : state W),
    List.length records - i <= n ->
    let o := run W (upsertFrom records i) s in
    (forall c a, In (c, a) (trace o) ->
       exists batch, c = IndexUpsert batch /\
                     0 < List.length batch <= batchSize) /\
    (result o = Ok tt -> upserted (trace o) = skipn i records) /\
    ((forall c e, ~ In (c, Thrown e) (trace o)) -> result o = Ok tt).
Proof.
  induction n as [| n IH]; intros i s Hn o; subst o;
    rewrite upsertFrom_unfold;
    destruct (Nat.ltb i (List.length records)) eqn:Hlt.
  - apply Nat.ltb_lt in Hlt. lia.
  - apply Nat.ltb_ge in Hlt. cbn. repeat split; try tauto.
    intros _. symmetry. apply skipn_all2. assumption.
  - apply Nat.ltb_lt in Hlt.
    cbn [bind call run result trace].
    set (c0 := IndexUpsert (slice i (i + batchSize) records)).
    destruct (fst (respond W c0 s)) as [v | e] eqn:Hanswer.
    + cbn [bind].
      assert (Hn' : List.length records - (i + batchSize) <= n)
        by (unfold batchSize; lia).
      destruct (IH (i + batchSize) (snd (respond W c0 s)) Hn')
        as [Hcalls [Hdone Hprogress]].
      repeat split.
      * intros c a [Heq | Hin].
        -- inversion Heq; subst c a. exists (slice i (i + batchSize) records).
           split; [reflexivity | apply slice_length, Hlt].
        -- apply (Hcalls c a Hin).
      * intros Hres. cbn [upserted flat_map fst c0].
        fold (upserted (trace (run W (upsertFrom records (i + batchSize))
                                    (snd (respond W c0 s))))).
        rewrite (Hdone Hres). apply slice_skipn.
      * intros Hquiet. apply Hprogress. intros c e Hin.
        apply (Hquiet c e). right. exact Hin.
    + cbn. repeat split.
      * intros c a [Heq | []]. inversion Heq; subst c a.
        exists (slice i (i + batchSize) records).
        split; [reflexivity | apply slice_length, Hlt].
      * discriminate.
      * intros Hquiet. exfalso. apply (Hquiet c0 e). left. reflexivity.
  - apply Nat.ltb_ge in Hlt. cbn. repeat split; try tauto.
    intros _. symmetry. apply skipn_all2. assumption.
Qed.
(** [chunks.map(...)] in [storeInPinecone] calls nobody and builds one
    record per chunk: the record at index [j] holds the chunk at [j] as its
    text and [vectors[j]] as its values. *)
Lemma run_buildRecords (W : World) vectors chunks :
  forall i (s : state W),
    let o := run W (mapi_from (buildRecord vectors) i chunks) s in
    trace o = [] /\
    exists records,
      result o = Ok records /\
      List.length records = List.length chunks /\
      forall j chunk,
        nth_error chunks j = Some chunk ->
        exists id timestamp,
          nth_error records j
          = Some (JObj [("id", JStr id);
                        ("values", nth (i + j) vectors JUndefined);
                        ("metadata", JObj [("text", chunk);
                                           ("timestamp", timestamp)])]).
Proof.
  induction chunks as [| c rest IH]; intros i s o; subst o.
  - cbn. split; [reflexivity |]. exists []. repeat split.
    intros j chunk Hj. destruct j; discriminate.
  - cbn [mapi_from buildRecord read bind run].
    set (s1 := snd (clock W DateNow s)).
    set (s2 := snd (clock W RandomBase36 s1)).
    set (s3 := snd (clock W DateToISOString s2)).
    destruct (IH (S i) s3) as [Htr [records [Hres [Hlen Hnth]]]].
    rewrite run_bind, Htr, Hres. cbn. split; [reflexivity |].
    eexists. split; [reflexivity |]. split; [simpl; rewrite Hlen; reflexivity |].
    intros j chunk Hj. destruct j as [| j].
    + inversion Hj; subst c. rewrite Nat.add_0_r.
      do 2 eexists. simpl. reflexivity.
    + simpl in Hj. destruct (Hnth j chunk Hj) as [id [ts Hr]].
      replace (i + S j) with (S i + j) by lia.
      exists id, ts. simpl. exact Hr.
Qed.

(** C6.  [storeInPinecone] given as many vectors as chunks or not.  When the
    counts differ it throws at once: no upsert is attempted.  When both are
    [n]: every value it returns is [n], and it has then upserted exactly
    [n] records, the one at index [i] holding chunk [i] and vector [i];
    every upsert carries 1 to 100 records; and it returns unless one of
    its calls throws. *)
Theorem storeInPinecone_counts (W : World) (s : state W)
    (chunks vectors : list JsVal) :
  let o := run W (storeInPinecone chunks vectors) s in
  (List.length chunks <> List.length vectors ->
   result o = Thrown (Error "Mismatch between chunks and vectors length") /\
   trace o = []) /\
  (List.length chunks = List.length vectors ->
   (forall v,
      result o = Ok v ->
      v = JNum (num (List.length chunks)) /\
      List.length (upserted (trace o)) = List.length chunks /\
      forall i chunk vector,
        nth_error chunks i = Some chunk -> nth_error vectors i = Some vector ->
        exists id timestamp,
          nth_error (upserted (trace o)) i
          = Some (JObj [("id", JStr id);
                        ("values", vector);
                        ("metadata", JObj [("text", chunk);
                                           ("timestamp", timestamp)])])) /\
   (forall batch a,
      In (IndexUpsert batch, a) (trace o) ->
      0 < List.length batch <= batchSize) /\
   ((forall c e, ~ In (c, Thrown e) (trace o)) ->
    result o = Ok (JNum (num (List.length chunks))))).
Proof.
  intros o. subst o. unfold storeInPinecone. split.
  - intros Hne. apply Nat.eqb_neq in Hne. rewrite Hne. cbn. auto.
  - intros Heq. rewrite Heq, Nat.eqb_refl. cbn [negb].
    cbn [bind call run result trace].
    destruct (fst (respond W NewPinecone s)) as [client | e] eqn:Hclient.
    2:{ cbn. split; [intros v Hv; discriminate |]. split.
        - intros batch a [Hev | []]. discriminate.
        - intros Hquiet. exfalso. apply (Hquiet NewPinecone e). left. reflexivity. }
    cbn [bind call run result trace].
    set (s1 := snd (respond W NewPinecone s)).
    destruct (fst (respond W (PineconeIndex PINECONE_INDEX_NAME) s1))
      as [index | e] eqn:Hindex.
    2:{ cbn. split; [intros v Hv; discriminate |]. split.
        - intros batch a [Hev | [Hev | []]]; discriminate.
        - intros Hquiet. exfalso.
          apply (Hquiet (PineconeIndex PINECONE_INDEX_NAME) e).
          right. left. reflexivity. }
    cbn [bind].
    set (s2 := snd (respond W (PineconeIndex PINECONE_INDEX_NAME) s1)).
    destruct (run_buildRecords W vectors chunks 0 s2)
      as [Htr [records [Hres [Hlen Hnth]]]].
    rewrite run_bind, Htr, Hres. cbn [result trace final app].
    set (s3 := final (run W (mapi_from (buildRecord vectors) 0 chunks) s2)).
    destruct (run_upsertFrom W records (List.length records) 0 s3)
      as [Hcalls [Hdone Hprogress]]; [lia |].
    assert (Hsize : forall batch a,
               In (IndexUpsert batch, a)
                  ((NewPinecone, Ok client)
                   :: (PineconeIndex PINECONE_INDEX_NAME, Ok index)
                   :: trace (run W (upsertFrom records 0) s3)) ->
               0 < List.length batch <= batchSize).
    { intros batch a [Hev | [Hev | Hin]]; try discriminate.
      destruct (Hcalls _ _ Hin) as [b [Hb Hsize]].
      inversion Hb; subst b. exact Hsize. }
    rewrite run_bind.
    destruct (result (run W (upsertFrom records 0) s3)) as [[] | e] eqn:Hloop;
      cbn [result trace final run app].
    + rewrite app_nil_r. split; [| split].
      * intros v Hv.
        cbn [upserted flat_map fst app].
        fold (upserted (trace (run W (upsertFrom records 0) s3))).
        rewrite (Hdone eq_refl). cbn [skipn].
        split; [inversion Hv; rewrite Hlen, Heq; reflexivity |].
        split; [rewrite Hlen, Heq; reflexivity |].
        intros i chunk vector Hchunk Hvector.
        destruct (Hnth i chunk Hchunk) as [id [ts Hr]].
        exists id, ts. rewrite Hr. cbn [Nat.add].
        rewrite (nth_error_nth _ _ JUndefined Hvector). reflexivity.
      * exact Hsize.
      * intros _. rewrite Hlen, Heq. reflexivity.
    + split; [intros v Hv; discriminate |]. split.
      * exact Hsize.
      * intros Hquiet. exfalso.
        assert (Hok : @Thrown unit e = Ok tt).
        { apply Hprogress. intros c e' Hin. apply (Hquiet c e').
          right. right. exact Hin. }
        discriminate.
Qed.
End Indexing.

(** * Further properties *)

Section Further.
Context {H : Host}.

(** X1.  [searchKnowledgeBase] lets every usable query through: for a
    string with a character that is not whitespace the validation passes
    and the retrieval starts, its first call being the construction of the
    embeddings client. *)
Theorem usable_query_reaches_retrieval (W : World) (s : state W)
    (query : JsVal) :
  unusable query = false ->
  exists rest,
    calls (trace (run W (searchKnowledgeBase query) s))
    = NewGoogleGenerativeAIEmbeddings "text-embedding-004" :: rest.
Proof.
  intros Hu. unfold searchKnowledgeBase, search.
  rewrite invalidQuery_spec, Hu. cbn [bind].
  destruct query as [| | | | [| c str] | |]; try discriminate.
  cbn [queryDocument truthy typeof_string String.eqb negb orb].
  cbn [try_catch bind call run trace calls map fst]. eauto.
Qed.

(** X3.  Dispatch of the two intents without retrieval.  For
    [get_query_count] the dispatcher calls the counter and nobody else, and
    returns the [query_count] output with the count when the counter
    returns.  For every intent that is none of the three known labels it
    calls nobody and returns the [error] output of an unrecognised
    request. *)
Theorem dispatch_without_retrieval (W : World) (s : state W)
    (intent query : JsVal) :
  let o := run W (executeTools intent query) s in
  (is_str intent "get_query_count" = true ->
   calls (trace o) = [QueryCounter] /\
   forall count,
     fst (respond W QueryCounter s) = Ok count ->
     result o = Ok (JObj [("type", JStr "query_count"); ("count", count)])) /\
  (is_str intent "answer_question" = false ->
   is_str intent "search_knowledge_base" = false ->
   is_str intent "get_query_count" = false ->
   o = {| result := Ok (JObj [("type", JStr "error");
                              ("message", JStr "I don't understand that request.")]);
          trace := [];
          final := s |}).
Proof.
  intros o. subst o. unfold executeTools, dispatch. split.
  - intros Hcount.
    destruct intent as [| | | | label | |]; try discriminate.
    apply String.eqb_eq in Hcount. subst label.
    cbn [is_str String.eqb Ascii.eqb Bool.eqb].
    cbn [try_catch bind call run trace result].
    destruct (fst (respond W QueryCounter s)) as [count | e]; cbn.
    + split; [reflexivity |]. intros c Hc. inversion Hc. reflexivity.
    + split; [reflexivity |]. intros c Hc. discriminate.
  - intros Ha Hs Hc. rewrite Ha, Hs, Hc. reflexivity.
Qed.

(** X4.  The composer on the other variants: an [answer] output gives its
    answer and an [error] output its message, both as they are; a
    [query_count] output gives the sentence with the count; an output of
    any other type gives the fixed fallback sentence. *)
Theorem generateResponse_variants (intent toolOutput : JsVal) :
  (get toolOutput "type" = Ret (JStr "answer") ->
   generateResponse intent toolOutput = get toolOutput "answer") /\
  (get toolOutput "type" = Ret (JStr "error") ->
   generateResponse intent toolOutput = get toolOutput "message") /\
  (forall count,
     get toolOutput "type" = Ret (JStr "query_count") ->
     get toolOutput "count" = Ret count ->
     generateResponse intent toolOutput
     = Ret (JStr ("The total number of queries processed so far is: "
                  ++ to_string count ++ "."))) /\
  (forall type,
     get toolOutput "type" = Ret type ->
     is_str type "answer" = false -> is_str type "search" = false ->
     is_str type "query_count" = false -> is_str type "error" = false ->
     generateResponse intent toolOutput
     = Ret (JStr "I'm sorry, I couldn't process that request fully. Please try again.")).
Proof.
  unfold generateResponse. repeat split.
  - intros Htype. rewrite Htype. reflexivity.
  - intros Htype. rewrite Htype. reflexivity.
  - intros count Htype Hcount. rewrite Htype. cbn. rewrite Hcount. reflexivity.
  - intros type Htype Ha Hs Hq He. rewrite Htype. cbn [bind].
    rewrite Ha, Hs, Hq, He. reflexivity.
Qed.
End Further.

(** * Reasoning about tasks *)

Section Exec.
Context {A B : Type} (S : System).

Lemma exec_chain (t : Task A) (f : A -> Task B) (s : memory S) :
  exec S (chain t f) s =
  match outcome (exec S t s) with
  | Returns a =>
      let r := exec S (f a) (after (exec S t s)) in
      {| outcome := outcome r;
         log := log (exec S t s) ++ log r;
         after := after r |}
  | Fails x =>
      {| outcome := Fails x;
         log := log (exec S t s);
         after := after (exec S t s) |}
  end.
Proof.
  revert s. induction t as [a | x | X e k IH | r k IH | k IH]; intros s; simpl.
  - destruct (exec S (f a) s); reflexivity.
  - reflexivity.
  - rewrite IH. destruct (outcome (exec S (k _) _)); reflexivity.
  - apply IH.
  - apply IH.
Qed.

Lemma exec_attempt (t : Task A) (h : Exception -> Task A) (s : memory S) :
  exec S (attempt t h) s =
  match outcome (exec S t s) with
  | Returns a =>
      {| outcome := Returns a;
         log := log (exec S t s);
         after := after (exec S t s) |}
  | Fails x =>
      let r := exec S (h x) (after (exec S t s)) in
      {| outcome := outcome r;
         log := log (exec S t s) ++ log r;
         after := after r |}
  end.
Proof.
  revert s. induction t as [a | x | X e k IH | r k IH | k IH]; intros s; simpl.
  - reflexivity.
  - destruct (exec S (h x) s); reflexivity.
  - rewrite IH. destruct (outcome (exec S (k _) _)); reflexivity.
  - apply IH.
  - apply IH.
Qed.

End Exec.

Section Lifting.
Context {H : Host} (S : System).

Lemma seen_unseen {A} (r : Result A) : seen (unseen r) = r.
Proof. destruct r; reflexivity. Qed.

Lemma exec_lift {A} (p : Prog A) (s : memory S) :
  outcome (exec S (lift p) s) = unseen (result (run (services S) p s)) /\
  pipeline (log (exec S (lift p) s)) = trace (run (services S) p s) /\
  after (exec S (lift p) s) = final (run (services S) p s).
Proof.
  revert s. induction p as [a | e | c k IH | r k IH]; intros s.
  - simpl. auto.
  - simpl. auto.
  - cbn [lift exec run services respond state outcome log after result trace final
         fst snd pipeline flat_map pipeline_event app].
    destruct (IH (seen (fst (answer S _ (Service c) s)))
                 (snd (answer S _ (Service c) s))) as [Ho [Hl Ha]].
    split; [exact Ho |]. split; [| exact Ha].
    f_equal. exact Hl.
  - destruct r; simpl; apply IH.
Qed.

Lemma exec_settle {A} (t : Task A) (s : memory S) :
  outcome (exec S (settle t) s) = Returns (seen (outcome (exec S t s))) /\
  log (exec S (settle t) s) = log (exec S t s) /\
  after (exec S (settle t) s) = after (exec S t s).
Proof.
  unfold settle. rewrite exec_attempt, exec_chain.
  destruct (outcome (exec S t s)) as [a | x]; simpl;
    rewrite ?app_nil_r; auto.
Qed.

Lemma exec_wire {A} (p : Prog A) (s : memory S) :
  outcome (exec S (wire p) s) = unseen (result (run (wired S) p s)) /\
  after (exec S (wire p) s) = final (run (wired S) p s).
Proof.
  revert s. induction p as [a | e | c k IH | r k IH]; intros s.
  - simpl. auto.
  - simpl. auto.
  - destruct c;
      try (cbn [wire exec run wired services respond state outcome after result
                final fst snd]; apply IH).
    + cbn [wire]. rewrite exec_chain.
      destruct (exec_settle (lift (searchKnowledgeBase query)) s) as [Ho [_ Ha]].
      rewrite Ho, Ha. cbn [outcome after run wired respond result final fst snd].
      apply IH.
    + cbn [wire]. rewrite exec_chain.
      destruct (exec_settle (lift (generateAnswer query context)) s) as [Ho [_ Ha]].
      rewrite Ho, Ha. cbn [outcome after run wired respond result final fst snd].
      apply IH.
    + cbn [wire]. rewrite exec_chain.
      destruct (exec_settle queryCounter s) as [Ho [_ Ha]].
      rewrite Ho, Ha. cbn [outcome after run wired respond result final fst snd].
      apply IH.
  - destruct r; simpl; apply IH.
Qed.

End Lifting.

Section Logs.
Context {H : Host}.

Lemma pipeline_cons ev l :
  pipeline (ev :: l) = (pipeline_event ev ++ pipeline l)%list.
Proof. reflexivity. Qed.

Lemma pipeline_app l m : pipeline (l ++ m) = (pipeline l ++ pipeline m)%list.
Proof. unfold pipeline. apply flat_map_app. Qed.

Lemma upserted_app t u : upserted (t ++ u) = (upserted t ++ upserted u)%list.
Proof. unfold upserted. apply flat_map_app. Qed.

End Logs.

(** ** What a task gives *)

Section Giving.
Context {H : Host} (S : System).

Lemma gives_done {A} (P : A -> Prop) a : P a -> Gives S P (Done a).
Proof. intros HP s. exists a. auto. Qed.

Lemma gives_chain {A B} (Q : A -> Prop) (P : B -> Prop)
    (t : Task A) (f : A -> Task B) :
  Gives S Q t -> (forall a, Q a -> Gives S P (f a)) -> Gives S P (chain t f).
Proof.
  intros Ht Hf s. rewrite exec_chain.
  destruct (Ht s) as [a [Ha HQ]]. rewrite Ha. cbn [outcome].
  apply (Hf a HQ).
Qed.

Lemma gives_attempt {A} (P : A -> Prop) (t : Task A) h :
  Ensures S P t -> (forall x, Gives S P (h x)) -> Gives S P (attempt t h).
Proof.
  intros Ht Hh s. rewrite exec_attempt.
  destruct (outcome (exec S t s)) as [a | x] eqn:Hout; cbn [outcome].
  - exists a. split; [reflexivity | apply (Ht s a Hout)].
  - apply Hh.
Qed.

Lemma gives_now {A} (P : A -> Prop) (k : Q -> Task A) :
  (forall t, Gives S P (k t)) -> Gives S P (Now k).
Proof. intros Hk s. apply Hk. Qed.

Lemma ensures_done {A} (P : A -> Prop) a : P a -> Ensures S P (Done a).
Proof. intros HP s b Hb. inversion Hb. subst. exact HP. Qed.

Lemma ensures_raise {A} (P : A -> Prop) x : Ensures S P (Raise x).
Proof. intros s b Hb. discriminate. Qed.

Lemma ensures_chain {A B} (P : B -> Prop) (t : Task A) (f : A -> Task B) :
  (forall a, Ensures S P (f a)) -> Ensures S P (chain t f).
Proof.
  intros Hf s b. rewrite exec_chain.
  destruct (outcome (exec S t s)) as [a | x]; cbn [outcome]; [| discriminate].
  apply Hf.
Qed.

Lemma ensures_now {A} (P : A -> Prop) (k : Q -> Task A) :
  (forall t, Ensures S P (k t)) -> Ensures S P (Now k).
Proof. intros Hk s. apply Hk. Qed.

Lemma ensures_if {A} (P : A -> Prop) (b : bool) (t u : Task A) :
  Ensures S P t -> Ensures S P u -> Ensures S P (if b then t else u).
Proof. destruct b; auto. Qed.

Lemma ensures_attempt {A} (P : A -> Prop) (t : Task A) h :
  Ensures S P t -> (forall x, Ensures S P (h x)) -> Ensures S P (attempt t h).
Proof.
  intros Ht Hh s b. rewrite exec_attempt.
  destruct (outcome (exec S t s)) as [a | x] eqn:Hout; cbn [outcome].
  - intros Hb. inversion Hb; subst b. apply (Ht s a Hout).
  - apply Hh.
Qed.

End Giving.

Ltac ensures :=
  repeat match goal with
    | |- Ensures _ _ (if _ then _ else _) => apply ensures_if
    | |- Ensures _ _ (chain _ _) => apply ensures_chain; intros ?
    | |- Ensures _ _ (attempt _ _) => apply ensures_attempt; [| intros ?]
    | |- Ensures _ _ (Now _) => apply ensures_now; intros ?
    | |- Ensures _ _ (Raise _) => apply ensures_raise
    | |- Ensures _ _ (send _ _) => apply ensures_done
    | |- Ensures _ _ (Done _) => apply ensures_done
    | |- Ensures _ _ _ => progress cbv beta zeta
    end.

(** * The indexing steps *)

Section Documents.
Context {H : Host} (S : System).



Lemma processDocument_returned (s : memory S) documentText chunks :
  outcome (exec S (processDocument documentText) s) = Returns chunks ->
  chunks <> [] /\
  In (Did (SplitText documentText) (Returns chunks))
     (log (exec S (processDocument documentText) s)) /\
  pipeline (log (exec S (processDocument documentText) s)) = [].
Proof.
  unfold processDocument.
  destruct (negb (truthy documentText) || negb (typeof_string documentText));
    [discriminate |].
  cbn [chain perform exec outcome log after].
  destruct (fst (answer S _ (NewRecursiveCharacterTextSplitter 500 100) s));
    [| discriminate].
  cbn [chain exec outcome log after].
  destruct (fst (answer S _ (SplitText documentText) _)) as [cs | x];
    [| discriminate].
  cbn [chain]. destruct cs as [| c rest]; cbn; [discriminate |].
  intros Hr. inversion Hr; subst chunks.
  split; [discriminate |]. split; [right; left; reflexivity | reflexivity].
Qed.

Lemma generateEmbeddings_returned (s : memory S) chunks vectors :
  outcome (exec S (generateEmbeddings chunks) s) = Returns vectors ->
  In (Did (EmbedDocuments chunks) (Returns vectors))
     (log (exec S (generateEmbeddings chunks) s)) /\
  upserted (pipeline (log (exec S (generateEmbeddings chunks) s))) = [].
Proof.
  unfold generateEmbeddings.
  destruct chunks as [| | b | x | str | items | fields]; try discriminate.
  destruct (Nat.eqb (List.length items) 0); [discriminate |].
  cbn [chain perform exec outcome log after].
  destruct (fst (answer S _ (Service (NewGoogleGenerativeAIEmbeddings _)) s));
    [| discriminate].
  cbn [chain exec outcome log after].
  destruct (fst (answer S _ (EmbedDocuments (JArr items)) _)) as [vs | x];
    [| discriminate].
  cbn [chain]. rewrite exec_chain.
  destruct (outcome (exec S (emptyVectors vs) _)) as [empty | x] eqn:Hempty;
    [| discriminate].
  assert (Hlog : log (exec S (emptyVectors vs)
                        (snd (answer S _ (EmbedDocuments (JArr items))
                                (snd (answer S _ (Service
                                   (NewGoogleGenerativeAIEmbeddings "text-embedding-004")) s)))))
                 = []).
  { unfold emptyVectors. cbn [truthy negb].
    destruct (Nat.eqb (List.length vs) 0); [reflexivity |].
    destruct vs as [| first rest]; cbn [lift get_index nth chain].
    - cbn [get lookup lift chain exec log]. reflexivity.
    - destruct (pure_cases _ (pure_get first "length")) as [[len Hl] | [e Hl]];
        rewrite Hl; reflexivity. }
  cbn [outcome log after]. rewrite Hlog.
  destruct empty; cbn; [discriminate |].
  intros Hr. inversion Hr; subst vectors.
  split; [right; left; reflexivity | reflexivity].
Qed.

End Documents.

(** * The counter and the log *)

Lemma digits_string_of_uint d : digits (NilEmpty.string_of_uint d) = d.
Proof. induction d; simpl; congruence. Qed.

(** [parseInt] reads back what [toString] prints of an integer. *)
Lemma parseInt_integer n : parseInt (integer n) = Some n.
Proof.
  unfold integer.
  assert (Hpos : forall p,
             parseInt (NilZero.string_of_uint (Pos.to_uint p)) = Some (Z.pos p) /\
             parseInt (String "-" (NilZero.string_of_uint (Pos.to_uint p)))
             = Some (Z.neg p)).
  { intros p.
    assert (Hvalue : Z.of_uint (Pos.to_uint p) = Z.pos p).
    { unfold Z.of_uint. rewrite DecimalPos.Unsigned.of_to. reflexivity. }
    pose proof (DecimalPos.Unsigned.to_uint_nonnil p) as Hnil.
    revert Hvalue Hnil. generalize (Pos.to_uint p) as d. intros d Hvalue Hnil.
    destruct d; try contradiction; unfold parseInt;
      cbn [NilZero.string_of_uint NilEmpty.string_of_uint trim_start];
      repeat match goal with
        | |- context [is_whitespace ?c] => change (is_whitespace c) with false
        end;
      cbn [digits]; rewrite digits_string_of_uint, Hvalue;
      split; reflexivity. }
  destruct n as [| p | p]; [reflexivity | apply Hpos | apply Hpos].
Qed.

Section Files.
Context {H : Host} (S : System).

(** X7.  [logQuery] never throws, whatever the file system does: it
    returns [undefined].  It makes the [logs] directory and, only when that
    succeeded, appends one entry to [logs/query-log.txt]; a failure of
    either is swallowed. *)
Theorem logQuery_never_throws (s : memory S)
    (query answer_ chunksRetrieved duration : JsVal) :
  let r := exec S (logQuery query answer_ chunksRetrieved duration) s in
  let made := fst (answer S _ (Mkdir logsDir) s) in
  let s1 := snd (answer S _ (Mkdir logsDir) s) in
  let timestamp := fst (wall S DateToISOString s1) in
  let entry := logEntry timestamp query answer_ chunksRetrieved duration in
  outcome r = Returns JUndefined /\
  (forall x, made = Fails x -> log r = [Did (Mkdir logsDir) made]) /\
  (forall v, made = Returns v ->
     exists appended,
       log r = [Did (Mkdir logsDir) made; Did (AppendFile logFile entry) appended]).
Proof.
  intros r made s1 timestamp entry. subst r. unfold logQuery.
  cbn [chain perform look attempt exec outcome log after]. fold made s1.
  destruct made as [v | x] eqn:Hmade.
  - cbn [chain attempt exec outcome log after]. fold timestamp entry.
    fold logFile.
    destruct (fst (answer S _ (AppendFile logFile entry)
                          (snd (wall S DateToISOString s1)))) as [w | x] eqn:Happend;
      cbn; (split; [reflexivity |]); (split; [discriminate |]);
      intros v' _; eexists; reflexivity.
  - cbn. split; [reflexivity |]. split; [reflexivity | discriminate].
Qed.

(** X8.  [queryCounter] adds one to the count kept in
    [logs/query-count.txt].  Once the [logs] directory is made, the count
    is the integer the file starts with, and [0] when the file does not
    start with one or does not exist ([ENOENT]).  The function writes the
    next count to the file, in decimal, and returns it once written; read
    back by [parseInt] the text written is the count returned.  The count
    is below [2^53], where a number is exact. *)
Theorem queryCounter_counts (s : memory S) (made : JsVal) (n : Z) :
  let r := exec S queryCounter s in
  let s1 := snd (answer S _ (Mkdir logsDir) s) in
  let read := answer S _ (ReadFile countFile) s1 in
  let write := WriteFile countFile (integer (n + 1)) in
  fst (answer S _ (Mkdir logsDir) s) = Returns made ->
  (exists data, fst read = Returns data /\ parseInt data = Some n) \/
  (exists data, fst read = Returns data /\ parseInt data = None /\ n = 0%Z) \/
  (exists x, fst read = Fails x /\ is_str (code x) "ENOENT" = true /\ n = 0%Z) ->
  (Z.abs n < 2 ^ 53)%Z ->
  forall written,
    fst (answer S _ write (snd read)) = Returns written ->
    outcome r = Returns (JNum (inject_Z (n + 1))) /\
    log r = [Did (Mkdir logsDir) (Returns made);
             Did (ReadFile countFile) (fst read);
             Did write (Returns written)] /\
    parseInt (integer (n + 1)) = Some (n + 1)%Z.
Proof.
  intros r s1 read write Hmade Hread _ written Hwritten. subst r.
  unfold queryCounter. fold countFile.
  cbn [chain perform attempt exec outcome log after]. rewrite Hmade.
  cbn [chain attempt exec outcome log after]. fold s1 read.
  destruct Hread as [[data [Hdata Hn]] | [[data [Hdata [Hn H0]]] | [x [Hx [Hcode H0]]]]].
  - rewrite Hdata. cbn [chain attempt]. rewrite Hn.
    cbn [chain attempt exec outcome log after]. fold write.
    rewrite Hwritten. cbn. repeat split. apply parseInt_integer.
  - subst n. rewrite Hdata. cbn [chain attempt]. rewrite Hn.
    cbn [chain attempt exec outcome log after]. fold write.
    rewrite Hwritten. cbn. repeat split.
  - subst n. rewrite Hx. cbn [chain attempt]. rewrite Hcode.
    cbn [chain attempt exec outcome log after]. fold write.
    rewrite Hwritten. cbn. repeat split.
Qed.


(** The one error [queryCounter] lets out. *)
Lemma queryCounter_throws (s : memory S) x :
  outcome (exec S queryCounter s) = Fails x -> x = countFailure.
Proof.
  unfold queryCounter.
  cbn [chain perform attempt exec outcome log after].
  destruct (fst (answer S _ (Mkdir logsDir) s));
    [| cbn; intros Hx; inversion Hx; reflexivity].
  cbn [chain attempt exec outcome log after].
  destruct (fst (answer S _ (ReadFile _) _)) as [data | x0];
    cbn [chain perform attempt exec outcome log after];
    [destruct (parseInt data) | destruct (is_str (code x0) "ENOENT")];
    cbn [chain perform attempt exec outcome log after];
    try (cbn; intros Hx; inversion Hx; reflexivity);
    match goal with
    | |- context [answer S _ (WriteFile ?f ?d) ?m] =>
        destruct (fst (answer S _ (WriteFile f d) m));
        cbn; intros Hx; inversion Hx; reflexivity
    end.
Qed.

Lemma queryCounter_quiet (s : memory S) :
  pipeline (log (exec S queryCounter s)) = [].
Proof.
  unfold queryCounter.
  cbn [chain perform attempt exec outcome log after].
  destruct (fst (answer S _ (Mkdir logsDir) s)); [| reflexivity].
  cbn [chain attempt exec outcome log after].
  destruct (fst (answer S _ (ReadFile _) _)) as [data | x];
    cbn [chain perform attempt exec outcome log after];
    [destruct (parseInt data) | destruct (is_str (code x) "ENOENT")];
    cbn [chain perform attempt exec outcome log after];
    try reflexivity;
    match goal with
    | |- context [answer S _ (WriteFile ?f ?d) ?m] =>
        destruct (fst (answer S _ (WriteFile f d) m)); reflexivity
    end.
Qed.

Lemma logQuery_quiet (s : memory S) query answer_ chunksRetrieved duration :
  outcome (exec S (logQuery query answer_ chunksRetrieved duration) s)
  = Returns JUndefined /\
  pipeline (log (exec S (logQuery query answer_ chunksRetrieved duration) s)) = [].
Proof.
  unfold logQuery. cbn [chain perform look attempt exec outcome log after].
  destruct (fst (answer S _ (Mkdir logsDir) s)); [| split; reflexivity].
  cbn [chain attempt exec outcome log after].
  match goal with
  | |- context [answer S _ (AppendFile ?f ?d) ?m] =>
      destruct (fst (answer S _ (AppendFile f d) m)); split; reflexivity
  end.
Qed.

Lemma gives_logQuery query answer_ chunksRetrieved duration :
  Gives S (fun _ => True) (logQuery query answer_ chunksRetrieved duration).
Proof.
  intros s. exists JUndefined. split; [| exact I].
  apply logQuery_quiet.
Qed.

End Files.

Section Disk.
Context {H : Host} (others : forall X, Effect X -> Reply X).

Lemma disk_queryCounter (files : list (Path * string)) :
  let next := (heldCount files + 1)%Z in
  outcome (exec (disk others) queryCounter files) = Returns (JNum (inject_Z next)) /\
  after (exec (disk others) queryCounter files) = (countFile, integer next) :: files.
Proof.
  unfold queryCounter, heldCount. fold countFile.
  cbn [chain perform attempt exec outcome log after disk answer memory fst snd].
  destruct (contents countFile files) as [data |].
  - cbn [chain attempt]. destruct (parseInt data) as [n |]; cbn; auto.
  - cbn. auto.
Qed.

Lemma heldCount_written n files :
  heldCount ((countFile, integer n) :: files) = n.
Proof.
  unfold heldCount. cbn [contents].
  change (same_path countFile countFile) with true. cbn iota.
  rewrite parseInt_integer. reflexivity.
Qed.

(** X10.  On a file system that keeps what is written, [queryCounter]
    counts: it returns, the next call returns one more, and the first call
    ever, when the file does not exist yet, returns [1]. *)
Theorem queryCounter_counts_up (files : list (Path * string)) :
  let first := exec (disk others) queryCounter files in
  let second := exec (disk others) queryCounter (after first) in
  exists n,
    outcome first = Returns (JNum (inject_Z n)) /\
    (contents countFile files = None -> n = 1%Z) /\
    ((Z.abs n < 2 ^ 53)%Z ->
     outcome second = Returns (JNum (inject_Z (n + 1)))).
Proof.
  intros first second. subst second first.
  destruct (disk_queryCounter files) as [Hout Hafter].
  exists (heldCount files + 1)%Z. split; [exact Hout |]. split.
  - intros Hnone. unfold heldCount. rewrite Hnone. reflexivity.
  - intros _. rewrite Hafter.
    destruct (disk_queryCounter ((countFile, integer (heldCount files + 1)) :: files))
      as [Hout' _].
    rewrite Hout', heldCount_written. reflexivity.
Qed.

End Disk.

(** * The retrieval gives text *)

Section Texts.
Context {H : Host}.

Lemma yields_pure {A} (P : A -> Prop) (p : Prog A) :
  Pure p -> (forall a, p = Ret a -> P a) -> Yields P p.
Proof.
  intros [a | e] Hp W s b Hb; simpl in Hb; [| discriminate].
  inversion Hb; subst b. apply Hp. reflexivity.
Qed.

Lemma hasText_text m :
  hasText m = Ret true -> exists t, textOf m = Ret t /\ isText t.
Proof.
  unfold hasText, textOf, and_then.
  destruct (pure_cases _ (pure_get m "metadata")) as [[md Hmd] | [e Hmd]];
    rewrite Hmd; cbn [bind]; [| discriminate].
  unfold get_optional. destruct (nullish md) eqn:Hnull; cbn [bind].
  { cbn. discriminate. }
  destruct (get_nonnullish md "text" Hnull) as [t Ht]. rewrite Ht. cbn [bind].
  destruct (truthy t) eqn:Htruthy; cbn [bind].
  - destruct t as [| | b | x | text | items | fields]; cbn; try discriminate.
    intros _. exists (JStr text). split; [reflexivity |].
    exists text. split; [reflexivity |].
    intros Hempty. subst text. discriminate.
  - rewrite Htruthy. discriminate.
Qed.

Lemma filter_hasText items kept :
  filter_from hasText items = Ret kept ->
  Forall (fun m => hasText m = Ret true) kept.
Proof.
  revert kept. induction items as [| m rest IH]; intros kept; simpl.
  - intros Hk. inversion Hk. constructor.
  - destruct (pure_cases _ (pure_hasText m)) as [[keep Hkeep] | [e Hkeep]];
      rewrite Hkeep; cbn [bind]; [| discriminate].
    destruct (pure_cases _ (pure_filter_from hasText rest pure_hasText))
      as [[ys Hys] | [e Hys]]; rewrite Hys; cbn [bind]; [| discriminate].
    intros Hk. inversion Hk; subst kept.
    destruct keep; [constructor; [assumption |] |]; apply IH; exact Hys.
Qed.

Lemma map_textOf kept i :
  Forall (fun m => hasText m = Ret true) kept ->
  exists texts,
    mapi_from (fun match_ _ => metadata <- get match_ "metadata" ;;
                               get metadata "text") i kept = Ret texts /\
    Forall isText texts.
Proof.
  intros Hkept. revert i. induction Hkept as [| m rest Hm _ IH]; intros i; simpl.
  - exists []. split; [reflexivity | constructor].
  - destruct (hasText_text m Hm) as [t [Ht Htext]].
    unfold textOf in Ht. rewrite Ht. cbn [bind].
    destruct (IH (S i)) as [texts [Hmap Htexts]]. rewrite Hmap. cbn [bind].
    exists (t :: texts). split; [reflexivity | constructor; assumption].
Qed.

(** What [queryDocument] returns is an array of chunks of text. *)
Lemma yields_queryDocument_text question :
  Yields (fun out => exists chunks, out = JArr chunks /\ Forall isText chunks)
    (queryDocument question).
Proof.
  unfold queryDocument. apply yields_if; [apply yields_throw |].
  do 5 (apply yields_bind; intros ?).
  apply yields_bind. intros matches.
  apply (yields_bind_strong
           (fun withText => exists kept, withText = JArr kept /\
                                         Forall (fun m => hasText m = Ret true) kept)).
  - apply yields_pure; [apply pure_array_filter, pure_hasText |].
    intros withText. destruct matches as [| | b | x | str | items | fields];
      try discriminate.
    cbn [array_filter array_method].
    destruct (pure_cases _ (pure_filter_from hasText items pure_hasText))
      as [[ys Hys] | [e Hys]]; rewrite Hys; cbn [bind]; [| discriminate].
    intros Hw. inversion Hw. exists ys. split; [reflexivity |].
    apply filter_hasText with items. exact Hys.
  - intros withText [kept [Hw Hkept]]. subst withText.
    cbn [array_map array_method].
    destruct (map_textOf kept 0 Hkept) as [texts [Hmap Htexts]].
    rewrite Hmap. cbn [bind]. apply yields_ret. exists texts. auto.
Qed.

Lemma yields_search_text query :
  Yields (fun out => exists chunks,
            out = successResponse query (formatted 0 chunks) /\
            Forall isText chunks)
    (search query).
Proof.
  unfold search. apply yields_bind. intros invalid.
  apply yields_if; [apply yields_throw |].
  apply (yields_bind_strong
           (fun out => exists chunks, out = JArr chunks /\ Forall isText chunks));
    [apply yields_queryDocument_text |].
  intros raw [chunks [Hraw Hchunks]]. subst raw.
  cbn [array_map array_method]. rewrite mapi_formatResult.
  cbn [bind get String.eqb Ascii.eqb Bool.eqb].
  apply yields_ret. exists chunks. auto.
Qed.

(** What the server's [searchKnowledgeBase] returns, in every world. *)
Lemma searchKnowledgeBase_serverResponse (W : World) (s : state W) (query : JsVal) :
  exists response,
    result (run W (searchKnowledgeBase query) s) = Ok response /\
    serverResponse query response.
Proof.
  change (searchKnowledgeBase query)
    with (try_catch (search query) (fun e => Ret (failureResponse query e))).
  destruct (try_catch_returns W (search query) (failureResponse query) s)
    as [Hres _].
  rewrite Hres.
  destruct (result (run W (search query) s)) as [out | e] eqn:Hbody.
  - exists out. split; [reflexivity |]. left.
    exact (yields_search_text query W s out Hbody).
  - exists (failureResponse query e). split; [reflexivity |]. right.
    exists e. reflexivity.
Qed.

Lemma formatted_contents i chunks :
  Forall isText chunks ->
  Forall (fun r => exists text, get r "content" = Ret (JStr text) /\ text <> "")
         (formatted i chunks).
Proof.
  intros Hchunks. revert i.
  induction Hchunks as [| chunk rest [text [Hc Ht]] _ IH]; intros i; simpl.
  - constructor.
  - constructor; [| apply IH]. subst chunk. exists text. auto.
Qed.


End Texts.

(** * The agent of the server *)

Section Agent.
Context {H : Host}.

Lemma yields_answer_fields query :
  Yields (fun out => exists fields,
            out = JObj fields /\ lookup "type" fields = JStr "answer")
    (dispatch (JStr "answer_question") query).
Proof.
  unfold dispatch. cbn [is_str String.eqb Ascii.eqb Bool.eqb].
  yields; eexists; split; reflexivity.
Qed.

Lemma is_str_eq v label : is_str v label = true -> v = JStr label.
Proof.
  destruct v; try discriminate. simpl. intros Heq.
  apply String.eqb_eq in Heq. congruence.
Qed.

(** The outputs of [executeTools] in a world whose search collaborator
    answers as the server's [searchKnowledgeBase] does. *)
Lemma executeTools_shapes (W : World) (s : state W) (intent query : JsVal) :
  (forall s' q, exists response,
      fst (respond W (SearchKnowledgeBase q) s') = Ok response /\
      serverResponse q response) ->
  exists out,
    result (run W (executeTools intent query) s) = Ok out /\
    toolOutputShape out.
Proof.
  intros Hsearch.
  change (executeTools intent query)
    with (try_catch (dispatch intent query) (fun e => Ret (errorOutput e))).
  destruct (try_catch_returns W (dispatch intent query) errorOutput s)
    as [Hres _].
  rewrite Hres. clear Hres.
  destruct (result (run W (dispatch intent query) s)) as [out | e] eqn:Hbody.
  2:{ exists (errorOutput e). split; [reflexivity |].
      right. right. right. eexists. reflexivity. }
  exists out. split; [reflexivity |].
  destruct (is_str intent "answer_question") eqn:Hanswer.
  { apply is_str_eq in Hanswer. subst intent. left.
    exact (yields_answer_fields query W s out Hbody). }
  revert Hbody. unfold dispatch. rewrite Hanswer.
  destruct (is_str intent "search_knowledge_base").
  { rewrite run_bind, run_call. cbn [result trace final].
    destruct (Hsearch s query) as [response [Hresponse Hshape]].
    rewrite Hresponse. cbn. intros Hout. inversion Hout.
    right. left. exists query, response. auto. }
  destruct (is_str intent "get_query_count").
  { rewrite result_bind, run_call. cbn [result trace final].
    destruct (fst (respond W QueryCounter s)) as [count | e]; cbn;
      [| discriminate].
    intros Hout. inversion Hout. right. right. left. eexists. reflexivity. }
  cbn. intros Hout. inversion Hout. right. right. right. eexists. reflexivity.
Qed.

Lemma shape_tagged out :
  toolOutputShape out ->
  exists tag, get out "type" = Ret (JStr tag) /\ In tag outputTags.
Proof.
  intros [[fields [Hout Htype]]
         | [[query [response [Hresponse Hout]]]
           | [[count Hout] | [msg Hout]]]]; subst out.
  - exists "answer". simpl. rewrite Htype. intuition.
  - exists "search". split; [| simpl; intuition].
    simpl. rewrite lookup_spread_absent; [reflexivity |].
    destruct Hresponse as [[chunks [Hr _]] | [e Hr]]; subst response; reflexivity.
  - exists "query_count". simpl. intuition.
  - exists "error". simpl. intuition.
Qed.

Lemma shape_composed intent out :
  toolOutputShape out -> exists reply, generateResponse intent out = Ret reply.
Proof.
  intros [[fields [Hout Htype]]
         | [[query [response [Hresponse Hout]]]
           | [[count Hout] | [msg Hout]]]]; subst out.
  - unfold generateResponse. cbn [get bind]. rewrite Htype.
    cbn [is_str String.eqb Ascii.eqb Bool.eqb]. eexists. reflexivity.
  - destruct Hresponse as [[chunks [Hr Hchunks]] | [e Hr]]; subst response.
    + destruct Hchunks as [| chunk rest [text [Hchunk Htext]] Hrest].
      * eexists. reflexivity.
      * subst chunk. destruct text as [| c text]; [contradiction |].
        unfold generateResponse, successResponse.
        cbn [spread own_props fold_left set_field fst snd String.eqb Ascii.eqb
             Bool.eqb get lookup bind is_str and_then truthy formatted List.length].
        rewrite gt_num_length. cbn [Nat.eqb negb truthy].
        unfold topContent.
        cbn [get lookup String.eqb Ascii.eqb Bool.eqb bind and_then truthy
             get_index nth negb string_method].
        eexists. reflexivity.
    + eexists. reflexivity.
  - eexists. reflexivity.
  - eexists. reflexivity.
Qed.

End Agent.

Section Wiring.
Context {H : Host} (S : System).

Lemma wired_search (s : memory S) (query : JsVal) :
  exists response,
    fst (respond (wired S) (SearchKnowledgeBase query) s) = Ok response /\
    serverResponse query response.
Proof.
  cbn [wired respond fst].
  destruct (exec_lift S (searchKnowledgeBase query) s) as [Hout _].
  rewrite Hout, seen_unseen.
  apply searchKnowledgeBase_serverResponse.
Qed.

Lemma wired_executeTools (s : memory S) (intent query : JsVal) :
  exists out,
    outcome (exec S (wire (executeTools intent query)) s) = Returns out /\
    toolOutputShape out.
Proof.
  destruct (exec_wire S (executeTools intent query) s) as [Hout _].
  destruct (executeTools_shapes (wired S) s intent query wired_search)
    as [out [Hres Hshape]].
  exists out. rewrite Hout, Hres. auto.
Qed.

Lemma wired_search_output (query : JsVal) :
  Gives S (fun out => exists response,
             serverResponse query response /\
             out = JObj (spread [("type", JStr "search")] response))
    (wire (executeTools (JStr "search_knowledge_base") query)).
Proof.
  intros s.
  destruct (exec_wire S (executeTools (JStr "search_knowledge_base") query) s)
    as [Hout _].
  rewrite Hout. unfold executeTools, dispatch.
  cbn [is_str String.eqb Ascii.eqb Bool.eqb].
  rewrite run_try_catch, run_bind, run_call. cbn [result trace final].
  destruct (wired_search s query) as [response [Hresponse Hshape]].
  rewrite Hresponse. cbn. exists (JObj (spread [("type", JStr "search")] response)).
  split; [reflexivity |]. exists response. auto.
Qed.



End Wiring.

(** * The route [/api/index-document] *)

Section IndexRoute.
Context {H : Host} (S : System) (NODE_ENV : string).

(** What [storeInPinecone] has done when it returns. *)
Lemma storeInPinecone_stored (W : World) (s : state W) chunks vectors v :
  result (run W (storeInPinecone chunks vectors) s) = Ok v ->
  List.length vectors = List.length chunks /\
  v = JNum (num (List.length chunks)) /\
  List.length (upserted (trace (run W (storeInPinecone chunks vectors) s)))
  = List.length chunks.
Proof.
  unfold storeInPinecone.
  destruct (Nat.eqb (List.length chunks) (List.length vectors)) eqn:Heq;
    cbn [negb]; [| discriminate].
  apply Nat.eqb_eq in Heq.
  cbn [bind call run result trace].
  destruct (fst (respond W NewPinecone s)) as [client | e]; [| discriminate].
  cbn [bind call run result trace].
  set (s1 := snd (respond W NewPinecone s)).
  destruct (fst (respond W (PineconeIndex PINECONE_INDEX_NAME) s1))
    as [index | e]; [| discriminate].
  cbn [bind].
  set (s2 := snd (respond W (PineconeIndex PINECONE_INDEX_NAME) s1)).
  destruct (run_buildRecords W vectors chunks 0 s2)
    as [Htr [records [Hres [Hlen _]]]].
  rewrite run_bind, Htr, Hres. cbn [result trace final app].
  set (s3 := final (run W (mapi_from (buildRecord vectors) 0 chunks) s2)).
  destruct (run_upsertFrom W records (List.length records) 0 s3)
    as [_ [Hdone _]]; [lia |].
  rewrite run_bind.
  destruct (result (run W (upsertFrom records 0) s3)) as [[] | e] eqn:Hloop;
    cbn [result trace final run app]; [| discriminate].
  intros Hv. inversion Hv. rewrite app_nil_r.
  cbn [upserted flat_map fst app].
  fold (upserted (trace (run W (upsertFrom records 0) s3))).
  rewrite (Hdone eq_refl). cbn [skipn]. rewrite Hlen. auto.
Qed.


(** X15.  What [/api/index-document] refuses with status 400, before it
    does anything: a document text that is missing or falsy, one that is
    not a string, and one of more than 500,000 characters. *)
Theorem indexDocument_validates (s : memory S) (req body documentText : JsVal) :
  let r := exec S (indexDocument NODE_ENV req) s in
  let refused message :=
    {| outcome := Returns (refusal message);
       log := [];
       after := snd (millis S s) |} in
  get req "body" = Ret body -> nullish body = false ->
  get body "documentText" = Ret documentText ->
  (truthy documentText = false -> r = refused "Document text is required.") /\
  (truthy documentText = true -> typeof_string documentText = false ->
   r = refused "Document text must be a string.") /\
  (forall text,
     documentText = JStr text ->
     (500000 < Z.of_nat (String.length text))%Z ->
     r = refused "Document text exceeds maximum length of 500,000 characters.").
Proof.
  intros r refused Hbody Hnull Hdoc. subst r refused.
  unfold indexDocument. cbn [chain now exec].
  rewrite Hbody. cbn [lift chain]. unfold destructure. rewrite Hnull, Hdoc.
  cbn [lift chain].
  split; [| split].
  - intros Hfalsy. rewrite Hfalsy. reflexivity.
  - intros Htruthy Htype. rewrite Htruthy, Htype. reflexivity.
  - intros text Htext Hlong. subst documentText.
    destruct text as [| c text]; [simpl in Hlong; lia |].
    cbn [truthy typeof_string String.eqb negb].
    change (get (JStr (String c text)) "length")
      with (Ret (A := JsVal) (JNum (num (String.length (String c text))))).
    cbn [lift chain].
    assert (Hgt : gt_num (JNum (num (String.length (String c text)))) 500000%Q = true).
    { unfold gt_num, to_number, num, Qle_bool. cbn [Qnum Qden inject_Z].
      rewrite !Z.mul_1_r. apply negb_true_iff, Z.leb_gt. exact Hlong. }
    rewrite Hgt. reflexivity.
Qed.

(** X16.  What status 200 of [/api/index-document] means.  When the
    response has status 200, the splitter gave [n] chunks, [n] at least 1,
    the embedding service gave as many vectors, the vector store took [n]
    records, and the response reports [n] as [chunkCount] and as
    [recordCount]. *)
Theorem indexDocument_indexed (s : memory S) (req : JsVal) (response : Response) :
  let r := exec S (indexDocument NODE_ENV req) s in
  outcome r = Returns response -> status response = 200 ->
  exists documentText chunks vectors finish,
    In (Did (SplitText documentText) (Returns chunks)) (log r) /\
    In (Did (EmbedDocuments (JArr chunks)) (Returns vectors)) (log r) /\
    chunks <> [] /\
    List.length vectors = List.length chunks /\
    List.length (upserted (pipeline (log r))) = List.length chunks /\
    json response
    = JObj [("message", JStr ("Document successfully indexed with "
                              ++ decimal (List.length chunks) ++ " chunks."));
            ("success", JBool true);
            ("chunkCount", JNum (num (List.length chunks)));
            ("recordCount", JNum (num (List.length chunks)));
            ("duration", JNum (finish - fst (millis S s))%Q)].
Proof.
  intros r. subst r. unfold indexDocument. cbn [chain now exec].
  set (startTime := fst (millis S s)). set (s0 := snd (millis S s)).
  rewrite exec_attempt.
  match goal with
  | |- context [exec S ?body s0] => set (body_ := body)
  end.
  destruct (outcome (exec S body_ s0)) as [sent | x] eqn:Hbody.
  2:{ cbn [outcome exec chain now send]. intros Hout Hstatus.
      inversion Hout; subst response. discriminate. }
  cbn [outcome log]. intros Hout Hstatus. inversion Hout; subst sent.
  revert Hbody. subst body_.
  destruct (pure_cases _ (pure_get req "body")) as [[body Hb] | [e Hb]];
    rewrite Hb; cbn [lift chain]; [| discriminate].
  unfold destructure. destruct (nullish body); [discriminate |].
  destruct (pure_cases _ (pure_get body "documentText")) as [[doc Hd] | [e Hd]];
    rewrite Hd; cbn [lift chain]; [| discriminate].
  destruct (negb (truthy doc)).
  { cbn. intros Hr. inversion Hr; subst response. discriminate. }
  destruct (negb (typeof_string doc)).
  { cbn. intros Hr. inversion Hr; subst response. discriminate. }
  destruct (pure_cases _ (pure_get doc "length")) as [[len Hl] | [e Hl]];
    rewrite Hl; cbn [lift chain]; [| discriminate].
  destruct (gt_num len 500000%Q).
  { cbn. intros Hr. inversion Hr; subst response. discriminate. }
  rewrite exec_chain.
  destruct (outcome (exec S (processDocument doc) s0)) as [chunks | x] eqn:Hp;
    [| discriminate].
  destruct (processDocument_returned S s0 doc chunks Hp) as [Hne [Hsplit Hquiet]].
  set (s1 := after (exec S (processDocument doc) s0)).
  cbn [outcome log]. rewrite exec_chain.
  destruct (outcome (exec S (generateEmbeddings (JArr chunks)) s1))
    as [vectors | x] eqn:Hg; [| discriminate].
  destruct (generateEmbeddings_returned S s1 (JArr chunks) vectors Hg)
    as [Hembed Hquiet'].
  set (s2 := after (exec S (generateEmbeddings (JArr chunks)) s1)).
  cbn [outcome log]. rewrite exec_chain.
  destruct (exec_lift S (storeInPinecone chunks vectors) s2) as [Ho [Hl' _]].
  rewrite Ho.
  destruct (result (run (services S) (storeInPinecone chunks vectors) s2))
    as [count | e] eqn:Hstore; [| discriminate].
  destruct (storeInPinecone_stored (services S) s2 chunks vectors count Hstore)
    as [Hlen [Hcount Hall]].
  cbn [unseen outcome log chain now exec send]. intros Hr.
  inversion Hr; subst response. clear Hr Hstatus.
  exists doc, chunks, vectors.
  eexists. split; [apply in_or_app; left; exact Hsplit |].
  split; [apply in_or_app; right; apply in_or_app; left; exact Hembed |].
  split; [exact Hne |]. split; [exact Hlen |].
  split; [| subst count; reflexivity].
  rewrite app_nil_r, !pipeline_app, !upserted_app, Hquiet, Hquiet', Hl'.
  exact Hall.
Qed.

(** X17.  [/api/index-document] when the vectors do not match the chunks.
    [generateEmbeddings] does not count the vectors it is given;
    [storeInPinecone] does, before it stores anything.  So when the
    embedding service answers with another number of vectors than there
    are chunks, nothing is upserted and the response is status 500, with
    the mismatch as [details] in development. *)
Theorem indexDocument_mismatch (s : memory S)
    (req body : JsVal) (text : string) (chunks vectors : list JsVal) :
  let r := exec S (indexDocument NODE_ENV req) s in
  let startTime := fst (millis S s) in
  let split := exec S (processDocument (JStr text)) (snd (millis S s)) in
  let embedded := exec S (generateEmbeddings (JArr chunks)) (after split) in
  let finish := fst (millis S (after embedded)) in
  get req "body" = Ret body -> nullish body = false ->
  get body "documentText" = Ret (JStr text) ->
  text <> "" -> (Z.of_nat (String.length text) <= 500000)%Z ->
  outcome split = Returns chunks ->
  outcome embedded = Returns vectors ->
  List.length vectors <> List.length chunks ->
  outcome r
  = Returns {| status := 500;
               json := JObj [("error", JStr "Failed to index document. Please try again.");
                             ("success", JBool false);
                             ("details", details NODE_ENV
                                (JStr "Mismatch between chunks and vectors length"));
                             ("duration", JNum (finish - startTime)%Q)] |} /\
  upserted (pipeline (log r)) = [].
Proof.
  intros r startTime split embedded finish
         Hbody Hnull Hd Hne Hshort Hsplit Hembedded Hlen.
  subst r. unfold indexDocument. cbn [chain now exec]. fold startTime.
  rewrite Hbody. cbn [lift chain]. unfold destructure. rewrite Hnull, Hd.
  cbn [lift chain].
  destruct text as [| c text]; [contradiction |].
  cbn [truthy typeof_string String.eqb negb].
  change (get (JStr (String c text)) "length")
    with (Ret (A := JsVal) (JNum (num (String.length (String c text))))).
  cbn [lift chain].
  assert (Hgt : gt_num (JNum (num (String.length (String c text)))) 500000%Q = false).
  { unfold gt_num, to_number, num, Qle_bool. cbn [Qnum Qden inject_Z].
    rewrite !Z.mul_1_r. apply negb_false_iff, Z.leb_le. exact Hshort. }
  rewrite Hgt.
  rewrite exec_attempt, exec_chain. fold split. rewrite Hsplit.
  cbn [outcome log after]. rewrite exec_chain. fold embedded. rewrite Hembedded.
  cbn [outcome log after]. unfold storeInPinecone.
  assert (Hneq : Nat.eqb (List.length chunks) (List.length vectors) = false).
  { apply Nat.eqb_neq. congruence. }
  rewrite Hneq.
  cbn [negb lift chain exec outcome log after now send plain reason message].
  fold finish. split; [reflexivity |].
  destruct (processDocument_returned S _ _ _ Hsplit) as [_ [_ Hquiet]].
  destruct (generateEmbeddings_returned S _ _ _ Hembedded) as [_ Hquiet'].
  fold split in Hquiet. fold embedded in Hquiet'.
  rewrite !app_nil_r, pipeline_app, upserted_app, Hquiet, Hquiet'. reflexivity.
Qed.

End IndexRoute.

(** * The route [/api/answer-question] *)

Section AnswerRoute.
Context {H : Host} (S : System) (NODE_ENV : string).

Lemma emptyQuestion_spec question :
  emptyQuestion question = Done (unusable question).
Proof.
  unfold emptyQuestion. rewrite <- missing_guard.
  destruct question as [| | b | x | [| c s] | items | fields]; try reflexivity.
  cbn [missing string_method lift chain unusable]. rewrite trim_empty. reflexivity.
Qed.

Lemma short_question text :
  String.length text <= 1000 ->
  gt_num (JNum (num (String.length text))) 1000%Q = false.
Proof.
  intros Hshort. unfold gt_num, to_number, num, Qle_bool.
  cbn [Qnum Qden inject_Z]. rewrite !Z.mul_1_r.
  apply negb_false_iff, Z.leb_le. lia.
Qed.

Lemma formatted_content i chunks :
  mapi_from (fun result _ => get result "content") i (formatted 0 chunks)
  = Ret chunks.
Proof.
  generalize 0 as j. revert i.
  induction chunks as [| c rest IH]; intros i j; simpl;
    [reflexivity | rewrite IH; reflexivity].
Qed.

Lemma is_num_length n : is_num (JNum (num n)) 0%Q = Nat.eqb n 0.
Proof.
  unfold is_num, num, Qeq_bool. cbn [Qnum Qden inject_Z].
  rewrite !Z.mul_1_r. destruct n; reflexivity.
Qed.

(** X18.  The route [/api/answer-question] answers every request that has
    a body: whatever the question, the model, the services and the file
    system do, the handler throws nothing and sends a response, whose
    status is 200, 400 or 500.  Without a body, [req.body] being
    [undefined] or [null], the handler throws and sends nothing: its
    [catch] block reads [req.body.question] again. *)
Theorem answerQuestion_responds (s : memory S) (req body : JsVal) :
  let r := exec S (answerQuestion NODE_ENV req) s in
  get req "body" = Ret body ->
  (nullish body = false ->
   exists response,
     outcome r = Returns response /\ In (status response) statuses) /\
  (nullish body = true ->
   outcome r = Fails (plain (cannot_read body "question")) /\ log r = []).
Proof.
  intros r Hbody. subst r. split.
  - intros Hnull. revert s.
    change (Gives S (fun response => In (status response) statuses)
              (answerQuestion NODE_ENV req)).
    unfold answerQuestion. cbn [chain now]. apply gives_now. intros startTime.
    apply gives_attempt.
    + ensures; try (simpl; auto).
      match goal with
      | |- context [truthy ?v] => destruct (truthy v)
      end; simpl; auto.
    + intros error. cbn [chain now]. apply gives_now. intros finish.
      rewrite Hbody. cbn [lift chain].
      destruct (get_nonnullish body "question" Hnull) as [question Hq].
      rewrite Hq. cbn [lift chain].
      apply (gives_chain S (fun _ => True)); [apply (gives_logQuery S) |].
      intros _ _. apply gives_done. simpl. auto.
  - intros Hnull. unfold answerQuestion. cbn [chain now exec].
    rewrite Hbody. cbn [lift chain]. unfold destructure. rewrite Hnull.
    cbn [lift chain attempt exec].
    destruct body; try discriminate; split; reflexivity.
Qed.

(** X19.  What [/api/answer-question] refuses with status 400, before it
    does anything: a question that is not a string, is empty or is
    whitespace only, and a question of more than 1,000 characters. *)
Theorem answerQuestion_validates (s : memory S) (req body question : JsVal) :
  let r := exec S (answerQuestion NODE_ENV req) s in
  let refused message :=
    {| outcome := Returns (refusal message);
       log := [];
       after := snd (millis S s) |} in
  get req "body" = Ret body -> nullish body = false ->
  get body "question" = Ret question ->
  (unusable question = true ->
   r = refused "Question is required and cannot be empty.") /\
  (forall text,
     question = JStr text -> blank text = false ->
     1000 < String.length text ->
     r = refused "Question exceeds maximum length of 1,000 characters.").
Proof.
  intros r refused Hbody Hnull Hq. subst r refused.
  unfold answerQuestion. cbn [chain now exec].
  rewrite Hbody. cbn [lift chain]. unfold destructure. rewrite Hnull, Hq.
  cbn [lift chain]. rewrite emptyQuestion_spec. cbn [chain].
  split.
  - intros Hu. rewrite Hu. reflexivity.
  - intros text Htext Hblank Hlong. subst question.
    cbn [unusable]. rewrite Hblank.
    change (get (JStr text) "length")
      with (Ret (A := JsVal) (JNum (num (String.length text)))).
    cbn [lift chain].
    assert (Hgt : gt_num (JNum (num (String.length text))) 1000%Q = true).
    { unfold gt_num, to_number, num, Qle_bool. cbn [Qnum Qden inject_Z].
      rewrite !Z.mul_1_r. apply negb_true_iff, Z.leb_gt. lia. }
    rewrite Hgt. reflexivity.
Qed.

(** X20.  [/api/answer-question] when the intent cannot be analysed.  For
    a question that passes validation, when the call to the model throws
    an error with a message, the response is status 500 with the error
    [Failed to understand your request.]; the message is given as
    [details] in development only.  No tool is run and nothing is logged:
    the call to the model is all the handler has done. *)
Theorem answerQuestion_intent_failure (s : memory S)
    (req body : JsVal) (text : string) (x : Exception) :
  let r := exec S (answerQuestion NODE_ENV req) s in
  let startTime := fst (millis S s) in
  let s0 := snd (millis S s) in
  let modelCall :=
    Service (GenerateContent "gemini-2.5-flash" (intentPrompt (JStr text))) in
  let s1 := snd (answer S _ modelCall s0) in
  let finish := fst (millis S s1) in
  get req "body" = Ret body -> nullish body = false ->
  get body "question" = Ret (JStr text) ->
  blank text = false -> String.length text <= 1000 ->
  fst (answer S _ modelCall s0) = Fails x ->
  message (reason x) <> "" ->
  outcome r
  = Returns {| status := 500;
               json := JObj [("error", JStr "Failed to understand your request.");
                             ("success", JBool false);
                             ("details", details NODE_ENV (JStr (message (reason x))));
                             ("duration", JNum (finish - startTime)%Q)] |} /\
  log r = [Did modelCall (Fails x)].
Proof.
  intros r startTime s0 modelCall s1 finish Hbody Hnull Hq Hblank Hshort Hmodel Hmsg.
  subst r. unfold answerQuestion. cbn [chain now exec]. fold startTime s0.
  rewrite Hbody. cbn [lift chain]. unfold destructure. rewrite Hnull, Hq.
  cbn [lift chain]. rewrite emptyQuestion_spec. cbn [chain unusable].
  rewrite Hblank.
  change (get (JStr text) "length")
    with (Ret (A := JsVal) (JNum (num (String.length text)))).
  cbn [lift chain]. rewrite (short_question text Hshort).
  unfold analyzeIntent. cbn [try_catch bind call wire chain attempt exec].
  fold modelCall. rewrite Hmodel. fold s1.
  cbn [seen try_catch bind wire chain attempt exec outcome log after
       destructure nullish lift get lookup String.eqb Ascii.eqb Bool.eqb truthy].
  assert (Hne : String.eqb (message (reason x)) "" = false)
    by (apply String.eqb_neq; exact Hmsg).
  rewrite Hne. cbn [negb chain now attempt exec send outcome log after].
  fold finish. split; reflexivity.
Qed.


(** X22.  [/api/answer-question] for a question the model does not
    classify.  For a question that passes validation, when the text of the
    model's response, trimmed, is none of the three known labels, no tool
    is run: the response is status 500, with [success] false, and its
    [answer] and its [error] are [I don't understand that request.]. *)
Theorem answerQuestion_unclassified (s : memory S)
    (req body response : JsVal) (text label : string) :
  let r := exec S (answerQuestion NODE_ENV req) s in
  let startTime := fst (millis S s) in
  let s0 := snd (millis S s) in
  let modelCall :=
    Service (GenerateContent "gemini-2.5-flash" (intentPrompt (JStr text))) in
  let finish := fst (millis S (snd (answer S _ modelCall s0))) in
  let sorry := JStr "I don't understand that request." in
  get req "body" = Ret body -> nullish body = false ->
  get body "question" = Ret (JStr text) ->
  blank text = false -> String.length text <= 1000 ->
  fst (answer S _ modelCall s0) = Returns response ->
  responseText response = Ret label ->
  ~ In label knownIntents ->
  outcome r
  = Returns {| status := 500;
               json := JObj [("answer", sorry);
                             ("success", JBool false);
                             ("duration", JNum (finish - startTime)%Q);
                             ("error", sorry)] |} /\
  pipeline (log r) = [(GenerateContent "gemini-2.5-flash" (intentPrompt (JStr text)),
                       Ok response)].
Proof.
  intros r startTime s0 modelCall finish sorry
         Hbody Hnull Hq Hblank Hshort Hmodel Hlabel Hunknown.
  subst r. unfold answerQuestion. cbn [chain now exec]. fold startTime s0.
  rewrite Hbody. cbn [lift chain]. unfold destructure. rewrite Hnull, Hq.
  cbn [lift chain]. rewrite emptyQuestion_spec. cbn [chain unusable].
  rewrite Hblank.
  change (get (JStr text) "length")
    with (Ret (A := JsVal) (JNum (num (String.length text)))).
  cbn [lift chain]. rewrite (short_question text Hshort).
  unfold analyzeIntent. cbn [try_catch bind call wire chain attempt exec].
  fold modelCall. rewrite Hmodel.
  cbn [seen try_catch bind]. rewrite Hlabel. cbn [try_catch bind].
  rewrite (classify_unknown label Hunknown).
  unfold executeTools, dispatch, generateResponse, apiResponse.
  cbn [try_catch bind wire chain nullish lift get lookup String.eqb Ascii.eqb
       Bool.eqb truthy is_str negb now].
  rewrite !exec_attempt. cbn [exec]. fold finish.
  rewrite exec_chain.
  match goal with
  | |- context [exec S (logQuery ?q ?a ?c ?d) ?m] =>
      destruct (logQuery_quiet S m q a c d) as [Hlogged Hquiet]
  end.
  rewrite Hlogged.
  cbn [outcome log after chain exec set_field lookup String.eqb Ascii.eqb
       Bool.eqb truthy].
  split; [reflexivity |].
  rewrite app_nil_r, pipeline_cons, Hquiet. reflexivity.
Qed.

(** X23.  [/api/answer-question] for the count.  For a question that
    passes validation, when the model classifies it as [get_query_count],
    the counter is run once.  When it returns a count, the response is
    status 200 with that count as [queryCount] and the sentence that tells
    it as [answer]; when it throws, the response is status 500 and its
    [error] tells that the count could not be updated. *)
Theorem answerQuestion_counts (s : memory S)
    (req body response : JsVal) (text : string) :
  let r := exec S (answerQuestion NODE_ENV req) s in
  let startTime := fst (millis S s) in
  let s0 := snd (millis S s) in
  let modelCall :=
    Service (GenerateContent "gemini-2.5-flash" (intentPrompt (JStr text))) in
  let counted := exec S queryCounter (snd (answer S _ modelCall s0)) in
  let finish := fst (millis S (after counted)) in
  get req "body" = Ret body -> nullish body = false ->
  get body "question" = Ret (JStr text) ->
  blank text = false -> String.length text <= 1000 ->
  fst (answer S _ modelCall s0) = Returns response ->
  responseText response = Ret "get_query_count" ->
  (forall n,
     outcome counted = Returns n ->
     outcome r
     = Returns {| status := 200;
                  json := JObj [("answer",
                                 JStr ("The total number of queries processed so far is: "
                                       ++ to_string n ++ "."));
                                ("success", JBool true);
                                ("duration", JNum (finish - startTime)%Q);
                                ("queryCount", n)] |}) /\
  (forall x,
     outcome counted = Fails x ->
     let sorry :=
       JStr "An error occurred while processing your request: Failed to update query count." in
     outcome r
     = Returns {| status := 500;
                  json := JObj [("answer", sorry);
                                ("success", JBool false);
                                ("duration", JNum (finish - startTime)%Q);
                                ("error", sorry)] |}).
Proof.
  intros r startTime s0 modelCall counted finish
         Hbody Hnull Hq Hblank Hshort Hmodel Hlabel.
  subst r. unfold answerQuestion. cbn [chain now exec]. fold startTime s0.
  rewrite Hbody. cbn [lift chain]. unfold destructure. rewrite Hnull, Hq.
  cbn [lift chain]. rewrite emptyQuestion_spec. cbn [chain unusable].
  rewrite Hblank.
  change (get (JStr text) "length")
    with (Ret (A := JsVal) (JNum (num (String.length text)))).
  cbn [lift chain]. rewrite (short_question text Hshort).
  unfold analyzeIntent. cbn [try_catch bind call wire chain attempt exec].
  fold modelCall. rewrite Hmodel.
  cbn [seen try_catch bind]. rewrite Hlabel. cbn [try_catch bind].
  change (classify "get_query_count") with "get_query_count".
  unfold executeTools, dispatch.
  cbn [try_catch bind call wire chain nullish lift get lookup String.eqb Ascii.eqb
       Bool.eqb truthy is_str negb outcome].
  rewrite !exec_attempt, !exec_chain.
  destruct (exec_settle S queryCounter (snd (answer S _ modelCall s0)))
    as [Hsettled [_ Hafter]].
  fold counted in Hsettled, Hafter. rewrite Hsettled, Hafter.
  cbn [outcome]. split.
  - intros n Hn. rewrite Hn.
    unfold generateResponse, apiResponse.
    cbn [seen try_catch bind wire chain lift get lookup String.eqb Ascii.eqb
         Bool.eqb truthy is_str negb now exec outcome after].
    fold finish. rewrite exec_chain.
    match goal with
    | |- context [exec S (logQuery ?q ?a ?c ?d) ?m] =>
        destruct (logQuery_quiet S m q a c d) as [Hlogged _]
    end.
    rewrite Hlogged.
    cbn [outcome log after chain exec set_field lookup String.eqb Ascii.eqb
         Bool.eqb truthy].
    reflexivity.
  - intros x Hx. rewrite Hx.
    assert (Hfailure : x = countFailure).
    { apply (queryCounter_throws S (snd (answer S _ modelCall s0))). exact Hx. }
    subst x.
    unfold generateResponse, apiResponse.
    cbn [seen try_catch bind wire chain lift get lookup String.eqb Ascii.eqb
         Bool.eqb truthy is_str negb now exec outcome after countFailure plain
         reason message].
    fold finish. rewrite exec_chain.
    match goal with
    | |- context [exec S (logQuery ?q ?a ?c ?d) ?m] =>
        destruct (logQuery_quiet S m q a c d) as [Hlogged _]
    end.
    rewrite Hlogged.
    cbn [outcome log after chain exec set_field lookup String.eqb Ascii.eqb
         Bool.eqb truthy].
    reflexivity.
Qed.

(** X24.  [/api/answer-question] for a question to answer.  For a question
    that passes validation, when the model classifies it as
    [answer_question], the knowledge base is searched.  When the search
    gives chunks, the response is decided by [generateAnswer] on their
    contents, in order: status 200 with its answer and their number as
    [chunksRetrieved] when it returns, status 500 with the error's message
    in [answer] and [error] when it throws.  When the search fails or gives
    nothing, the model is not asked: the response is status 200 with the
    fixed sentence and [chunksRetrieved] 0. *)
Theorem answerQuestion_answers (s : memory S)
    (req body response : JsVal) (text : string) :
  let r := exec S (answerQuestion NODE_ENV req) s in
  let startTime := fst (millis S s) in
  let s0 := snd (millis S s) in
  let modelCall :=
    Service (GenerateContent "gemini-2.5-flash" (intentPrompt (JStr text))) in
  let found :=
    exec S (lift (searchKnowledgeBase (JStr text))) (snd (answer S _ modelCall s0)) in
  get req "body" = Ret body -> nullish body = false ->
  get body "question" = Ret (JStr text) ->
  blank text = false -> String.length text <= 1000 ->
  fst (answer S _ modelCall s0) = Returns response ->
  responseText response = Ret "answer_question" ->
  (forall chunks,
     outcome found = Returns (successResponse (JStr text) (formatted 0 chunks)) ->
     chunks <> [] ->
     let generated :=
       exec S (lift (generateAnswer (JStr text) (JArr chunks))) (after found) in
     let finish := fst (millis S (after generated)) in
     (forall answer_,
        outcome generated = Returns answer_ ->
        outcome r
        = Returns {| status := 200;
                     json := JObj [("answer", answer_);
                                   ("success", JBool true);
                                   ("duration", JNum (finish - startTime)%Q);
                                   ("chunksRetrieved",
                                    JNum (num (List.length chunks)))] |}) /\
     (forall x,
        outcome generated = Fails x ->
        let sorry :=
          JStr ("An error occurred while processing your request: "
                ++ message (reason x)) in
        outcome r
        = Returns {| status := 500;
                     json := JObj [("answer", sorry);
                                   ("success", JBool false);
                                   ("duration", JNum (finish - startTime)%Q);
                                   ("error", sorry)] |})) /\
  (forall out,
     outcome found = Returns out ->
     (exists e, out = failureResponse (JStr text) e) \/
     out = successResponse (JStr text) [] ->
     outcome r
     = Returns {| status := 200;
                  json := JObj [("answer", JStr noInformation);
                                ("success", JBool true);
                                ("duration",
                                 JNum (fst (millis S (after found)) - startTime)%Q);
                                ("chunksRetrieved", JNum 0%Q)] |}).
Proof.
  intros r startTime s0 modelCall found
         Hbody Hnull Hq Hblank Hshort Hmodel Hlabel.
  subst r. unfold answerQuestion. cbn [chain now exec]. fold startTime s0.
  rewrite Hbody. cbn [lift chain]. unfold destructure. rewrite Hnull, Hq.
  cbn [lift chain]. rewrite emptyQuestion_spec. cbn [chain unusable].
  rewrite Hblank.
  change (get (JStr text) "length")
    with (Ret (A := JsVal) (JNum (num (String.length text)))).
  cbn [lift chain]. rewrite (short_question text Hshort).
  unfold analyzeIntent. cbn [try_catch bind call wire chain attempt exec].
  fold modelCall. rewrite Hmodel.
  cbn [seen try_catch bind]. rewrite Hlabel. cbn [try_catch bind].
  change (classify "answer_question") with "answer_question".
  unfold executeTools, dispatch.
  cbn [try_catch bind call wire chain nullish lift get lookup String.eqb Ascii.eqb
       Bool.eqb truthy is_str negb outcome].
  rewrite !exec_attempt, !exec_chain.
  destruct (exec_settle S (lift (searchKnowledgeBase (JStr text)))
              (snd (answer S _ modelCall s0))) as [Hsettled [_ Hafter]].
  fold found in Hsettled, Hafter. rewrite Hsettled, Hafter.
  cbn [outcome]. split.
  - intros chunks Hfound Hchunks. rewrite Hfound.
    destruct chunks as [| chunk rest]; [contradiction |].
    set (generated := exec S (lift (generateAnswer (JStr text)
                                      (JArr (chunk :: rest)))) (after found)).
    set (finish := fst (millis S (after generated))).
    unfold and_then, successResponse.
    cbn [seen try_catch bind get lookup String.eqb Ascii.eqb Bool.eqb truthy].
    rewrite gt_num_length, formatted_length.
    cbn [List.length Nat.eqb negb truthy try_catch bind get lookup String.eqb
         Ascii.eqb Bool.eqb array_map array_method].
    rewrite formatted_content.
    cbn [try_catch bind call wire].
    rewrite exec_chain.
    destruct (exec_settle S (lift (generateAnswer (JStr text) (JArr (chunk :: rest))))
                (after found)) as [Hanswered [_ Hafter']].
    fold generated in Hanswered, Hafter'. rewrite Hanswered, Hafter'.
    cbn [outcome]. split.
    + intros answer_ Ha. rewrite Ha.
      unfold generateResponse, apiResponse.
      cbn [seen try_catch bind wire chain lift get lookup String.eqb Ascii.eqb
           Bool.eqb truthy is_str negb now exec outcome after].
      fold finish. rewrite exec_chain.
      match goal with
      | |- context [exec S (logQuery ?q ?a ?c ?d) ?m] =>
          destruct (logQuery_quiet S m q a c d) as [Hlogged _]
      end.
      rewrite Hlogged.
      cbn [outcome log after chain exec set_field lookup String.eqb Ascii.eqb
           Bool.eqb truthy].
      reflexivity.
    + intros x Hx. rewrite Hx.
      unfold generateResponse, apiResponse.
      cbn [seen try_catch bind wire chain lift get lookup String.eqb Ascii.eqb
           Bool.eqb truthy is_str negb now exec outcome after].
      fold finish. rewrite exec_chain.
      match goal with
      | |- context [exec S (logQuery ?q ?a ?c ?d) ?m] =>
          destruct (logQuery_quiet S m q a c d) as [Hlogged _]
      end.
      rewrite Hlogged.
      cbn [outcome log after chain exec set_field lookup String.eqb Ascii.eqb
           Bool.eqb truthy].
      reflexivity.
  - intros out Hfound Hout. rewrite Hfound.
    destruct Hout as [[e Hout] | Hout]; subst out;
      unfold and_then, failureResponse, successResponse;
      cbn [seen try_catch bind get lookup String.eqb Ascii.eqb Bool.eqb truthy];
      rewrite ?gt_num_length;
      cbn [List.length Nat.eqb negb truthy try_catch bind wire];
      unfold generateResponse, apiResponse;
      cbn [seen try_catch bind wire chain lift get lookup String.eqb Ascii.eqb
           Bool.eqb truthy is_str negb now exec outcome after];
      rewrite exec_chain;
      match goal with
      | |- context [exec S (logQuery ?q ?a ?c ?d) ?m] =>
          destruct (logQuery_quiet S m q a c d) as [Hlogged _]
      end;
      rewrite Hlogged;
      cbn [outcome log after chain exec set_field lookup String.eqb Ascii.eqb
           Bool.eqb truthy];
      reflexivity.
Qed.
End AnswerRoute.

(** * The route [/api/search-knowledge-base] *)

Section SearchRoute.
Context {H : Host} (S : System) (NODE_ENV : string).

Lemma searchKnowledgeBase_unusable query :
  unusable query = true ->
  searchKnowledgeBase query
  = Ret (failureResponse query (Error "Query cannot be empty or invalid.")).
Proof.
  intros Hu. unfold searchKnowledgeBase, search.
  rewrite invalidQuery_spec, Hu. reflexivity.
Qed.


(** X26.  What [/api/search-knowledge-base] refuses with status 400,
    before it does anything: a question that is missing or falsy, one that
    is not a string, and one of more than 1,000 characters. *)
Theorem searchRoute_validates (s : memory S) (req body question : JsVal) :
  let r := exec S (searchRoute NODE_ENV req) s in
  let refused message :=
    {| outcome := Returns (refusal message);
       log := [];
       after := snd (millis S s) |} in
  get req "body" = Ret body -> nullish body = false ->
  get body "question" = Ret question ->
  (truthy question = false -> r = refused "Question is required.") /\
  (truthy question = true -> typeof_string question = false ->
   r = refused "Question must be a string.") /\
  (forall text,
     question = JStr text -> 1000 < String.length text ->
     r = refused "Question exceeds maximum length of 1,000 characters.").
Proof.
  intros r refused Hbody Hnull Hq. subst r refused.
  unfold searchRoute. cbn [chain now exec].
  rewrite Hbody. cbn [lift chain]. unfold destructure. rewrite Hnull, Hq.
  cbn [lift chain].
  split; [| split].
  - intros Hfalsy. rewrite Hfalsy. reflexivity.
  - intros Htruthy Htype. rewrite Htruthy, Htype. reflexivity.
  - intros text Htext Hlong. subst question.
    destruct text as [| c text]; [simpl in Hlong; lia |].
    cbn [truthy typeof_string String.eqb negb].
    change (get (JStr (String c text)) "length")
      with (Ret (A := JsVal) (JNum (num (String.length (String c text))))).
    cbn [lift chain].
    assert (Hgt : gt_num (JNum (num (String.length (String c text)))) 1000%Q = true).
    { unfold gt_num, to_number, num, Qle_bool. cbn [Qnum Qden inject_Z].
      rewrite !Z.mul_1_r. apply negb_true_iff, Z.leb_gt. lia. }
    rewrite Hgt. reflexivity.
Qed.

(** X27.  [/api/search-knowledge-base] counts a question before it looks
    at it.  A question of whitespace only passes the checks of the route;
    the counter is run, and once it has returned the search refuses the
    question: the response is status 500 with the error [Failed to search
    knowledge base. Please try again.], and the handler has done nothing
    but count. *)
Theorem searchRoute_counts_blank (s : memory S) (req body : JsVal) (text : string) :
  let r := exec S (searchRoute NODE_ENV req) s in
  let startTime := fst (millis S s) in
  let counted := exec S queryCounter (snd (millis S s)) in
  let finish := fst (millis S (after counted)) in
  get req "body" = Ret body -> nullish body = false ->
  get body "question" = Ret (JStr text) ->
  text <> "" -> blank text = true -> String.length text <= 1000 ->
  forall n,
    outcome counted = Returns n ->
    outcome r
    = Returns {| status := 500;
                 json := JObj [("error", JStr "Failed to search knowledge base. Please try again.");
                               ("success", JBool false);
                               ("details", details NODE_ENV
                                             (JStr "Query cannot be empty or invalid."));
                               ("duration", JNum (finish - startTime)%Q)] |} /\
    log r = log counted.
Proof.
  intros r startTime counted finish Hbody Hnull Hq Hne Hblank Hshort n Hn.
  subst r. unfold searchRoute. cbn [chain now exec]. fold startTime.
  rewrite Hbody. cbn [lift chain]. unfold destructure. rewrite Hnull, Hq.
  cbn [lift chain].
  destruct text as [| c text]; [contradiction |].
  cbn [truthy typeof_string String.eqb negb].
  change (get (JStr (String c text)) "length")
    with (Ret (A := JsVal) (JNum (num (String.length (String c text))))).
  cbn [lift chain]. rewrite (short_question _ Hshort).
  rewrite (searchKnowledgeBase_unusable (JStr (String c text))) by exact Hblank.
  rewrite exec_attempt, exec_chain. fold counted. rewrite Hn.
  cbn [lift chain failureResponse get lookup String.eqb Ascii.eqb Bool.eqb
       truthy negb now exec send outcome log after message].
  fold finish. rewrite app_nil_r. split; reflexivity.
Qed.

(** X28.  [/api/search-knowledge-base] when the counter fails.  For a
    question that passes the checks of the route, when [queryCounter]
    throws, the response is status 500 with the error [Failed to answer the
    question. Please try again.], and no service has been called: the
    question is not searched. *)
Theorem searchRoute_counter_failure (s : memory S)
    (req body : JsVal) (text : string) (x : Exception) :
  let r := exec S (searchRoute NODE_ENV req) s in
  let counted := exec S queryCounter (snd (millis S s)) in
  get req "body" = Ret body -> nullish body = false ->
  get body "question" = Ret (JStr text) ->
  text <> "" -> String.length text <= 1000 ->
  outcome counted = Fails x ->
  pipeline (log r) = [] /\
  exists sent duration,
    outcome r = Returns sent /\
    sent = {| status := 500;
              json := JObj [("error", JStr "Failed to answer the question. Please try again.");
                            ("success", JBool false);
                            ("details", details NODE_ENV
                                          (JStr "Failed to update query count."));
                            ("duration", JNum duration)] |}.
Proof.
  intros r counted Hbody Hnull Hq Hne Hshort Hx.
  assert (Hfailure : x = countFailure).
  { apply (queryCounter_throws S (snd (millis S s))). exact Hx. }
  subst x. subst r. unfold searchRoute. cbn [chain now exec].
  rewrite Hbody. cbn [lift chain]. unfold destructure. rewrite Hnull, Hq.
  cbn [lift chain].
  destruct text as [| c text]; [contradiction |].
  cbn [truthy typeof_string String.eqb negb].
  change (get (JStr (String c text)) "length")
    with (Ret (A := JsVal) (JNum (num (String.length (String c text))))).
  cbn [lift chain]. rewrite (short_question _ Hshort).
  rewrite exec_attempt, exec_chain. fold counted. rewrite Hx.
  cbn [outcome log after now chain exec]. rewrite exec_chain.
  match goal with
  | |- context [exec S (logQuery ?q ?a ?c ?d) ?m] =>
      destruct (logQuery_quiet S m q a c d) as [Hlogged Hquiet]
  end.
  rewrite Hlogged. cbn [outcome log after send exec].
  split.
  - rewrite app_nil_r, pipeline_app, Hquiet. unfold counted.
    rewrite (queryCounter_quiet S). reflexivity.
  - eexists _, _. split; reflexivity.
Qed.

(** X29.  [/api/search-knowledge-base] by what the retrieval gives, for a
    question that passes the checks of the route, once the counter has
    returned.  When the search fails, the response is status 500 and
    carries the message of the failure as [details], in development.  When
    the search finds nothing, the response is status 200 with the fixed
    sentence and [chunksRetrieved] 0, and the model is not called: the
    calls of the handler are those of the retrieval. *)
Theorem searchRoute_without_chunks (s : memory S)
    (req body n : JsVal) (text : string) :
  let r := exec S (searchRoute NODE_ENV req) s in
  let startTime := fst (millis S s) in
  let counted := exec S queryCounter (snd (millis S s)) in
  let found := exec S (lift (searchKnowledgeBase (JStr text))) (after counted) in
  let finish := fst (millis S (after found)) in
  get req "body" = Ret body -> nullish body = false ->
  get body "question" = Ret (JStr text) ->
  text <> "" -> String.length text <= 1000 ->
  outcome counted = Returns n ->
  (forall e,
     outcome found = Returns (failureResponse (JStr text) e) ->
     outcome r
     = Returns {| status := 500;
                  json := JObj [("error", JStr "Failed to search knowledge base. Please try again.");
                                ("success", JBool false);
                                ("details", details NODE_ENV (JStr (message e)));
                                ("duration", JNum (finish - startTime)%Q)] |} /\
     pipeline (log r) = pipeline (log found)) /\
  (outcome found = Returns (successResponse (JStr text) []) ->
   outcome r
   = Returns {| status := 200;
                json := JObj [("answer", JStr noInformation);
                              ("success", JBool true);
                              ("chunksRetrieved", JNum 0%Q);
                              ("duration", JNum (finish - startTime)%Q)] |} /\
   pipeline (log r) = pipeline (log found)).
Proof.
  intros r startTime counted found finish Hbody Hnull Hq Hne Hshort Hn.
  subst r. unfold searchRoute. cbn [chain now exec]. fold startTime.
  rewrite Hbody. cbn [lift chain]. unfold destructure. rewrite Hnull, Hq.
  cbn [lift chain].
  destruct text as [| c text]; [contradiction |].
  cbn [truthy typeof_string String.eqb negb].
  change (get (JStr (String c text)) "length")
    with (Ret (A := JsVal) (JNum (num (String.length (String c text))))).
  cbn [lift chain]. rewrite (short_question _ Hshort).
  rewrite exec_attempt, exec_chain. fold counted. rewrite Hn.
  cbn [outcome log after]. rewrite exec_chain. fold found.
  assert (Hcounted : pipeline (log counted) = [])
    by apply (queryCounter_quiet S).
  split.
  - intros e He. rewrite He.
    cbn [outcome log after lift chain failureResponse get lookup String.eqb
         Ascii.eqb Bool.eqb truthy negb now exec send].
    fold finish. split; [reflexivity |].
    rewrite app_nil_r, pipeline_app, Hcounted. reflexivity.
  - intros He. rewrite He.
    cbn [outcome log after lift chain successResponse get lookup String.eqb
         Ascii.eqb Bool.eqb truthy negb array_map array_method mapi_from bind
         List.length].
    change (is_num (JNum (num 0)) 0%Q) with true. cbn iota.
    cbn [now chain exec]. fold finish. rewrite exec_chain.
    match goal with
    | |- context [exec S (logQuery ?q ?a ?c ?d) ?m] =>
        destruct (logQuery_quiet S m q a c d) as [Hlogged Hquiet]
    end.
    rewrite Hlogged. cbn [outcome log after send exec].
    split; [reflexivity |].
    rewrite app_nil_r, !pipeline_app, Hcounted, Hquiet, app_nil_r. reflexivity.
Qed.

(** X30.  [/api/search-knowledge-base] when the retrieval finds chunks, for
    a question that passes the checks of the route, once the counter has
    returned.  The contents of the results, in order, are the context of
    one call of [generateAnswer].  When it returns, the response is status
    200 with its answer and the number of chunks as [chunksRetrieved]; when
    it throws, the response is status 500 and carries the message as
    [details], in development. *)
Theorem searchRoute_with_chunks (s : memory S)
    (req body n : JsVal) (text : string) (chunks : list JsVal) :
  let r := exec S (searchRoute NODE_ENV req) s in
  let startTime := fst (millis S s) in
  let counted := exec S queryCounter (snd (millis S s)) in
  let found := exec S (lift (searchKnowledgeBase (JStr text))) (after counted) in
  let generated :=
    exec S (lift (generateAnswer (JStr text) (JArr chunks))) (after found) in
  let finish := fst (millis S (after generated)) in
  get req "body" = Ret body -> nullish body = false ->
  get body "question" = Ret (JStr text) ->
  text <> "" -> String.length text <= 1000 ->
  outcome counted = Returns n ->
  outcome found = Returns (successResponse (JStr text) (formatted 0 chunks)) ->
  chunks <> [] ->
  (forall answer_,
     outcome generated = Returns answer_ ->
     outcome r
     = Returns {| status := 200;
                  json := JObj [("answer", answer_);
                                ("success", JBool true);
                                ("chunksRetrieved", JNum (num (List.length chunks)));
                                ("duration", JNum (finish - startTime)%Q)] |}) /\
  (forall x,
     outcome generated = Fails x ->
     outcome r
     = Returns {| status := 500;
                  json := JObj [("error", JStr "Failed to answer the question. Please try again.");
                                ("success", JBool false);
                                ("details", details NODE_ENV (JStr (message (reason x))));
                                ("duration", JNum (finish - startTime)%Q)] |}).
Proof.
  intros r startTime counted found generated finish
         Hbody Hnull Hq Hne Hshort Hn Hfound Hchunks.
  subst r. unfold searchRoute. cbn [chain now exec]. fold startTime.
  rewrite Hbody. cbn [lift chain]. unfold destructure. rewrite Hnull, Hq.
  cbn [lift chain].
  destruct text as [| c text]; [contradiction |].
  cbn [truthy typeof_string String.eqb negb].
  change (get (JStr (String c text)) "length")
    with (Ret (A := JsVal) (JNum (num (String.length (String c text))))).
  cbn [lift chain]. rewrite (short_question _ Hshort).
  rewrite exec_attempt, exec_chain. fold counted. rewrite Hn.
  cbn [outcome log after]. rewrite exec_chain. fold found. rewrite Hfound.
  cbn [outcome log after lift chain successResponse get lookup String.eqb
       Ascii.eqb Bool.eqb truthy negb array_map array_method].
  rewrite formatted_content.
  cbn [bind lift chain get String.eqb Ascii.eqb Bool.eqb].
  rewrite is_num_length.
  destruct chunks as [| chunk rest]; [contradiction |].
  cbn [List.length Nat.eqb]. rewrite exec_chain. fold generated.
  split.
  - intros answer_ Ha. rewrite Ha.
    cbn [outcome log after now chain exec]. fold finish. rewrite exec_chain.
    match goal with
    | |- context [exec S (logQuery ?q ?a ?c ?d) ?m] =>
        destruct (logQuery_quiet S m q a c d) as [Hlogged _]
    end.
    rewrite Hlogged. reflexivity.
  - intros x Hx. rewrite Hx.
    cbn [outcome log after now chain exec]. fold finish. rewrite exec_chain.
    match goal with
    | |- context [exec S (logQuery ?q ?a ?c ?d) ?m] =>
        destruct (logQuery_quiet S m q a c d) as [Hlogged _]
    end.
    rewrite Hlogged. reflexivity.
Qed.

End SearchRoute.

(** * The claims at concrete inputs *)

Section Examples.

Example decimal_12 : decimal 12 = "12". Proof. reflexivity. Qed.
Example trim_ex : trim ("  a b " ++ nl) = "a b". Proof. reflexivity. Qed.
Example substring_ex : substring 0 3 "abcdef" = "abc". Proof. reflexivity. Qed.

Example upsert_three :
  calls (trace (run quietWorld (Server.upsertFrom [JNull; JNull; JNull] 0) tt))
  = [IndexUpsert [JNull; JNull; JNull]].
Proof. reflexivity. Qed.

Example upsert_250 :
  map (fun c => match c with IndexUpsert b => List.length b | _ => 0 end)
      (calls (trace (run quietWorld (Server.upsertFrom (repeat JNull 250) 0) tt)))
  = [100; 100; 50].
Proof. vm_compute. reflexivity. Qed.

#[local] Existing Instance exampleHost.


Example classify_multi_token : classify "answer_question please" = "unknown".
Proof. reflexivity. Qed.

Example classify_empty : classify "" = "unknown".
Proof. reflexivity. Qed.

Example classify_hallucinated : classify "delete_everything" = "unknown".
Proof. reflexivity. Qed.

Example analyzeIntent_when_model_fails :
  result (run brokenWorld (analyzeIntent (JStr "capital of France?")) tt)
  = Ok (JObj [("intent", JStr "unknown");
              ("error", JStr "503 Service Unavailable")]).
Proof. reflexivity. Qed.

Example analyzeIntent_without_text :
  result (run emptyIndex (analyzeIntent (JStr "capital of France?")) tt)
  = Ok (JObj [("intent", JStr "unknown");
              ("error", JStr "Cannot read properties of undefined (reading 'text')")]).
Proof. reflexivity. Qed.

Example searchKnowledgeBase_paris :
  result (run parisWorld (searchKnowledgeBase (JStr "capital of France?")) tt)
  = Ok (successResponse (JStr "capital of France?")
          (formatted 0 [paris; JStr "Lyon is a major city."])).
Proof. reflexivity. Qed.





Lemma retrieval_failure_reads_as_empty_witness :
  result (run failingSearch
            (executeTools (JStr "answer_question") (JStr "capital of France?")) tt)
  = Ok emptyAnswer.
Proof.
  apply (retrieval_failure_reads_as_empty failingSearch tt
           (JStr "capital of France?")
           (failureResponse (JStr "capital of France?") (Error "upstream timeout"))
           (JBool false) eq_refl eq_refl eq_refl).
Defined.


Example storeInPinecone_two :
  result (run parisWorld (storeInPinecone twoChunks twoVectors) tt)
  = Ok (JNum 2%Q).
Proof. reflexivity. Qed.

Lemma storeInPinecone_counts_witness :
  (result (run parisWorld (storeInPinecone twoChunks [JArr []]) tt)
   = Thrown (Error "Mismatch between chunks and vectors length") /\
   trace (run parisWorld (storeInPinecone twoChunks [JArr []]) tt) = []) /\
  result (run parisWorld (storeInPinecone twoChunks twoVectors) tt)
  = Ok (JNum (num 2)).
Proof.
  split.
  - apply (storeInPinecone_counts parisWorld tt twoChunks [JArr []]).
    simpl. lia.
  - apply (storeInPinecone_counts parisWorld tt twoChunks twoVectors : _ /\ _).
    + reflexivity.
    + intros c e Hin. vm_compute in Hin.
      repeat (destruct Hin as [Hin | Hin]; [discriminate |]). exact Hin.
Defined.

Example compose_snippet :
  generateResponse (JStr "search_knowledge_base")
    (searchOutput 1 (JArr [parisResult]))
  = Ret (JStr ("Found 1 relevant results. Here's a snippet from the top result: "
               ++ dq ++ "Paris is the capital of France...." ++ dq)).
Proof. reflexivity. Qed.

Example compose_without_results :
  generateResponse (JStr "search_knowledge_base") (searchOutput 2 JUndefined)
  = Ret (JStr "Found 2 relevant results in the knowledge base.").
Proof. reflexivity. Qed.

Example compose_without_first :
  generateResponse (JStr "search_knowledge_base") (searchOutput 2 (JArr []))
  = Ret (JStr "Found 2 relevant results in the knowledge base.").
Proof. reflexivity. Qed.

Example compose_without_content :
  generateResponse (JStr "search_knowledge_base")
    (searchOutput 2 (JArr [JObj [("chunkId", JStr "chunk_0")]]))
  = Ret (JStr "Found 2 relevant results in the knowledge base.").
Proof. reflexivity. Qed.

Example compose_empty_content :
  generateResponse (JStr "search_knowledge_base")
    (searchOutput 2 (JArr [JObj [("content", JStr "")]]))
  = Ret (JStr "Found 2 relevant results in the knowledge base.").
Proof. reflexivity. Qed.

Example compose_no_results :
  generateResponse (JStr "search_knowledge_base") (searchOutput 0 (JArr []))
  = Ret (JStr noResults).
Proof. reflexivity. Qed.

(** C7, as stated, fails: the composer throws when there is no tool
    output, and when the top result's content is truthy and not a
    string. *)
Lemma generateResponse_throws :
  generateResponse (JStr "search_knowledge_base") JUndefined
  = Throw (cannot_read JUndefined "type") /\
  generateResponse (JStr "search_knowledge_base")
    (searchOutput 1 (JArr [JObj [("chunkId", JStr "chunk_0");
                                 ("content", JNum 42%Q)]]))
  = Throw (not_a_function "toolOutput.results[0].content.substring").
Proof. split; reflexivity. Qed.

Lemma generateResponse_search_witness :
  generateResponse (JStr "search_knowledge_base")
    (searchOutput 1 (JArr [parisResult]))
  = Ret (JStr (withSnippet (JNum 1%Q) "Paris is the capital of France.")) /\
  exists reply,
    generateResponse (JStr "search_knowledge_base")
      (searchOutput 1 (JArr [parisResult])) = Ret reply.
Proof.
  destruct (generateResponse_search (JStr "search_knowledge_base")
              (searchOutput 1 (JArr [parisResult]))) as [Hsearch Htotal].
  split.
  - destruct (Hsearch (JBool true) (JNum 1%Q) eq_refl eq_refl eq_refl eq_refl)
      as [Hpositive _].
    destruct (Hpositive eq_refl) as [Hsnippet _].
    apply (Hsnippet "Paris is the capital of France." eq_refl). discriminate.
  - apply Htotal; [reflexivity |].
    intros v Hv _. inversion Hv. reflexivity.
Defined.

(** C8, as stated, fails: [queryDocument] takes a query of whitespace to
    the embedding service and the vector store. *)
Lemma queryDocument_accepts_whitespace :
  unusable (JStr " ") = true /\
  result (run emptyIndex (queryDocument (JStr " ")) tt) = Ok (JArr []) /\
  calls (trace (run emptyIndex (queryDocument (JStr " ")) tt))
  = [NewGoogleGenerativeAIEmbeddings "text-embedding-004";
     EmbedQuery (JStr " ");
     NewPinecone;
     PineconeIndex "rag-exercise-768";
     IndexQuery JUndefined 3 true].
Proof. repeat split. Qed.

Lemma unusable_query_rejected_witness :
  trace (run parisWorld (searchKnowledgeBase (JStr ("  " ++ nl))) tt) = [] /\
  result (run parisWorld (queryDocument (JNum 42%Q)) tt)
  = Thrown (Error "Invalid question provided").
Proof.
  destruct (unusable_query_rejected parisWorld tt (JStr ("  " ++ nl)))
    as [Hsearch _].
  destruct (unusable_query_rejected parisWorld tt (JNum 42%Q))
    as [_ Hquery].
  rewrite (Hsearch eq_refl), (Hquery eq_refl). split; reflexivity.
Defined.

Lemma usable_query_reaches_retrieval_witness :
  exists rest,
    calls (trace (run parisWorld (searchKnowledgeBase (JStr "capital of France?")) tt))
    = NewGoogleGenerativeAIEmbeddings "text-embedding-004" :: rest.
Proof. apply usable_query_reaches_retrieval. reflexivity. Defined.

Lemma relevanceScore64_decreasing_witness :
  PrimFloat.ltb (relevanceScore64 3) (relevanceScore64 2) = true.
Proof. apply relevanceScore64_decreasing. lia. Defined.

Example executeTools_when_counter_fails :
  result (run brokenWorld (executeTools (JStr "get_query_count") (JStr "how many?")) tt)
  = Ok (errorOutput (Error "503 Service Unavailable")).
Proof. reflexivity. Qed.

Example executeTools_unknown :
  result (run brokenWorld (executeTools (JStr "unknown") (JStr "hello")) tt)
  = Ok (JObj [("type", JStr "error");
              ("message", JStr "I don't understand that request.")]) /\
  trace (run brokenWorld (executeTools (JStr "unknown") (JStr "hello")) tt) = [].
Proof. split; reflexivity. Qed.
End Examples.

(** * The server at concrete inputs *)

Section ServerExamples.
#[local] Existing Instance exampleHost.

Example parseInt_examples :
  map parseInt ["41"; "  7 queries"; "-3"; "+5"; "0x1A"; ""; "abc"; "--5"]
  = [Some 41%Z; Some 7%Z; Some (-3)%Z; Some 5%Z; Some 0%Z; None; None; None].
Proof. reflexivity. Qed.

Example integer_examples :
  map integer [0%Z; 42%Z; (-7)%Z] = ["0"; "42"; "-7"].
Proof. reflexivity. Qed.



Lemma logQuery_never_throws_witness :
  log (exec readOnly (logQuery parisQuestion paris (JNum 1%Q) (JNum 12%Q)) tt)
  = [Did (Mkdir logsDir) (Fails eacces)].
Proof.
  destruct (logQuery_never_throws readOnly tt parisQuestion paris (JNum 1%Q)
              (JNum 12%Q)) as [_ [Hfailed _]].
  apply (Hfailed eacces). reflexivity.
Defined.

Lemma queryCounter_counts_witness :
  outcome (exec (office downServices []) queryCounter [(countFile, "41")])
  = Returns (JNum 42%Q).
Proof.
  refine (proj1 (queryCounter_counts (office downServices []) [(countFile, "41")]
                   JUndefined 41%Z _ _ _ JUndefined _)).
  - reflexivity.
  - left. exists "41". split; reflexivity.
  - reflexivity.
  - reflexivity.
Defined.

Lemma queryCounter_counts_up_witness :
  let first := exec (office downServices []) queryCounter [] in
  outcome (exec (office downServices []) queryCounter (after first))
  = Returns (JNum 2%Q).
Proof.
  destruct (queryCounter_counts_up (officeAnswers downServices []) [])
    as [n [_ [Hone Hnext]]].
  rewrite (Hone eq_refl) in Hnext. apply Hnext. reflexivity.
Defined.


Lemma indexDocument_validates_witness :
  outcome (exec (office downServices []) (indexDocument "production"
             (request "documentText" (JNum 5%Q))) [])
  = Returns (refusal "Document text must be a string.").
Proof.
  destruct (indexDocument_validates (office downServices []) "production" []
              (request "documentText" (JNum 5%Q))
              (JObj [("documentText", JNum 5%Q)]) (JNum 5%Q)
              eq_refl eq_refl eq_refl)
    as [_ [Htype _]].
  rewrite (Htype eq_refl eq_refl). reflexivity.
Defined.

Lemma indexDocument_indexed_witness :
  exists documentText (chunks vectors : list JsVal),
    In (Did (SplitText documentText) (Returns chunks))
       (log (exec (office emptyServices twoVectors)
               (indexDocument "production" (request "documentText" paris)) [])) /\
    List.length vectors = List.length chunks /\
    List.length chunks = 2.
Proof.
  assert (Hsent : outcome (exec (office emptyServices twoVectors)
                             (indexDocument "production"
                                (request "documentText" paris)) [])
                  = Returns twoIndexed) by (vm_compute; reflexivity).
  destruct (indexDocument_indexed (office emptyServices twoVectors) "production" []
              (request "documentText" paris) twoIndexed Hsent eq_refl)
    as [documentText [chunks [vectors [finish
          [Hsplit [_ [_ [Hlen [_ Hjson]]]]]]]]].
  exists documentText, chunks, vectors.
  split; [exact Hsplit |]. split; [exact Hlen |].
  inversion Hjson as [[Hmessage Hcount]].
  lia.
Defined.


Lemma answerQuestion_responds_witness :
  (exists response,
     outcome (exec (office downServices []) (answerQuestion "production"
                (request "question" parisQuestion)) [])
     = Returns response /\ In (status response) statuses) /\
  outcome (exec (office downServices []) (answerQuestion "production" (JObj [])) [])
  = Fails (plain (TypeError "Cannot read properties of undefined (reading 'question')")).
Proof.
  destruct (answerQuestion_responds (office downServices []) "production" []
              (request "question" parisQuestion)
              (JObj [("question", parisQuestion)]) eq_refl) as [Hsent _].
  destruct (answerQuestion_responds (office downServices []) "production" []
              (JObj []) JUndefined eq_refl) as [_ Hthrown].
  split; [apply Hsent; reflexivity | apply Hthrown; reflexivity].
Defined.

Lemma answerQuestion_validates_witness :
  outcome (exec (office downServices []) (answerQuestion "production"
             (request "question" (JStr "   "))) [])
  = Returns (refusal "Question is required and cannot be empty.").
Proof.
  destruct (answerQuestion_validates (office downServices []) "production" []
              (request "question" (JStr "   "))
              (JObj [("question", JStr "   ")]) (JStr "   ")
              eq_refl eq_refl eq_refl) as [Hblank _].
  rewrite (Hblank eq_refl). reflexivity.
Defined.

Lemma answerQuestion_intent_failure_witness :
  log (exec (office downServices []) (answerQuestion "development"
         (request "question" parisQuestion)) [])
  = [Did (Service (GenerateContent "gemini-2.5-flash" (intentPrompt parisQuestion)))
         (Fails (plain (Error "503 Service Unavailable")))].
Proof.
  refine (proj2 (answerQuestion_intent_failure (office downServices []) "development"
                   [] (request "question" parisQuestion)
                   (JObj [("question", parisQuestion)]) "capital of France?"
                   (plain (Error "503 Service Unavailable"))
                   eq_refl eq_refl eq_refl eq_refl _ eq_refl _)).
  - vm_compute. lia.
  - discriminate.
Defined.



Lemma searchRoute_validates_witness :
  outcome (exec (office downServices []) (searchRoute "production"
             (request "question" (JNum 5%Q))) [])
  = Returns (refusal "Question must be a string.").
Proof.
  destruct (searchRoute_validates (office downServices []) "production" []
              (request "question" (JNum 5%Q))
              (JObj [("question", JNum 5%Q)]) (JNum 5%Q)
              eq_refl eq_refl eq_refl) as [_ [Htype _]].
  rewrite (Htype eq_refl eq_refl). reflexivity.
Defined.

Lemma searchRoute_counts_blank_witness :
  exists sent,
    outcome (exec (office downServices []) (searchRoute "production"
               (request "question" (JStr "   "))) [])
    = Returns sent /\ status sent = 500.
Proof.
  destruct (searchRoute_counts_blank (office downServices []) "production" []
              (request "question" (JStr "   "))
              (JObj [("question", JStr "   ")]) "   "
              eq_refl eq_refl eq_refl) with (n := JNum 1%Q) as [Hsent _];
    [discriminate | reflexivity | vm_compute; lia | reflexivity |].
  eexists. split; [exact Hsent | reflexivity].
Defined.

Lemma searchRoute_counter_failure_witness :
  pipeline (log (exec readOnly (searchRoute "production"
                   (request "question" parisQuestion)) tt)) = [].
Proof.
  refine (proj1 (searchRoute_counter_failure readOnly "production" tt
                   (request "question" parisQuestion)
                   (JObj [("question", parisQuestion)]) "capital of France?"
                   countFailure eq_refl eq_refl eq_refl _ _ eq_refl)).
  - discriminate.
  - vm_compute. lia.
Defined.

Lemma searchRoute_without_chunks_witness :
  exists sent,
    outcome (exec (office emptyServices []) (searchRoute "production"
               (request "question" parisQuestion)) [])
    = Returns sent /\ status sent = 200.
Proof.
  destruct (searchRoute_without_chunks (office emptyServices []) "production" []
              (request "question" parisQuestion)
              (JObj [("question", parisQuestion)]) (JNum 1%Q) "capital of France?"
              eq_refl eq_refl eq_refl) as [_ Hnothing];
    [discriminate | vm_compute; lia | reflexivity |].
  destruct Hnothing as [Hsent _]; [vm_compute; reflexivity |].
  eexists. split; [exact Hsent | reflexivity].
Defined.

Lemma answerQuestion_unclassified_witness :
  exists sent,
    outcome (exec (office (parisServices "tell_a_joke") [])
               (answerQuestion "production" (request "question" parisQuestion)) [])
    = Returns sent /\ status sent = 500.
Proof.
  destruct (answerQuestion_unclassified (office (parisServices "tell_a_joke") [])
              "production" [] (request "question" parisQuestion)
              (JObj [("question", parisQuestion)])
              (JObj [("text", JStr "tell_a_joke")])
              "capital of France?" "tell_a_joke"
              eq_refl eq_refl eq_refl eq_refl) as [Hsent _];
    [vm_compute; lia | reflexivity | reflexivity | |].
  - simpl. intros [Hx | [Hx | [Hx | []]]]; discriminate.
  - eexists. split; [exact Hsent | reflexivity].
Defined.

Lemma answerQuestion_counts_witness :
  exists sent,
    outcome (exec (office (parisServices "get_query_count") [])
               (answerQuestion "production" (request "question" parisQuestion)) [])
    = Returns sent /\
    status sent = 200 /\
    get (json sent) "queryCount" = Ret (JNum 1%Q).
Proof.
  destruct (answerQuestion_counts (office (parisServices "get_query_count") [])
              "production" [] (request "question" parisQuestion)
              (JObj [("question", parisQuestion)])
              (JObj [("text", JStr "get_query_count")])
              "capital of France?"
              eq_refl eq_refl eq_refl eq_refl) as [Hcounted _];
    [vm_compute; lia | reflexivity | reflexivity |].
  eexists. split; [apply (Hcounted (JNum 1%Q)); reflexivity |].
  split; reflexivity.
Defined.

Lemma answerQuestion_answers_witness :
  exists sent,
    outcome (exec (office (parisServices "answer_question") [])
               (answerQuestion "production" (request "question" parisQuestion)) [])
    = Returns sent /\
    status sent = 200 /\
    get (json sent) "chunksRetrieved" = Ret (JNum 1%Q).
Proof.
  destruct (answerQuestion_answers (office (parisServices "answer_question") [])
              "production" [] (request "question" parisQuestion)
              (JObj [("question", parisQuestion)])
              (JObj [("text", JStr "answer_question")])
              "capital of France?"
              eq_refl eq_refl eq_refl eq_refl) as [Hfound _];
    [vm_compute; lia | reflexivity | reflexivity |].
  destruct (Hfound [paris]) as [Hanswered _];
    [vm_compute; reflexivity | discriminate |].
  eexists. split; [apply (Hanswered (JStr "answer_question")); vm_compute; reflexivity |].
  split; reflexivity.
Defined.

Lemma searchRoute_with_chunks_witness :
  exists sent,
    outcome (exec (office (parisServices "Paris [1]") [])
               (searchRoute "production" (request "question" parisQuestion)) [])
    = Returns sent /\
    status sent = 200 /\
    get (json sent) "answer" = Ret (JStr "Paris [1]").
Proof.
  destruct (searchRoute_with_chunks (office (parisServices "Paris [1]") [])
              "production" [] (request "question" parisQuestion)
              (JObj [("question", parisQuestion)]) (JNum 1%Q)
              "capital of France?" [paris]
              eq_refl eq_refl eq_refl) as [Hanswered _];
    [discriminate | vm_compute; lia | reflexivity | vm_compute; reflexivity
    | discriminate |].
  eexists. split; [apply (Hanswered (JStr "Paris [1]")); vm_compute; reflexivity |].
  split; reflexivity.
Defined.

Lemma indexDocument_mismatch_witness :
  exists sent,
    outcome (exec (office emptyServices [JArr [JNum 1%Q]])
               (indexDocument "development" (request "documentText" paris)) [])
    = Returns sent /\
    status sent = 500 /\
    get (json sent) "details"
    = Ret (JStr "Mismatch between chunks and vectors length").
Proof.
  destruct (indexDocument_mismatch (office emptyServices [JArr [JNum 1%Q]])
              "development" [] (request "documentText" paris)
              (JObj [("documentText", paris)]) "Paris is the capital of France."
              twoChunks [JArr [JNum 1%Q]]
              eq_refl eq_refl eq_refl) as [Hsent _];
    [discriminate | vm_compute; discriminate | reflexivity | reflexivity
    | simpl; lia |].
  eexists. split; [exact Hsent |]. split; reflexivity.
Defined.

Example queryCounter_three_calls :
  let first := exec (office downServices []) queryCounter [] in
  let second := exec (office downServices []) queryCounter (after first) in
  let third := exec (office downServices []) queryCounter (after second) in
  map outcome [first; second; third]
  = [Returns (JNum 1%Q); Returns (JNum 2%Q); Returns (JNum 3%Q)].
Proof. reflexivity. Qed.

Example index_with_services_down :
  status_of (exec (office downServices twoVectors)
               (indexDocument "production" (request "documentText" paris)) [])
  = Some 500.
Proof. reflexivity. Qed.

End ServerExamples.
